(** * Rate Shopper (app.py): store operations and the comparative matrix

    A shallow embedding of [app.py]: the SQLite tables with the CRUD
    functions over them, the seed and the handlers of the forms and
    buttons, the construction of [matriz_dados] on the page
    "Matriz Comparativa", the colouring of each competitor cell, and the
    lines of the chart.

    Conventions of the embedding:
    - a table is the list of its rows, oldest first; [AUTOINCREMENT] keys come
      from one counter per table (SQLite's [sqlite_sequence]);
    - [TEXT] columns are [string], compared bytewise as SQLite's default
      [BINARY] collation does;
    - a [DATE] is the day number of the date ([date.toordinal()]), so that
      [pd.date_range(a, b)] is the run of integers from [a] to [b];
    - a price ([REAL], a Python [float]) is an exact rational: the rounding
      error of binary64 arithmetic, [nan] and [inf] are outside the model;
    - the columns [created_at] and [data_importacao] (timestamps filled in by
      SQLite) are left out: nothing in the program reads them back except to
      sort the list of imports. *)

From Stdlib Require Import Ascii QArith Qround Qabs Lqa DecimalString DecimalN.
From stdpp Require Import gmap strings list fin_maps sorting.

#[local] Open Scope Z_scope.
#[local] Open Scope string_scope.
#[local] Open Scope list_scope.

(** ** Exceptions *)

Inductive exn : Type :=
  | IntegrityError      (* sqlite3.IntegrityError: a UNIQUE constraint failed *)
  | ZeroDivisionError   (* float division by zero *)
  | ValueError          (* float() on text that is no number; a Series used
                          as a condition *)
  | TypeError           (* float(None) *)
  | KeyError.           (* a label missing from the DataFrame *)

Inductive res (A : Type) : Type :=
  | Ok (a : A)
  | Raise (e : exn).
Arguments Ok {A} a.
Arguments Raise {A} e.

#[global] Instance res_ret : MRet res := fun A a => Ok a.
#[global] Instance res_bind : MBind res := fun A B k m =>
  match m with
  | Ok a => k a
  | Raise e => Raise e
  end.

(** ** The tables of [init_database] *)

Record hotel_row : Type := mk_hotel {
  h_id : Z;
  h_nome : string;              (* nome TEXT UNIQUE NOT NULL *)
  h_booking_url : string }.

Record relacionamento_row : Type := mk_relacionamento {
  r_id : Z;
  r_hotel_principal : string;   (* hotel_principal TEXT NOT NULL *)
  r_concorrente : string }.     (* concorrente TEXT NOT NULL *)

Record importacao_row : Type := mk_importacao {
  i_id : Z;
  i_titulo : string;            (* titulo TEXT UNIQUE NOT NULL *)
  i_hotel : string;
  i_total_registros : Z }.

Record tarifa_row : Type := mk_tarifa {
  t_id : Z;
  t_hotel : string;
  t_data : Z;
  t_preco : Q;
  t_sequencia : Z;
  t_importacao_id : option Z }. (* never written by any INSERT: always NULL *)

(** [seq_*] is the largest key handed out so far in each table. The
    [FOREIGN KEY] clauses are declared but never enforced: no connection
    issues [PRAGMA foreign_keys = ON], so they constrain nothing. *)
Record db : Type := mk_db {
  hoteis : list hotel_row;
  seq_hoteis : Z;
  relacionamentos : list relacionamento_row;
  seq_relacionamentos : Z;
  importacoes : list importacao_row;
  seq_importacoes : Z;
  tarifas : list tarifa_row;
  seq_tarifas : Z }.

Definition init_database : db :=
  mk_db [] 0 [] 0 [] 0 [] 0.

(** The store a call leaves behind: [conn.commit()] is reached only when no
    statement raised; otherwise the open transaction is dropped. *)
Definition persistido (r : res db) (antes : db) : db :=
  match r with
  | Ok depois => depois
  | Raise _ => antes
  end.

(** ** CRUD: hotels *)

Definition tem_nome (nome : string) (h : hotel_row) : bool :=
  String.eqb (h_nome h) nome.

(** [criar_hotel] catches the [IntegrityError] of a duplicate name and
    answers [False]. *)
Definition criar_hotel (nome booking_url : string) (st : db) : bool * db :=
  if existsb (tem_nome nome) (hoteis st) then (false, st)
  else
    let id := seq_hoteis st + 1 in
    (true,
     mk_db (hoteis st ++ [mk_hotel id nome booking_url]) id
           (relacionamentos st) (seq_relacionamentos st)
           (importacoes st) (seq_importacoes st)
           (tarifas st) (seq_tarifas st)).

(** [UPDATE hoteis SET nome = ?, booking_url = ? WHERE nome = ?]. The
    statement fails on [UNIQUE(nome)] when a row is renamed to a name another
    row holds; that [IntegrityError] is not caught. *)
Definition atualizar_hotel (nome_antigo nome_novo booking_url : string)
    (st : db) : res db :=
  if existsb (tem_nome nome_antigo) (hoteis st)
     && negb (String.eqb nome_antigo nome_novo)
     && existsb (tem_nome nome_novo) (hoteis st)
  then Raise IntegrityError
  else
    Ok (mk_db
          (map (fun h => if tem_nome nome_antigo h
                         then mk_hotel (h_id h) nome_novo booking_url
                         else h) (hoteis st))
          (seq_hoteis st)
          (relacionamentos st) (seq_relacionamentos st)
          (importacoes st) (seq_importacoes st)
          (tarifas st) (seq_tarifas st)).

(** The four [DELETE] statements of [excluir_hotel]: rates, relationships,
    import batches, then the hotel itself. *)
Definition excluir_hotel (nome : string) (st : db) : db :=
  mk_db
    (List.filter (fun h => negb (String.eqb (h_nome h) nome)) (hoteis st))
    (seq_hoteis st)
    (List.filter (fun r => negb (String.eqb (r_hotel_principal r) nome
                                 || String.eqb (r_concorrente r) nome))
                 (relacionamentos st))
    (seq_relacionamentos st)
    (List.filter (fun i => negb (String.eqb (i_hotel i) nome)) (importacoes st))
    (seq_importacoes st)
    (List.filter (fun t => negb (String.eqb (t_hotel t) nome)) (tarifas st))
    (seq_tarifas st).

(** ** CRUD: relationships *)

Definition criar_relacionamento (hotel_principal concorrente : string)
    (st : db) : db :=
  let id := seq_relacionamentos st + 1 in
  mk_db (hoteis st) (seq_hoteis st)
        (relacionamentos st ++ [mk_relacionamento id hotel_principal concorrente])
        id
        (importacoes st) (seq_importacoes st)
        (tarifas st) (seq_tarifas st).

Definition excluir_relacionamentos (hotel_principal : string) (st : db) : db :=
  mk_db (hoteis st) (seq_hoteis st)
        (List.filter
           (fun r => negb (String.eqb (r_hotel_principal r) hotel_principal))
           (relacionamentos st))
        (seq_relacionamentos st)
        (importacoes st) (seq_importacoes st)
        (tarifas st) (seq_tarifas st).

(** [SELECT concorrente FROM relacionamentos WHERE hotel_principal = ?],
    then [[row[0] for row in cursor.fetchall()]]: a Python list. *)
Definition obter_concorrentes (hotel_principal : string) (st : db)
    : list string :=
  map r_concorrente
      (List.filter
         (fun r => String.eqb (r_hotel_principal r) hotel_principal)
         (relacionamentos st)).

(** The handler of the button "Salvar Relacionamentos": the old rows are
    deleted, then one row is created per selected competitor. *)
Definition salvar_relacionamentos (hotel_principal : string)
    (concorrentes_selecionados : list string) (st : db) : db :=
  fold_left (fun s concorrente => criar_relacionamento hotel_principal concorrente s)
            concorrentes_selecionados
            (excluir_relacionamentos hotel_principal st).

(** ** CRUD: import batches *)

(** [titulo] is [UNIQUE]; the [IntegrityError] of a duplicate title is not
    caught. The result is [cursor.lastrowid]. *)
Definition criar_importacao (titulo hotel : string) (total_registros : Z)
    (st : db) : res (Z * db) :=
  if existsb (fun i => String.eqb (i_titulo i) titulo) (importacoes st)
  then Raise IntegrityError
  else
    let id := seq_importacoes st + 1 in
    Ok (id,
        mk_db (hoteis st) (seq_hoteis st)
              (relacionamentos st) (seq_relacionamentos st)
              (importacoes st ++ [mk_importacao id titulo hotel total_registros])
              id
              (tarifas st) (seq_tarifas st)).

(** [excluir_importacao]: the batch is looked up first ([fetchone]); when it
    exists, the only statement run is the [DELETE] on [importacoes]. *)
Definition excluir_importacao (importacao_id : Z) (st : db) : db :=
  match find (fun i => Z.eqb (i_id i) importacao_id) (importacoes st) with
  | Some importacao_info =>
      mk_db (hoteis st) (seq_hoteis st)
            (relacionamentos st) (seq_relacionamentos st)
            (List.filter (fun i => negb (Z.eqb (i_id i) importacao_id))
                         (importacoes st))
            (seq_importacoes st)
            (tarifas st) (seq_tarifas st)
  | None => st
  end.

(** ** CRUD: rates *)

(** [INSERT INTO tarifas (hotel, data, preco, sequencia) VALUES (?, ?, ?, ?)],
    for a sequence number SQLite can store ([inteiro_sqlite] below): binding
    an integer outside the 64 bits raises [OverflowError] before the
    statement runs, and nothing is stored. The callers in [app.py] pass the
    answer of a widget that bounds the number, or the constant 1. *)
Definition inserir_tarifa (hotel : string) (data : Z) (preco : Q)
    (sequencia : Z) (st : db) : db :=
  let id := seq_tarifas st + 1 in
  mk_db (hoteis st) (seq_hoteis st)
        (relacionamentos st) (seq_relacionamentos st)
        (importacoes st) (seq_importacoes st)
        (tarifas st ++ [mk_tarifa id hotel data preco sequencia None])
        id.

Definition criar_tarifa (hotel : string) (data : Z) (preco : Q) (sequencia : Z)
    (st : db) : db :=
  inserir_tarifa hotel data preco sequencia st.

Definition excluir_tarifa (tarifa_id : Z) (st : db) : db :=
  mk_db (hoteis st) (seq_hoteis st)
        (relacionamentos st) (seq_relacionamentos st)
        (importacoes st) (seq_importacoes st)
        (List.filter (fun t => negb (Z.eqb (t_id t) tarifa_id)) (tarifas st))
        (seq_tarifas st).

(** A row of the DataFrame handed to [importar_tarifas_excel]; the column
    [sequencia] may be absent, [row.get('sequencia', 1)] then gives 1. *)
Record linha_excel : Type := mk_linha {
  l_data : Z;
  l_preco : Q;
  l_sequencia : option Z }.

(** The loop over [df_excel.iterrows()] with its one [INSERT] per row; the
    result is [len(df_excel)]. [titulo_importacao] is a parameter the body
    never reads. *)
Definition importar_tarifas_excel (hotel : string) (df_excel : list linha_excel)
    (titulo_importacao : string) (st : db) : Z * db :=
  (Z.of_nat (length df_excel),
   fold_left
     (fun s row =>
        let data := l_data row in
        let preco := l_preco row in
        let sequencia := default 1 (l_sequencia row) in
        inserir_tarifa hotel data preco sequencia s)
     df_excel st).

(** ** Listings read by the pages *)

(** [ORDER BY nome]; the listings are sorted with a merge sort on the order
    of the clause. *)
Definition ordem_hoteis (a b : hotel_row) : Prop :=
  Is_true (String.leb (h_nome a) (h_nome b)).

Definition listar_hoteis (st : db) : list hotel_row :=
  merge_sort ordem_hoteis (hoteis st).

(** [ORDER BY hotel, data, sequencia]. *)
Definition tarifa_leb (a b : tarifa_row) : bool :=
  match String.compare (t_hotel a) (t_hotel b) with
  | Lt => true
  | Gt => false
  | Eq =>
      match Z.compare (t_data a) (t_data b) with
      | Lt => true
      | Gt => false
      | Eq => Z.leb (t_sequencia a) (t_sequencia b)
      end
  end.

Definition ordem_tarifas (a b : tarifa_row) : Prop :=
  Is_true (tarifa_leb a b).

Definition listar_tarifas (st : db) : list tarifa_row :=
  merge_sort ordem_tarifas (tarifas st).

(** [WHERE hotel = ? ORDER BY data, sequencia]: on the rates of one hotel
    this is the order above. *)
Definition listar_tarifas_por_hotel (hotel : string) (st : db)
    : list tarifa_row :=
  merge_sort ordem_tarifas
    (List.filter (fun t => String.eqb (t_hotel t) hotel) (tarifas st)).

(** ** Floats as text *)

Definition Qltb (x y : Q) : bool :=
  match Qcompare x y with
  | Lt => true
  | _ => false
  end.

(** Rounding of a non-negative number to an integer, ties to the even
    neighbour, as the conversion [.0f] does. *)
Definition arredondar (x : Q) : Z :=
  let f := Qfloor x in
  match Qcompare (x - inject_Z f)%Q (1 # 2)%Q with
  | Lt => f
  | Gt => f + 1
  | Eq => if Z.even f then f else f + 1
  end.

(** [f"{x:.0f}"]: the sign of [x], then the digits of [|x|] rounded. *)
Definition fmt_0f (x : Q) : string :=
  let digitos := NilZero.string_of_uint (N.to_uint (Z.to_N (arredondar (Qabs x)))) in
  if Qltb x 0 then String "-"%char digitos else digitos.

(** [float(s)] on the spellings that reach it in this program: an optional
    minus sign and decimal digits. Anything else is a [ValueError] here. *)
Definition float_de_texto (s : string) : res Q :=
  match NilZero.int_of_string s with
  | Some d => Ok (inject_Z (Z.of_int d))
  | None => Raise ValueError
  end.

Definition seta : string := "→".

(** [sub in s]. *)
Fixpoint contem (sub s : string) : bool :=
  String.prefix sub s
  || match s with
     | EmptyString => false
     | String _ resto => contem sub resto
     end.

(** [s.split(sep)[0]]: the text before the first occurrence of [sep]. *)
Fixpoint split_0 (sep s : string) : string :=
  if String.prefix sep s then EmptyString
  else match s with
       | EmptyString => EmptyString
       | String c resto => String c (split_0 sep resto)
       end.

(** ** The matrix *)

(** What a cell of [matriz_dados] (and of [df_matriz]) holds. *)
Inductive conteudo : Type :=
  | VNone                 (* None *)
  | VFloat (preco : Q)    (* a price *)
  | VStr (texto : string). (* f"{preco_min:.0f}→{preco_max:.0f}" *)

(** [min(precos)] and [max(precos)] on a list with first element [x]: the
    first smallest (largest) element is kept. *)
Definition py_min (x : Q) (resto : list Q) : Q :=
  fold_left (fun m y => if Qltb y m then y else m) resto x.

Definition py_max (x : Q) (resto : list Q) : Q :=
  fold_left (fun m y => if Qltb m y then y else m) resto x.

(** The body of the loop over the dates: [tarifas_data] are the rows of one
    hotel on one date. Dividing by a zero [preco_min] raises. *)
Definition celula (tarifas_data : list tarifa_row) : res conteudo :=
  match tarifas_data with
  | [] => Ok VNone
  | [t] => Ok (VFloat (t_preco t))
  | t :: resto =>
      let preco_min := py_min (t_preco t) (map t_preco resto) in
      let preco_max := py_max (t_preco t) (map t_preco resto) in
      if Qeq_bool preco_min 0 then Raise ZeroDivisionError
      else
        let variacao_pct := ((preco_max - preco_min) / preco_min * 100)%Q in
        if Qltb 0 variacao_pct
        then Ok (VStr (fmt_0f preco_min +:+ seta +:+ fmt_0f preco_max))
        else Ok (VFloat preco_min)
  end.

(** A [for] loop whose body may raise. *)
Fixpoint para_cada {A S : Type} (xs : list A) (corpo : A → S → res S) (s : S)
    : res S :=
  match xs with
  | [] => Ok s
  | x :: xs' => s' ← corpo x s; para_cada xs' corpo s'
  end.

(** [pd.date_range(data_inicio, data_fim).date]. *)
Definition date_range (data_inicio data_fim : Z) : list Z :=
  seqZ data_inicio (data_fim - data_inicio + 1).

(** [matriz_dados[hotel] = {}] followed by the loop over the dates. *)
Definition linha_matriz (tarifas_matriz : list tarifa_row) (hotel : string)
    (datas : list Z) : res (gmap Z conteudo) :=
  let tarifas_hotel :=
    List.filter (fun t => String.eqb (t_hotel t) hotel) tarifas_matriz in
  para_cada datas
    (fun data linha =>
       let tarifas_data :=
         List.filter (fun t => Z.eqb (t_data t) data) tarifas_hotel in
       v ← celula tarifas_data;
       Ok (<[data := v]> linha))
    ∅.

(** The loop over [hoteis_matriz] that fills [matriz_dados]. *)
Definition construir_matriz (hoteis_matriz : list string) (datas : list Z)
    (tarifas_matriz : list tarifa_row) : res (gmap string (gmap Z conteudo)) :=
  para_cada hoteis_matriz
    (fun hotel matriz_dados =>
       linha ← linha_matriz tarifas_matriz hotel datas;
       Ok (<[hotel := linha]> matriz_dados))
    ∅.

Inductive aviso : Type :=
  | CadastreHoteis        (* "Cadastre hotéis primeiro!" *)
  | CadastreTarifas       (* "Cadastre tarifas primeiro!" *)
  | DataInicioPosterior   (* "Data de início deve ser anterior à data de fim!" *)
  | NenhumaTarifaPeriodo  (* "Nenhuma tarifa encontrada no período selecionado!" *)
  | NenhumaTarifaHoteis.  (* "Nenhuma tarifa encontrada para os hotéis
                              selecionados no período!" *)

(** How far the page gets before it renders: it stops on a message, or it
    has [hoteis_matriz], [datas_periodo] and [matriz_dados]. [df_matriz] is
    [matriz_dados] copied cell by cell into a DataFrame. *)
Inductive etapa : Type :=
  | Parou (a : aviso)
  | Montou (hoteis_matriz : list string) (datas_periodo : list Z)
           (matriz_dados : gmap string (gmap Z conteudo)).

Definition no_periodo (data_inicio data_fim : Z) (t : tarifa_row) : bool :=
  Z.leb data_inicio (t_data t) && Z.leb (t_data t) data_fim.

Definition isin (hoteis_matriz : list string) (t : tarifa_row) : bool :=
  existsb (String.eqb (t_hotel t)) hoteis_matriz.

(** The page "Matriz Comparativa" up to the construction of [df_matriz]. *)
Definition montar_matriz (st : db) (hotel_principal : string)
    (data_inicio data_fim : Z) : res etapa :=
  let hoteis_df := listar_hoteis st in
  let tarifas_df := listar_tarifas st in
  if Nat.eqb (length hoteis_df) 0 then Ok (Parou CadastreHoteis)
  else if Nat.eqb (length tarifas_df) 0 then Ok (Parou CadastreTarifas)
  else if Z.ltb data_fim data_inicio then Ok (Parou DataInicioPosterior)
  else
    let tarifas_periodo :=
      List.filter (no_periodo data_inicio data_fim) tarifas_df in
    if Nat.eqb (length tarifas_periodo) 0 then Ok (Parou NenhumaTarifaPeriodo)
    else
      let concorrentes := obter_concorrentes hotel_principal st in
      let hoteis_matriz := hotel_principal :: concorrentes in
      let tarifas_matriz := List.filter (isin hoteis_matriz) tarifas_periodo in
      if Nat.eqb (length tarifas_matriz) 0 then Ok (Parou NenhumaTarifaHoteis)
      else
        let datas_periodo := date_range data_inicio data_fim in
        matriz_dados ← construir_matriz hoteis_matriz datas_periodo tarifas_matriz;
        Ok (Montou hoteis_matriz datas_periodo matriz_dados).

(** ** Rendering the matrix *)

Inductive cor : Type :=
  | Vermelho   (* cor_fundo "#FFCDD2", cor_texto "#B71C1C": AMEACA *)
  | Verde      (* cor_fundo "#C8E6C9", cor_texto "#1B5E20": SEGURO *)
  | Cinza.     (* cor_fundo "#F5F5F5", cor_texto "#424242": NEUTRO *)

(** The four shapes of a [<td>] of the table; the text shown in it (the
    value, or "-") is left out. *)
Inductive td : Type :=
  | TdTraco         (* "-" in grey: the cell holds no value *)
  | TdPrincipal     (* yellow: a cell of the row of [hotel_principal] *)
  | TdCor (c : cor) (* background and text colour chosen by the comparison *)
  | TdSemCor.       (* the value without colours: [hotel_principal] holds no
                       value on that date *)

(** The two blocks "Extrair valor numérico": a text with an arrow gives the
    number before the arrow, anything else goes through [float]. *)
Definition valor_num (v : conteudo) : res Q :=
  match v with
  | VStr s =>
      if contem seta s then float_de_texto (split_0 seta s)
      else float_de_texto s
  | VFloat p => Ok p
  | VNone => Raise TypeError
  end.

(** The block "Concorrentes - comparar com hotel principal", once
    [valor_principal] has been read. The two products are exact here; the
    program rounds them to binary64, so a competitor within one rounding
    error of a threshold can fall on the other side of it (primary 16.6 and
    competitor 15.77: [16.6 * 0.95] is rounded up past 15.77). *)
Definition comparar (valor valor_principal : conteudo) : res td :=
  match valor_principal with
  | VNone => Ok TdSemCor
  | _ =>
      valor_principal_num ← valor_num valor_principal;
      valor_concorrente_num ← valor_num valor;
      if Qltb valor_concorrente_num (valor_principal_num * 0.95)
      then Ok (TdCor Vermelho)
      else if Qltb (valor_principal_num * 1.05) valor_concorrente_num
      then Ok (TdCor Verde)
      else Ok (TdCor Cinza)
  end.

(** The body of the loop "Preços por data" for the value of one cell;
    [valor_principal] is the read [df_matriz.loc[hotel_principal, data]],
    which only the comparison performs. *)
Definition estilo (hotel hotel_principal : string) (valor : conteudo)
    (valor_principal : res conteudo) : res td :=
  match valor with
  | VNone => Ok TdTraco
  | _ =>
      if String.eqb hotel hotel_principal then Ok TdPrincipal
      else vp ← valor_principal; comparar valor vp
  end.

(** [df_matriz.loc[hotel, data]]. With a label that occurs twice in the index
    [.loc] yields a Series, and the condition that tests it next
    ([pd.isna(...)]) raises [ValueError]. *)
Definition loc (df_matriz : gmap string (gmap Z conteudo))
    (hoteis_matriz : list string) (hotel : string) (data : Z) : res conteudo :=
  if Nat.ltb 1 (count_occ String.string_dec hoteis_matriz hotel)
  then Raise ValueError
  else match df_matriz !! hotel ≫= (fun linha => linha !! data) with
       | Some v => Ok v
       | None => Raise KeyError
       end.

Fixpoint mapear {A B : Type} (f : A → res B) (xs : list A) : res (list B) :=
  match xs with
  | [] => Ok []
  | x :: xs' => y ← f x; ys ← mapear f xs'; Ok (y :: ys)
  end.

(** The loop "Linhas dos hotéis": one row of [<td>] per hotel. *)
Definition html_matriz (df_matriz : gmap string (gmap Z conteudo))
    (hoteis_matriz : list string) (hotel_principal : string)
    (datas_periodo : list Z) : res (list (string * list td)) :=
  mapear
    (fun hotel =>
       tds ← mapear
               (fun data =>
                  valor ← loc df_matriz hoteis_matriz hotel data;
                  estilo hotel hotel_principal valor
                         (loc df_matriz hoteis_matriz hotel_principal data))
               datas_periodo;
       Ok (hotel, tds))
    hoteis_matriz.

Inductive pagina : Type :=
  | Mensagem (a : aviso)
  | Tabela (linhas : list (string * list td)).

(** The page "Matriz Comparativa" down to the table. *)
Definition matriz_comparativa (st : db) (hotel_principal : string)
    (data_inicio data_fim : Z) : res pagina :=
  e ← montar_matriz st hotel_principal data_inicio data_fim;
  match e with
  | Parou a => Ok (Mensagem a)
  | Montou hoteis_matriz datas_periodo df_matriz =>
      linhas ← html_matriz df_matriz hoteis_matriz hotel_principal datas_periodo;
      Ok (Tabela linhas)
  end.

(** ** The specification's reading of cells and classes

    The definitions of this module follow the wording of the specification
    (its sections on the Matrix Builder and on the Comparator), not the
    code; the statements below compare the code with them. *)

Module Spec.

Inductive cell : Type :=
  | Empty
  | Single (price : Q)
  | Range (min_price max_price : Q).

Inductive classification : Type :=
  | Threat
  | Safe
  | Neutral
  | Unknown.

(** Empty, Single or Range from the prices observed for one hotel on one
    date; a zero-width range is a point value. *)
Definition resolve (prices : list Q) : cell :=
  match prices with
  | [] => Empty
  | [p] => Single p
  | p :: rest =>
      let min_price := py_min p rest in
      let max_price := py_max p rest in
      if Qeq_bool min_price max_price then Single min_price
      else Range min_price max_price
  end.

(** Single(p) gives p, Range(min, max) gives min. *)
Definition scalar (c : cell) : option Q :=
  match c with
  | Empty => None
  | Single p => Some p
  | Range min_price _ => Some min_price
  end.

(** Classification by the ratio competitor / primary, strict comparisons. *)
Definition classify (threshold : Q) (competitor primary : cell)
    : classification :=
  match scalar competitor, scalar primary with
  | Some c, Some p =>
      let ratio := (c / p)%Q in
      if Qltb ratio (1 - threshold) then Threat
      else if Qltb (1 + threshold) ratio then Safe
      else Neutral
  | _, _ => Unknown
  end.

End Spec.

(** The class a rendered cell stands for; the row of the primary hotel is
    not classified. *)
Definition classificacao (t : td) : option Spec.classification :=
  match t with
  | TdTraco => Some Spec.Unknown
  | TdSemCor => Some Spec.Unknown
  | TdCor Vermelho => Some Spec.Threat
  | TdCor Verde => Some Spec.Safe
  | TdCor Cinza => Some Spec.Neutral
  | TdPrincipal => None
  end.

(** ** Views used by the statements *)

(** The pair a relationship row stands for. *)
Definition par (r : relacionamento_row) : string * string :=
  (r_hotel_principal r, r_concorrente r).

(** The row registers [concorrente] for [hotel_principal]. *)
Definition registrado (hotel_principal concorrente : string)
    (r : relacionamento_row) : bool :=
  String.eqb (r_hotel_principal r) hotel_principal
  && String.eqb (r_concorrente r) concorrente.

(** The columns an [INSERT INTO tarifas] writes. *)
Definition colunas (t : tarifa_row) : string * Z * Q * Z :=
  (t_hotel t, t_data t, t_preco t, t_sequencia t).

(** The rows of one hotel on one date. *)
Definition tarifas_de (hotel : string) (data : Z) (l : list tarifa_row)
    : list tarifa_row :=
  List.filter (fun t => String.eqb (t_hotel t) hotel && Z.eqb (t_data t) data) l.

(** [matriz_dados[hotel][data]], when both keys are present. *)
Definition celula_de (matriz_dados : gmap string (gmap Z conteudo))
    (hotel : string) (data : Z) : option conteudo :=
  matriz_dados !! hotel ≫= (fun linha => linha !! data).

(** The number of cells of the grid. *)
Definition n_celulas (matriz_dados : gmap string (gmap Z conteudo)) : nat :=
  sum_list_with (fun kv => size (snd kv)) (map_to_list matriz_dados).

(** No byte of [s] starts an arrow. *)
Fixpoint sem_seta (s : string) : bool :=
  match s with
  | EmptyString => true
  | String c resto => negb (Ascii.eqb c "226"%char) && sem_seta resto
  end.

(** The number [f"{x:.0f}"] spells. *)
Definition arredondado (x : Q) : Z :=
  if Qltb x 0 then - arredondar (Qabs x) else arredondar (Qabs x).

(** ** Stores used as concrete inputs *)

(** The pair (A, B) registered twice. *)
Definition st_par_repetido : db :=
  criar_relacionamento "A" "B" (criar_relacionamento "A" "B" init_database).

(** Hotels A and B, with B a competitor of A. *)
Definition st_hoteis : db :=
  salvar_relacionamentos "A" ["B"]
    (snd (criar_hotel "B" "" (snd (criar_hotel "A" "" init_database)))).

(** A on day 1 at 100; B on day 1 at 120 and on day 2 at 90. *)
Definition st_cenario : db :=
  criar_tarifa "B" 2 90 1
    (criar_tarifa "B" 1 120 1 (criar_tarifa "A" 1 100 1 st_hoteis)).

(** A spreadsheet with the prices 0 and 5 for day 1, imported for A. *)
Definition st_preco_zero : db :=
  snd (importar_tarifas_excel "A"
         [mk_linha 1 0 (Some 1); mk_linha 1 5 (Some 1)] "lote" st_hoteis).

(** A on day 1 at 100; B on day 1 at 94.6 and at 120. *)
Definition st_faixa : db :=
  criar_tarifa "B" 1 120 2
    (criar_tarifa "B" 1 94.6 1 (criar_tarifa "A" 1 100 1 st_hoteis)).

(** A on day 1 at 0, the single row of an imported sheet; B on day 1 at
    120. *)
Definition st_um_zero : db :=
  criar_tarifa "B" 1 120 1
    (snd (importar_tarifas_excel "A" [mk_linha 1 0 (Some 1)] "lote"
            st_hoteis)).

(** B registered twice as a competitor of A; A on day 1 at 100 and no rate
    of B. *)
Definition st_concorrente_repetido : db :=
  criar_tarifa "A" 1 100 1 (criar_relacionamento "A" "B" st_hoteis).

(** Hotels A and B with one import batch. *)
Definition st_lote : db :=
  persistido (r ← criar_importacao "lote" "A" 2 st_hoteis; Ok (snd r))
             st_hoteis.


(** ** The seed, the forms and the buttons *)

(** The button "LIMPAR TODAS AS TARIFAS": [DELETE FROM tarifas]. The key
    counter of the table stays where it was. *)
Definition limpar_tarifas (st : db) : db :=
  mk_db (hoteis st) (seq_hoteis st)
        (relacionamentos st) (seq_relacionamentos st)
        (importacoes st) (seq_importacoes st)
        [] (seq_tarifas st).

Definition hoteis_iniciais : list (string * string) :=
  [("ECOENCANTO", "https://booking.com/ecoencanto");
   ("VENICE HOTEL", "https://booking.com/venice");
   ("VILA DA LAGOA", "https://booking.com/vilalagoa");
   ("ILHA VITÓRIA", "https://booking.com/ilhavitoria");
   ("MANUS HOTEL", "https://booking.com/manus");
   ("POUSADA XPTO", "https://booking.com/xpto");
   ("HOTEL SABARÁ", "https://booking.com/sabara");
   ("LAGOA RESORT", "https://booking.com/lagoaresort")].

Definition relacionamentos_iniciais : list (string * string) :=
  [("ECOENCANTO", "VENICE HOTEL");
   ("ECOENCANTO", "VILA DA LAGOA");
   ("ECOENCANTO", "HOTEL SABARÁ");
   ("VENICE HOTEL", "ECOENCANTO");
   ("VENICE HOTEL", "MANUS HOTEL");
   ("VENICE HOTEL", "POUSADA XPTO")].

(** [inserir_dados_iniciais]: run at the top of the script, on every run.
    The answer of [criar_hotel] is dropped. *)
Definition inserir_dados_iniciais (st : db) : db :=
  let hoteis_df := listar_hoteis st in
  if Nat.eqb (length hoteis_df) 0 then
    let st1 :=
      fold_left (fun s h => snd (criar_hotel (fst h) (snd h) s))
                hoteis_iniciais st in
    fold_left (fun s r => criar_relacionamento (fst r) (snd r) s)
              relacionamentos_iniciais st1
  else st.

(** What a form shows after it was submitted. *)
Inductive resposta : Type :=
  | Sucesso
  | ErroJaExiste          (* "Hotel '...' já existe!" *)
  | ErroNomeObrigatorio   (* "Nome do hotel é obrigatório!" *)
  | ErroPreco.            (* "Preço deve ser maior que zero!" *)

(** The form "Adicionar Novo Hotel": [if nome_hotel:] is false on the empty
    text. *)
Definition form_hotel (nome_hotel booking_url : string) (st : db)
    : resposta * db :=
  if negb (String.eqb nome_hotel "") then
    let r := criar_hotel nome_hotel booking_url st in
    if fst r then (Sucesso, snd r) else (ErroJaExiste, snd r)
  else (ErroNomeObrigatorio, st).

(** The form "Adicionar Tarifa Manual". *)
Definition form_tarifa (hotel_tarifa : string) (data_tarifa : Z)
    (preco_tarifa : Q) (sequencia_tarifa : Z) (st : db) : resposta * db :=
  if Qltb 0 preco_tarifa
  then (Sucesso,
        criar_tarifa hotel_tarifa data_tarifa preco_tarifa sequencia_tarifa st)
  else (ErroPreco, st).

(** The button "Importar Tarifas" on a sheet already read and converted
    ([df_final]): [linhas] holds the date and the price of each row, the
    sequence number is always 1, and nothing happens while the title is
    empty. A sheet whose dates or prices do not convert never reaches the
    button. *)
Definition importar_planilha (hotel_importar : string) (linhas : list (Z * Q))
    (titulo_importacao : string) (st : db) : db :=
  if negb (String.eqb titulo_importacao "") then
    let df_final := map (fun l => mk_linha (fst l) (snd l) (Some 1)) linhas in
    snd (importar_tarifas_excel hotel_importar df_final titulo_importacao st)
  else st.

(** The names a selectbox offers: [hoteis_df['nome'].tolist()]. *)
Definition hoteis_lista (st : db) : list string :=
  map h_nome (listar_hoteis st).

(** One click that changes the store. *)
Inductive evento : Type :=
  | AdicionarHotel (nome_hotel booking_url : string)
  | RemoverHotel (hotel_remover : string)
  | SalvarRelacionamentos (hotel_principal : string)
                          (concorrentes_selecionados : list string)
  | LimparRelacionamentos (hotel_limpar : string)
  | SalvarTarifa (hotel_tarifa : string) (data_tarifa : Z) (preco_tarifa : Q)
                 (sequencia_tarifa : Z)
  | ImportarTarifas (hotel_importar : string) (linhas : list (Z * Q))
                    (titulo_importacao : string)
  | ExcluirImportacao (importacao_id : Z)
  | LimparTodasTarifas
  | ExcluirTarifa (tarifa_id : Z).

(** The code each click runs. *)
Definition tratar (e : evento) (st : db) : db :=
  match e with
  | AdicionarHotel nome_hotel booking_url =>
      snd (form_hotel nome_hotel booking_url st)
  | RemoverHotel hotel_remover => excluir_hotel hotel_remover st
  | SalvarRelacionamentos hotel_principal concorrentes_selecionados =>
      salvar_relacionamentos hotel_principal concorrentes_selecionados st
  | LimparRelacionamentos hotel_limpar =>
      excluir_relacionamentos hotel_limpar st
  | SalvarTarifa hotel_tarifa data_tarifa preco_tarifa sequencia_tarifa =>
      snd (form_tarifa hotel_tarifa data_tarifa preco_tarifa sequencia_tarifa st)
  | ImportarTarifas hotel_importar linhas titulo_importacao =>
      importar_planilha hotel_importar linhas titulo_importacao st
  | ExcluirImportacao importacao_id => excluir_importacao importacao_id st
  | LimparTodasTarifas => limpar_tarifas st
  | ExcluirTarifa tarifa_id => excluir_tarifa tarifa_id st
  end.

(** What the widgets guarantee about a click: a selectbox answers one of its
    options, and the multiselect of the competitors answers distinct options
    taken from [hoteis_disponiveis], the hotels other than the primary. *)
Definition valido (e : evento) (st : db) : Prop :=
  match e with
  | AdicionarHotel _ _ => True
  | RemoverHotel hotel_remover => hotel_remover ∈ hoteis_lista st
  | SalvarRelacionamentos hotel_principal concorrentes_selecionados =>
      hotel_principal ∈ hoteis_lista st
      ∧ List.NoDup concorrentes_selecionados
      ∧ ∀ c, c ∈ concorrentes_selecionados →
             c ∈ hoteis_lista st ∧ c ≠ hotel_principal
  | LimparRelacionamentos hotel_limpar => hotel_limpar ∈ hoteis_lista st
  | SalvarTarifa hotel_tarifa _ _ _ => hotel_tarifa ∈ hoteis_lista st
  | ImportarTarifas hotel_importar _ _ => hotel_importar ∈ hoteis_lista st
  | ExcluirImportacao _ => True
  | LimparTodasTarifas => True
  | ExcluirTarifa _ => True
  end.

(** The sheet of an import holds no price of zero. *)
Definition planilha_sem_zero (e : evento) : Prop :=
  match e with
  | ImportarTarifas _ linhas _ => Forall (fun l => ¬ (snd l == 0)%Q) linhas
  | _ => True
  end.

(** The stores the application can be in. Every run of the script seeds the
    store and then treats at most one click; the stores reached from the
    empty database are therefore among those closed under the seed and
    under every click the widgets allow whose event satisfies [P]. *)
Inductive alcancavel (P : evento → Prop) : db → Prop :=
  | alcancavel_inicio : alcancavel P init_database
  | alcancavel_semente (st : db) :
      alcancavel P st → alcancavel P (inserir_dados_iniciais st)
  | alcancavel_clique (st : db) (e : evento) :
      alcancavel P st → valido e st → P e → alcancavel P (tratar e st).

(** ** Invariants of the store *)

(** Keys are handed out once: every key of a table is at most the counter
    of the table, and no two rows of a table share a key. *)
Definition tabela_ok {A : Type} (chave : A → Z) (linhas : list A) (seq : Z)
    : Prop :=
  List.NoDup (map chave linhas) ∧ Forall (fun x => (chave x ≤ seq)%Z) linhas.

Definition chaves_ok (st : db) : Prop :=
  tabela_ok h_id (hoteis st) (seq_hoteis st)
  ∧ tabela_ok r_id (relacionamentos st) (seq_relacionamentos st)
  ∧ tabela_ok i_id (importacoes st) (seq_importacoes st)
  ∧ tabela_ok t_id (tarifas st) (seq_tarifas st).

(** No row of any table mentions the hotel name. *)
Definition sem_mencao (nome : string) (st : db) : Prop :=
  Forall (fun h => h_nome h ≠ nome) (hoteis st)
  ∧ Forall (fun r => r_hotel_principal r ≠ nome ∧ r_concorrente r ≠ nome)
           (relacionamentos st)
  ∧ Forall (fun i => i_hotel i ≠ nome) (importacoes st)
  ∧ Forall (fun t => t_hotel t ≠ nome) (tarifas st).

(** What the constraints on names amount to: hotel names and batch titles
    are unique. *)
Definition nomes_unicos (st : db) : Prop :=
  List.NoDup (map h_nome (hoteis st))
  ∧ List.NoDup (map i_titulo (importacoes st)).

(** A store the pages keep consistent: hotel names are unique, every
    relationship joins two registered hotels that differ, no pair is stored
    twice, and no import batch exists. *)
Definition bem_formado (st : db) : Prop :=
  List.NoDup (map h_nome (hoteis st))
  ∧ (∀ r, r ∈ relacionamentos st →
          r_hotel_principal r ∈ map h_nome (hoteis st)
          ∧ r_concorrente r ∈ map h_nome (hoteis st)
          ∧ r_hotel_principal r ≠ r_concorrente r)
  ∧ List.NoDup (map par (relacionamentos st))
  ∧ importacoes st = [].

(** ** The chart "Evolução dos Preços" *)

(** The dict literal [cores_hoteis]: its keys are written in this order, and
    a key written twice keeps the value written last. *)
Definition cores_hoteis (hotel_principal : string) : gmap string string :=
  <["Hotel Teste SQLite" := "#FFEAA7"]>
    (<["Hotel Teste Persistência" := "#96CEB4"]>
       (<["Mirante da Lagoinha" := "#45B7D1"]>
          (<["GRAND PLAZA" := "#4ECDC4"]>
             (<["VENICE HOTEL" := "#FF6B6B"]>
                (<[hotel_principal := "#FFA500"]> ∅))))).

(** One line of the chart. *)
Record traco : Type := mk_traco {
  tr_name : string;
  tr_x : list Z;
  tr_y : list (option Q);
  tr_color : string;
  tr_width : Z;
  tr_marker_size : Z }.

(** The point of one hotel on one date: the number of the cell, or [None]
    (a gap in the line) when the cell holds no value. *)
Definition ponto (df_matriz : gmap string (gmap Z conteudo))
    (hoteis_matriz : list string) (hotel : string) (data : Z)
    : res (option Q) :=
  valor ← loc df_matriz hoteis_matriz hotel data;
  match valor with
  | VNone => Ok None
  | _ => n ← valor_num valor; Ok (Some n)
  end.

(** The loop that adds one trace per hotel of the matrix. *)
Definition grafico (df_matriz : gmap string (gmap Z conteudo))
    (hoteis_matriz : list string) (hotel_principal : string)
    (datas_periodo : list Z) : res (list traco) :=
  mapear
    (fun hotel =>
       precos_hotel ← mapear (ponto df_matriz hoteis_matriz hotel)
                             datas_periodo;
       let datas_hotel := datas_periodo in
       let cor := default "#95A5A6" (cores_hoteis hotel_principal !! hotel) in
       let largura := if String.eqb hotel hotel_principal then 4 else 2 in
       Ok (mk_traco hotel datas_hotel precos_hotel cor largura
                    (if String.eqb hotel hotel_principal then 6 else 4)))
    hoteis_matriz.

(** Two or more rows whose smallest price is zero: the groups on which the
    cell computation divides by zero. *)
Definition grupo_zero (tarifas_data : list tarifa_row) : bool :=
  match tarifas_data with
  | t :: (_ :: _) as resto =>
      Qeq_bool (py_min (t_preco t) (map t_preco resto)) 0
  | _ => false
  end.

(** No stored rate has a price of zero. *)
Definition precos_nao_zero (st : db) : Prop :=
  Forall (fun t => ¬ (t_preco t == 0)%Q) (tarifas st).


(** A store reached by the seed and two submissions of the rate form. *)
Definition st_cliques : db :=
  tratar (SalvarTarifa "VENICE HOTEL" 1 120 1)
    (tratar (SalvarTarifa "ECOENCANTO" 1 100 1)
       (inserir_dados_iniciais init_database)).

(** A store reached by the seed and the import of a sheet with two rates for
    one day, the first of them zero. *)
Definition st_planilha_zero : db :=
  tratar (ImportarTarifas "ECOENCANTO" [(1, 0%Q); (1, 5%Q)] "lote")
    (inserir_dados_iniciais init_database).

(** The page "Matriz Comparativa" down to the chart: the chart is drawn
    after the table, from the same [df_matriz]; a page that stops on a
    message draws none. *)
Definition pagina_grafico (st : db) (hotel_principal : string)
    (data_inicio data_fim : Z) : res (option (list traco)) :=
  e ← montar_matriz st hotel_principal data_inicio data_fim;
  match e with
  | Parou _ => Ok None
  | Montou hoteis_matriz datas_periodo df_matriz =>
      _ ← html_matriz df_matriz hoteis_matriz hotel_principal datas_periodo;
      tracos ← grafico df_matriz hoteis_matriz hotel_principal datas_periodo;
      Ok (Some tracos)
  end.

(** The colours in the order of the legend: threat, neutral, safe. *)
Definition nivel (t : td) : Z :=
  match t with
  | TdCor Vermelho => 0
  | TdCor Cinza => 1
  | TdCor Verde => 2
  | _ => 1
  end.

(** The five names the dict literal [cores_hoteis] spells out. *)
Definition cores_fixas : list (string * string) :=
  [("VENICE HOTEL", "#FF6B6B");
   ("GRAND PLAZA", "#4ECDC4");
   ("Mirante da Lagoinha", "#45B7D1");
   ("Hotel Teste Persistência", "#96CEB4");
   ("Hotel Teste SQLite", "#FFEAA7")].

(** * Properties of the store operations *)

Section Store.
Implicit Types (st : db) (nome outro : string).

Lemma elem_of_List_filter {A : Type} (f : A → bool) (l : list A) (x : A) :
  x ∈ List.filter f l ↔ x ∈ l ∧ f x = true.
Proof. rewrite !list_elem_of_In. apply filter_In. Qed.

Lemma List_filter_filter {A : Type} (f g : A → bool) (l : list A) :
  List.filter f (List.filter g l) = List.filter (fun x => g x && f x) l.
Proof.
  induction l as [|x l IH]; simpl; [done|].
  destruct (g x); simpl; [destruct (f x)|]; by rewrite IH.
Qed.

Lemma eqb_string_false (a b : string) : String.eqb a b = false ↔ a ≠ b.
Proof. apply String.eqb_neq. Qed.

Lemma negb_eqb_string (a b : string) : negb (String.eqb a b) = true ↔ a ≠ b.
Proof. rewrite negb_true_iff. apply String.eqb_neq. Qed.

Lemma obter_concorrentes_pares hotel_principal st :
  obter_concorrentes hotel_principal st =
  map snd (List.filter (fun p => String.eqb (fst p) hotel_principal)
                       (map par (relacionamentos st))).
Proof.
  unfold obter_concorrentes.
  induction (relacionamentos st) as [|r l IH]; simpl; [done|].
  destruct (String.eqb (r_hotel_principal r) hotel_principal); simpl;
    by rewrite IH.
Qed.

Lemma criar_relacionamentos_pares hotel_principal (cs : list string) st :
  map par (relacionamentos
             (fold_left (fun s c => criar_relacionamento hotel_principal c s) cs st)) =
  map par (relacionamentos st) ++ map (fun c => (hotel_principal, c)) cs.
Proof.
  revert st. induction cs as [|c cs IH]; intros st; simpl.
  - by rewrite app_nil_r.
  - rewrite IH. simpl. rewrite map_app. simpl. by rewrite <- app_assoc.
Qed.

Lemma salvar_relacionamentos_pares hotel_principal (cs : list string) st :
  map par (relacionamentos (salvar_relacionamentos hotel_principal cs st)) =
  List.filter (fun p => negb (String.eqb (fst p) hotel_principal))
              (map par (relacionamentos st))
  ++ map (fun c => (hotel_principal, c)) cs.
Proof.
  unfold salvar_relacionamentos. rewrite criar_relacionamentos_pares.
  f_equal. simpl.
  induction (relacionamentos st) as [|r l IH]; simpl; [done|].
  destruct (String.eqb (r_hotel_principal r) hotel_principal); simpl;
    by rewrite IH.
Qed.

Lemma filter_proprios hotel_principal (cs : list string) :
  List.filter (fun p : string * string => String.eqb (fst p) hotel_principal)
              (map (fun c => (hotel_principal, c)) cs) =
  map (fun c => (hotel_principal, c)) cs.
Proof.
  induction cs as [|c cs IH]; simpl; [done|].
  by rewrite String.eqb_refl, IH.
Qed.

Lemma filter_alheios {A : Type} (f : A → bool) (l : list A) :
  List.filter f (List.filter (fun x => negb (f x)) l) = [].
Proof.
  induction l as [|x l IH]; simpl; [done|].
  destruct (f x) eqn:E; simpl; [done|]. by rewrite E.
Qed.

(** C6: saving the competitors of a primary hotel deletes every relationship
    row of that primary and appends one row per selected competitor, in the
    order given; the competitors resolved afterwards are exactly the selected
    ones whatever the store held before, and saving the same selection a
    second time resolves to the same competitors. *)
Theorem salvar_relacionamentos_substitui hotel_principal
    (concorrentes_selecionados : list string) st :
  map par (relacionamentos
             (salvar_relacionamentos hotel_principal concorrentes_selecionados st)) =
    List.filter (fun p => negb (String.eqb (fst p) hotel_principal))
                (map par (relacionamentos st))
    ++ map (fun c => (hotel_principal, c)) concorrentes_selecionados
  ∧ obter_concorrentes hotel_principal
      (salvar_relacionamentos hotel_principal concorrentes_selecionados st) =
    concorrentes_selecionados
  ∧ obter_concorrentes hotel_principal
      (salvar_relacionamentos hotel_principal concorrentes_selecionados
         (salvar_relacionamentos hotel_principal concorrentes_selecionados st)) =
    obter_concorrentes hotel_principal
      (salvar_relacionamentos hotel_principal concorrentes_selecionados st).
Proof.
  assert (H : ∀ s, obter_concorrentes hotel_principal
                (salvar_relacionamentos hotel_principal concorrentes_selecionados s)
              = concorrentes_selecionados).
  { intros s. rewrite obter_concorrentes_pares, salvar_relacionamentos_pares.
    rewrite List.filter_app, filter_alheios, filter_proprios. simpl.
    rewrite map_map. simpl. apply map_id. }
  split; [apply salvar_relacionamentos_pares|].
  split; [apply H|]. by rewrite !H.
Qed.

Lemma elem_of_filter_outros {A : Type} (chave : A → string) nome
    (l : list A) (x : A) :
  x ∈ List.filter (fun y => negb (String.eqb (chave y) nome)) l ↔
  x ∈ l ∧ chave x ≠ nome.
Proof. by rewrite elem_of_List_filter, negb_eqb_string. Qed.

Lemma filter_outro {A : Type} (chave : A → string) nome outro (l : list A) :
  outro ≠ nome →
  List.filter (fun y => String.eqb (chave y) outro)
              (List.filter (fun y => negb (String.eqb (chave y) nome)) l) =
  List.filter (fun y => String.eqb (chave y) outro) l.
Proof.
  intros Hne. rewrite List_filter_filter. apply filter_ext. intros y.
  destruct (String.eqb_spec (chave y) nome) as [Hn|Hn];
    destruct (String.eqb_spec (chave y) outro); simpl; congruence.
Qed.

Lemma obter_concorrentes_excluir_hotel nome outro st :
  outro ≠ nome →
  obter_concorrentes outro (excluir_hotel nome st) =
  List.filter (fun c => negb (String.eqb c nome)) (obter_concorrentes outro st).
Proof.
  intros Hne. unfold obter_concorrentes. simpl.
  induction (relacionamentos st) as [|r l IH]; simpl; [done|].
  destruct (String.eqb_spec (r_hotel_principal r) nome) as [Hn|Hn]; simpl.
  - destruct (String.eqb_spec (r_hotel_principal r) outro); [congruence|done].
  - destruct (String.eqb_spec (r_concorrente r) nome) as [Hc|Hc]; simpl.
    + destruct (String.eqb_spec (r_hotel_principal r) outro); simpl; [|done].
      destruct (String.eqb_spec (r_concorrente r) nome); [done|congruence].
    + destruct (String.eqb_spec (r_hotel_principal r) outro); simpl; [|done].
      destruct (String.eqb_spec (r_concorrente r) nome); [congruence|].
      by rewrite IH.
Qed.

(** C5: after [excluir_hotel nome] the rates, relationships, import batches
    and hotel records left are exactly the former ones that do not mention
    [nome] (a relationship mentions it as primary or as competitor); for
    every other hotel its rates, its import batches and its record are the
    same lists as before, and its competitors are the former ones without
    [nome]. *)
Theorem excluir_hotel_cascata nome st :
  (∀ t, t ∈ tarifas (excluir_hotel nome st) ↔
        t ∈ tarifas st ∧ t_hotel t ≠ nome)
  ∧ (∀ r, r ∈ relacionamentos (excluir_hotel nome st) ↔
          r ∈ relacionamentos st
          ∧ r_hotel_principal r ≠ nome ∧ r_concorrente r ≠ nome)
  ∧ (∀ i, i ∈ importacoes (excluir_hotel nome st) ↔
          i ∈ importacoes st ∧ i_hotel i ≠ nome)
  ∧ (∀ h, h ∈ hoteis (excluir_hotel nome st) ↔
          h ∈ hoteis st ∧ h_nome h ≠ nome)
  ∧ (∀ outro, outro ≠ nome →
       List.filter (fun t => String.eqb (t_hotel t) outro)
                   (tarifas (excluir_hotel nome st)) =
       List.filter (fun t => String.eqb (t_hotel t) outro) (tarifas st)
       ∧ List.filter (fun i => String.eqb (i_hotel i) outro)
                     (importacoes (excluir_hotel nome st)) =
         List.filter (fun i => String.eqb (i_hotel i) outro) (importacoes st)
       ∧ List.filter (fun h => String.eqb (h_nome h) outro)
                     (hoteis (excluir_hotel nome st)) =
         List.filter (fun h => String.eqb (h_nome h) outro) (hoteis st)
       ∧ obter_concorrentes outro (excluir_hotel nome st) =
         List.filter (fun c => negb (String.eqb c nome))
                     (obter_concorrentes outro st)).
Proof.
  split; [intros t; apply (elem_of_filter_outros t_hotel)|].
  split.
  { intros r. simpl. rewrite elem_of_List_filter, negb_true_iff, orb_false_iff.
    by rewrite !eqb_string_false. }
  split; [intros i; apply (elem_of_filter_outros i_hotel)|].
  split; [intros h; apply (elem_of_filter_outros h_nome)|].
  intros outro Hne.
  split; [apply (filter_outro t_hotel), Hne|].
  split; [apply (filter_outro i_hotel), Hne|].
  split; [apply (filter_outro h_nome), Hne|].
  by apply obter_concorrentes_excluir_hotel.
Qed.

(** C7: [excluir_importacao] leaves the table of rates exactly as it was, for
    every store and every batch id; hotels and relationships are untouched
    too, and the batches left are the former ones with another id. *)
Theorem excluir_importacao_so_o_lote (importacao_id : Z) st :
  tarifas (excluir_importacao importacao_id st) = tarifas st
  ∧ hoteis (excluir_importacao importacao_id st) = hoteis st
  ∧ relacionamentos (excluir_importacao importacao_id st) = relacionamentos st
  ∧ (∀ i, i ∈ importacoes (excluir_importacao importacao_id st) ↔
          i ∈ importacoes st ∧ i_id i ≠ importacao_id).
Proof.
  unfold excluir_importacao.
  destruct (find _ (importacoes st)) as [info|] eqn:Hfind; simpl.
  - do 3 (split; [done|]). intros i.
    by rewrite elem_of_List_filter, negb_true_iff, Z.eqb_neq.
  - do 3 (split; [done|]). intros i. split; [|tauto].
    intros Hi. split; [done|]. intros Heq.
    apply list_elem_of_In in Hi.
    eapply find_none in Hfind; [|exact Hi]. simpl in Hfind.
    by apply Z.eqb_neq in Hfind.
Qed.

(** C8, as stated, fails on a store where a pair was registered twice: the
    list returned repeats the competitor. *)
Lemma obter_concorrentes_repete :
  obter_concorrentes "A" st_par_repetido = ["B"; "B"]
  ∧ ¬ List.NoDup (obter_concorrentes "A" st_par_repetido).
Proof.
  split; [reflexivity|].
  intros H. change (List.NoDup ["B"; "B"]) in H.
  inversion H as [|x l Hin _]; subst. apply Hin. by left.
Qed.

Lemma count_occ_obter_concorrentes hotel_principal c st :
  count_occ String.string_dec (obter_concorrentes hotel_principal st) c =
  length (List.filter (registrado hotel_principal c) (relacionamentos st)).
Proof.
  unfold obter_concorrentes, registrado.
  induction (relacionamentos st) as [|r l IH]; simpl; [done|].
  destruct (String.eqb_spec (r_hotel_principal r) hotel_principal); simpl;
    [|done].
  destruct (String.string_dec (r_concorrente r) c) as [->|Hne].
  - rewrite String.eqb_refl. simpl. by rewrite IH.
  - apply String.eqb_neq in Hne. by rewrite Hne.
Qed.

(** C8, amended: [obter_concorrentes] returns a list holding a name exactly
    when a relationship row registers it for the primary hotel, as many
    times as there are such rows; the list is empty, and nothing is raised,
    exactly when no row names the primary hotel; it is free of duplicates
    exactly when no pair is stored twice. *)
Theorem obter_concorrentes_linhas hotel_principal st :
  (∀ c, c ∈ obter_concorrentes hotel_principal st ↔
        ∃ r, r ∈ relacionamentos st
             ∧ r_hotel_principal r = hotel_principal ∧ r_concorrente r = c)
  ∧ (∀ c, count_occ String.string_dec
                    (obter_concorrentes hotel_principal st) c =
          length (List.filter (registrado hotel_principal c)
                              (relacionamentos st)))
  ∧ (obter_concorrentes hotel_principal st = [] ↔
     ∀ r, r ∈ relacionamentos st → r_hotel_principal r ≠ hotel_principal)
  ∧ (List.NoDup (obter_concorrentes hotel_principal st) ↔
     ∀ c, (length (List.filter (registrado hotel_principal c)
                               (relacionamentos st)) ≤ 1)%nat).
Proof.
  split; [|split; [|split]].
  - intros c. unfold obter_concorrentes. rewrite list_elem_of_In, in_map_iff.
    split.
    + intros (r & <- & [Hr Hp]%filter_In). exists r.
      rewrite list_elem_of_In. by apply String.eqb_eq in Hp.
    + intros (r & Hr%list_elem_of_In & Hp & Hc). exists r. split; [done|].
      apply filter_In. split; [done|]. by apply String.eqb_eq.
  - intros c. apply count_occ_obter_concorrentes.
  - unfold obter_concorrentes. split.
    + intros Hnil r Hr Hp.
      apply map_eq_nil in Hnil.
      assert (Hin : In r (List.filter
                (fun r => String.eqb (r_hotel_principal r) hotel_principal)
                (relacionamentos st))).
      { apply filter_In. split; [by apply list_elem_of_In|].
        by apply String.eqb_eq. }
      rewrite Hnil in Hin. destruct Hin.
    + intros Hall.
      induction (relacionamentos st) as [|r l IH]; simpl; [done|].
      destruct (String.eqb_spec (r_hotel_principal r) hotel_principal) as [Hp|Hp].
      * exfalso. eapply Hall; [|exact Hp]. by left.
      * apply IH. intros r' Hr'. apply Hall. by right.
  - rewrite (NoDup_count_occ String.string_dec).
    by setoid_rewrite count_occ_obter_concorrentes.
Qed.

(** The handler that saves relationships stores no pair twice when the
    selection repeats no name. *)
Lemma salvar_relacionamentos_NoDup hotel_principal
    (concorrentes_selecionados : list string) st :
  List.NoDup concorrentes_selecionados →
  List.NoDup (obter_concorrentes hotel_principal
                (salvar_relacionamentos hotel_principal
                   concorrentes_selecionados st)).
Proof.
  intros Hnd. rewrite obter_concorrentes_pares, salvar_relacionamentos_pares.
  rewrite List.filter_app, filter_alheios, filter_proprios. simpl.
  rewrite map_map. simpl. by rewrite map_id.
Qed.

Lemma inserir_linhas hotel (df_excel : list linha_excel) st :
  let st' :=
    fold_left
      (fun s row =>
         inserir_tarifa hotel (l_data row) (l_preco row)
                        (default 1 (l_sequencia row)) s)
      df_excel st in
  map colunas (tarifas st') =
    map colunas (tarifas st)
    ++ map (fun row => (hotel, l_data row, l_preco row,
                        default 1 (l_sequencia row))) df_excel
  ∧ importacoes st' = importacoes st
  ∧ seq_importacoes st' = seq_importacoes st.
Proof.
  revert st. induction df_excel as [|row df IH]; intros st; simpl.
  - by rewrite app_nil_r.
  - destruct (IH (inserir_tarifa hotel (l_data row) (l_preco row)
                    (default 1 (l_sequencia row)) st)) as (-> & -> & ->).
    simpl. rewrite map_app. simpl. by rewrite <- app_assoc.
Qed.

(** C9: [importar_tarifas_excel] returns the number of rows of the sheet and
    appends one rate per row, in order, with the hotel given, the date and
    price of the row and its sequence number (1 when absent); the table of
    import batches and its key counter are unchanged, and the result does
    not depend on the title. *)
Theorem importar_tarifas_excel_sem_lote hotel (df_excel : list linha_excel)
    (titulo_importacao : string) st :
  fst (importar_tarifas_excel hotel df_excel titulo_importacao st) =
    Z.of_nat (length df_excel)
  ∧ map colunas
        (tarifas (snd (importar_tarifas_excel hotel df_excel titulo_importacao st))) =
    map colunas (tarifas st)
    ++ map (fun row => (hotel, l_data row, l_preco row,
                        default 1 (l_sequencia row))) df_excel
  ∧ importacoes (snd (importar_tarifas_excel hotel df_excel titulo_importacao st)) =
    importacoes st
  ∧ seq_importacoes (snd (importar_tarifas_excel hotel df_excel titulo_importacao st)) =
    seq_importacoes st
  ∧ (∀ outro_titulo,
       importar_tarifas_excel hotel df_excel outro_titulo st =
       importar_tarifas_excel hotel df_excel titulo_importacao st).
Proof.
  destruct (inserir_linhas hotel df_excel st) as (Ht & Hi & Hs).
  unfold importar_tarifas_excel. simpl.
  by rewrite Ht, Hi, Hs.
Qed.

(** C10: whatever [atualizar_hotel] does to the table of hotels, the rates,
    relationships and import batches it leaves behind are the ones it found:
    every hotel name resolves to the same competitors and the same rates as
    before, so nothing stored under the old name moves to the new one. When
    the new name is free the call succeeds and renames the hotel record. *)
Theorem atualizar_hotel_nao_migra (nome_antigo nome_novo booking_url : string) st :
  tarifas (persistido (atualizar_hotel nome_antigo nome_novo booking_url st) st) =
    tarifas st
  ∧ relacionamentos
      (persistido (atualizar_hotel nome_antigo nome_novo booking_url st) st) =
    relacionamentos st
  ∧ importacoes
      (persistido (atualizar_hotel nome_antigo nome_novo booking_url st) st) =
    importacoes st
  ∧ (∀ h, obter_concorrentes h
            (persistido (atualizar_hotel nome_antigo nome_novo booking_url st) st) =
          obter_concorrentes h st)
  ∧ (∀ h, listar_tarifas_por_hotel h
            (persistido (atualizar_hotel nome_antigo nome_novo booking_url st) st) =
          listar_tarifas_por_hotel h st)
  ∧ (existsb (tem_nome nome_novo) (hoteis st) = false →
     ∃ st', atualizar_hotel nome_antigo nome_novo booking_url st = Ok st'
            ∧ map h_nome (hoteis st') =
              map (fun x => if String.eqb x nome_antigo then nome_novo else x)
                  (map h_nome (hoteis st))).
Proof.
  unfold atualizar_hotel.
  destruct (existsb (tem_nome nome_antigo) (hoteis st)
            && negb (String.eqb nome_antigo nome_novo)
            && existsb (tem_nome nome_novo) (hoteis st)) eqn:Hcol; simpl.
  - do 5 (split; [done|]). intros Hn. rewrite Hn in Hcol.
    by rewrite andb_false_r in Hcol.
  - do 5 (split; [done|]). intros _. eexists. split; [done|]. simpl.
    rewrite !map_map. apply map_ext. intros h. unfold tem_nome.
    by destruct (String.eqb (h_nome h) nome_antigo).
Qed.

End Store.

(** * Properties of the matrix *)

Section Precos.
#[local] Open Scope Q_scope.

Lemma Qltb_lt (x y : Q) : Qltb x y = true ↔ x < y.
Proof.
  unfold Qltb. rewrite Qlt_alt. destruct (x ?= y); split; congruence.
Qed.

Lemma Qltb_ge (x y : Q) : Qltb x y = false ↔ y <= x.
Proof.
  rewrite <- not_true_iff_false, Qltb_lt. split.
  - apply Qnot_lt_le.
  - intros H1 H2. apply (Qlt_irrefl x). eapply Qlt_le_trans; eauto.
Qed.

Lemma py_min_In (x : Q) (l : list Q) : In (py_min x l) (x :: l).
Proof.
  unfold py_min. revert x. induction l as [|y l IH]; intros x; simpl.
  - by left.
  - destruct (IH (if Qltb y x then y else x)) as [H|H]; [|by right; right].
    rewrite <- H. destruct (Qltb y x); [right; by left | by left].
Qed.

Lemma py_max_In (x : Q) (l : list Q) : In (py_max x l) (x :: l).
Proof.
  unfold py_max. revert x. induction l as [|y l IH]; intros x; simpl.
  - by left.
  - destruct (IH (if Qltb x y then y else x)) as [H|H]; [|by right; right].
    rewrite <- H. destruct (Qltb x y); [right; by left | by left].
Qed.

Lemma py_min_le_acc (x : Q) (l : list Q) : py_min x l <= x.
Proof.
  unfold py_min. revert x. induction l as [|y l IH]; intros x; simpl.
  - apply Qle_refl.
  - eapply Qle_trans; [apply IH|].
    destruct (Qltb y x) eqn:E; [|apply Qle_refl].
    apply Qlt_le_weak. by apply Qltb_lt.
Qed.

Lemma py_min_le (x : Q) (l : list Q) (y : Q) :
  In y (x :: l) → py_min x l <= y.
Proof.
  revert x. induction l as [|z l IH]; intros x [<-|Hin].
  - apply Qle_refl.
  - destruct Hin.
  - apply py_min_le_acc.
  - unfold py_min. simpl. fold (py_min (if Qltb z x then z else x) l).
    destruct Hin as [<-|Hin].
    + eapply Qle_trans; [apply py_min_le_acc|].
      destruct (Qltb z x) eqn:E; [apply Qle_refl|]. by apply Qltb_ge.
    + apply IH. by right.
Qed.

Lemma py_max_ge_acc (x : Q) (l : list Q) : x <= py_max x l.
Proof.
  unfold py_max. revert x. induction l as [|y l IH]; intros x; simpl.
  - apply Qle_refl.
  - eapply Qle_trans; [|apply IH].
    destruct (Qltb x y) eqn:E; [|apply Qle_refl].
    apply Qlt_le_weak. by apply Qltb_lt.
Qed.

Lemma py_max_ge (x : Q) (l : list Q) (y : Q) :
  In y (x :: l) → y <= py_max x l.
Proof.
  revert x. induction l as [|z l IH]; intros x [<-|Hin].
  - apply Qle_refl.
  - destruct Hin.
  - apply py_max_ge_acc.
  - unfold py_max. simpl. fold (py_max (if Qltb x z then z else x) l).
    destruct Hin as [<-|Hin].
    + eapply Qle_trans; [|apply py_max_ge_acc].
      destruct (Qltb x z) eqn:E; [apply Qle_refl|]. by apply Qltb_ge.
    + apply IH. by right.
Qed.

Lemma py_min_le_max (x : Q) (l : list Q) : py_min x l <= py_max x l.
Proof. apply py_min_le, py_max_In. Qed.

(** For a positive minimum the test [variacao_pct > 0] is [min < max]. *)
Lemma variacao_pct_pos (mn mx : Q) :
  0 < mn → mn <= mx →
  Qltb 0 ((mx - mn) / mn * 100) = Qltb mn mx.
Proof.
  intros Hpos Hle. destruct (Qltb mn mx) eqn:E.
  - apply Qltb_lt in E. apply Qltb_lt.
    apply Qmult_lt_0_compat; [|reflexivity].
    apply Qlt_shift_div_l; [done|]. lra.
  - apply Qltb_ge in E. apply Qltb_ge.
    assert (Heq : mx == mn) by lra.
    assert (Hz : (mx - mn) / mn * 100 == 0).
    { rewrite Heq. field. lra. }
    rewrite Hz. apply Qle_refl.
Qed.

End Precos.

Section Matriz.

Lemma celula_varias (t t' : tarifa_row) (resto : list tarifa_row) :
  celula (t :: t' :: resto) =
  let preco_min := py_min (t_preco t) (map t_preco (t' :: resto)) in
  let preco_max := py_max (t_preco t) (map t_preco (t' :: resto)) in
  if Qeq_bool preco_min 0 then Raise ZeroDivisionError
  else if Qltb 0 ((preco_max - preco_min) / preco_min * 100)
       then Ok (VStr (fmt_0f preco_min +:+ seta +:+ fmt_0f preco_max))
       else Ok (VFloat preco_min).
Proof. reflexivity. Qed.

Lemma celula_ok (tarifas_data : list tarifa_row) :
  Forall (fun t => ¬ (t_preco t == 0)%Q) tarifas_data →
  ∃ v, celula tarifas_data = Ok v.
Proof.
  intros Hnz. destruct tarifas_data as [|t [|t' resto]];
    [by eexists | by eexists |].
  rewrite celula_varias. cbv zeta.
  set (mn := py_min _ _). set (mx := py_max _ _).
  destruct (Qeq_bool mn 0) eqn:E.
  - exfalso. apply Qeq_bool_iff in E.
    pose proof (py_min_In (t_preco t) (map t_preco (t' :: resto))) as Hin.
    change (In mn (map t_preco (t :: t' :: resto))) in Hin.
    apply in_map_iff in Hin as (x & Hx & Hin).
    rewrite Forall_forall in Hnz. apply (Hnz x); [by apply list_elem_of_In|].
    by rewrite Hx.
  - destruct (Qltb 0 _); by eexists.
Qed.

(** Two or more rows whose smallest price is zero always raise. *)
Lemma celula_minimo_zero (t t' : tarifa_row) (resto : list tarifa_row) :
  (py_min (t_preco t) (map t_preco (t' :: resto)) == 0)%Q →
  celula (t :: t' :: resto) = Raise ZeroDivisionError.
Proof.
  intros Hz. rewrite celula_varias. cbv zeta.
  apply Qeq_bool_iff in Hz. by rewrite Hz.
Qed.

(** A loop that stores one computed value per key. *)
Lemma para_cada_insert `{Countable K} {V : Type} (f : K → res V)
    (xs : list K) (m0 : gmap K V) :
  (∀ x, x ∈ xs → ∃ v, f x = Ok v) →
  ∃ m, para_cada xs (fun x m => v ← f x; Ok (<[x := v]> m)) m0 = Ok m
       ∧ (∀ k, k ∈ xs → ∃ v, f k = Ok v ∧ m !! k = Some v)
       ∧ (∀ k, k ∉ xs → m !! k = m0 !! k).
Proof.
  revert m0. induction xs as [|x xs IH]; intros m0 Hok; simpl.
  - exists m0. split; [done|]. split; [|done].
    intros k Hk. by apply elem_of_nil in Hk.
  - destruct (Hok x) as [v Hv]; [by left|]. rewrite Hv. simpl.
    destruct (IH (<[x := v]> m0)) as (m & Hm & Hin & Hout).
    { intros y Hy. apply Hok. by right. }
    exists m. split; [done|]. split.
    + intros k Hk. destruct (decide (k ∈ xs)) as [Hxs|Hxs]; [by apply Hin|].
      apply elem_of_cons in Hk as [->|Hk]; [|done].
      exists v. split; [done|]. rewrite Hout; [|done]. apply lookup_insert_eq.
    + intros k Hk. apply not_elem_of_cons in Hk as [Hne Hk].
      rewrite Hout; [|done]. by apply lookup_insert_ne.
Qed.

Lemma tamanho_por_chaves `{Countable K} {V : Type} (m : gmap K V)
    (xs : list K) :
  (∀ k, is_Some (m !! k) ↔ k ∈ xs) →
  size m = size (list_to_set xs : gset K).
Proof.
  intros Hk. rewrite <- size_dom. f_equal. apply set_eq. intros k.
  by rewrite elem_of_dom, elem_of_list_to_set.
Qed.

Lemma sum_list_with_const {A : Type} (f : A → nat) (n : nat) (l : list A) :
  Forall (fun x => f x = n) l → sum_list_with f l = (length l * n)%nat.
Proof. induction 1 as [|x l Hx _ IH]; simpl; [done|]. by rewrite Hx, IH. Qed.

Lemma n_celulas_linhas (m : gmap string (gmap Z conteudo)) (n : nat) :
  (∀ hotel linha, m !! hotel = Some linha → size linha = n) →
  n_celulas m = (size m * n)%nat.
Proof.
  intros Hrows. unfold n_celulas. rewrite <- length_map_to_list.
  apply sum_list_with_const. apply Forall_forall. intros [h linha] Hin.
  simpl. apply (Hrows h). by apply elem_of_map_to_list.
Qed.

Lemma linha_matriz_celulas (tarifas_matriz : list tarifa_row)
    (hotel : string) (datas : list Z) :
  (∀ data, data ∈ datas →
     ∃ v, celula (tarifas_de hotel data tarifas_matriz) = Ok v) →
  ∃ linha, linha_matriz tarifas_matriz hotel datas = Ok linha
           ∧ (∀ data, data ∈ datas →
                ∃ v, celula (tarifas_de hotel data tarifas_matriz) = Ok v
                     ∧ linha !! data = Some v)
           ∧ (∀ data, data ∉ datas → linha !! data = None).
Proof.
  intros Hok. unfold linha_matriz.
  assert (Hf : ∀ data,
    List.filter (fun t => Z.eqb (t_data t) data)
      (List.filter (fun t => String.eqb (t_hotel t) hotel) tarifas_matriz) =
    tarifas_de hotel data tarifas_matriz).
  { intros data. apply List_filter_filter. }
  destruct (para_cada_insert
              (fun data => celula (tarifas_de hotel data tarifas_matriz))
              datas ∅ Hok) as (linha & Hl & Hin & Hout).
  exists linha. split; [|split; [done|]].
  - rewrite <- Hl. clear. generalize (∅ : gmap Z conteudo).
    induction datas as [|d ds IH]; intros m; simpl; [done|].
    rewrite List_filter_filter. fold (tarifas_de hotel d tarifas_matriz).
    destruct (celula _); simpl; [apply IH|done].
  - intros data Hd. rewrite Hout; [|done]. apply lookup_empty.
Qed.

Lemma construir_matriz_linhas (hoteis_matriz : list string) (datas : list Z)
    (tarifas_matriz : list tarifa_row) :
  (∀ hotel data, hotel ∈ hoteis_matriz → data ∈ datas →
     ∃ v, celula (tarifas_de hotel data tarifas_matriz) = Ok v) →
  ∃ matriz_dados,
    construir_matriz hoteis_matriz datas tarifas_matriz = Ok matriz_dados
    ∧ (∀ hotel, hotel ∈ hoteis_matriz →
         ∃ linha, linha_matriz tarifas_matriz hotel datas = Ok linha
                  ∧ matriz_dados !! hotel = Some linha)
    ∧ (∀ hotel, hotel ∉ hoteis_matriz → matriz_dados !! hotel = None).
Proof.
  intros Hok. unfold construir_matriz.
  destruct (para_cada_insert
              (fun hotel => linha_matriz tarifas_matriz hotel datas)
              hoteis_matriz ∅) as (m & Hm & Hin & Hout).
  { intros hotel Hh.
    destruct (linha_matriz_celulas tarifas_matriz hotel datas) as (l & Hl & _);
      [by eauto|by eauto]. }
  exists m. split; [done|]. split; [done|].
  intros hotel Hh. rewrite Hout; [|done]. apply lookup_empty.
Qed.

Lemma construir_matriz_celulas (hoteis_matriz : list string) (datas : list Z)
    (tarifas_matriz : list tarifa_row) :
  NoDup datas →
  (∀ hotel data, hotel ∈ hoteis_matriz → data ∈ datas →
     ∃ v, celula (tarifas_de hotel data tarifas_matriz) = Ok v) →
  ∃ matriz_dados,
    construir_matriz hoteis_matriz datas tarifas_matriz = Ok matriz_dados
    ∧ (∀ hotel data, hotel ∈ hoteis_matriz → data ∈ datas →
         ∃ v, celula (tarifas_de hotel data tarifas_matriz) = Ok v
              ∧ celula_de matriz_dados hotel data = Some v)
    ∧ (∀ hotel data, is_Some (celula_de matriz_dados hotel data) →
         hotel ∈ hoteis_matriz ∧ data ∈ datas)
    ∧ n_celulas matriz_dados =
      (size (list_to_set hoteis_matriz : gset string) * length datas)%nat.
Proof.
  intros Hnd Hok.
  destruct (construir_matriz_linhas _ _ _ Hok) as (m & Hm & Hin & Hout).
  assert (Hrow : ∀ hotel linha, m !! hotel = Some linha →
            hotel ∈ hoteis_matriz
            ∧ (∀ data, data ∈ datas →
                 ∃ v, celula (tarifas_de hotel data tarifas_matriz) = Ok v
                      ∧ linha !! data = Some v)
            ∧ (∀ data, data ∉ datas → linha !! data = None)).
  { intros hotel linha Hl.
    destruct (decide (hotel ∈ hoteis_matriz)) as [Hh|Hh];
      [|by rewrite (Hout _ Hh) in Hl].
    split; [done|].
    destruct (Hin _ Hh) as (linha' & Hl' & Hm').
    assert (linha' = linha) as -> by congruence.
    destruct (linha_matriz_celulas tarifas_matriz hotel datas)
      as (l2 & Hl2 & Hc & Hn); [by eauto|].
    assert (l2 = linha) as -> by congruence. done. }
  exists m. split; [done|]. split; [|split].
  - intros hotel data Hh Hd. destruct (Hin _ Hh) as (linha & _ & Hl).
    destruct (Hrow _ _ Hl) as (_ & Hc & _).
    destruct (Hc _ Hd) as (v & Hv & Hlk). exists v. split; [done|].
    unfold celula_de. by rewrite Hl.
  - intros hotel data [v Hv]. unfold celula_de in Hv.
    destruct (m !! hotel) as [linha|] eqn:Hl; [|done]. simpl in Hv.
    destruct (Hrow _ _ Hl) as (Hh & _ & Hn). split; [done|].
    destruct (decide (data ∈ datas)) as [|Hd]; [done|].
    by rewrite (Hn _ Hd) in Hv.
  - rewrite (n_celulas_linhas m (length datas)).
    + f_equal. apply tamanho_por_chaves. intros hotel. split.
      * intros [linha Hl]. by destruct (Hrow _ _ Hl).
      * intros Hh. destruct (Hin _ Hh) as (linha & _ & Hl). by exists linha.
    + intros hotel linha Hl. destruct (Hrow _ _ Hl) as (_ & Hc & Hn).
      rewrite <- (size_list_to_set (C := gset Z) datas Hnd).
      apply tamanho_por_chaves. intros data. split.
      * intros [v Hv]. destruct (decide (data ∈ datas)) as [|Hd]; [done|].
        by rewrite (Hn _ Hd) in Hv.
      * intros Hd. destruct (Hc _ Hd) as (v & _ & Hv). by exists v.
Qed.

(** Were the loop reached with no rate at all, it would build a grid of
    the same shape with every cell empty. *)
Lemma construir_matriz_vazia (hoteis_matriz : list string) (datas : list Z) :
  NoDup datas →
  ∃ matriz_dados,
    construir_matriz hoteis_matriz datas [] = Ok matriz_dados
    ∧ (∀ hotel data, hotel ∈ hoteis_matriz → data ∈ datas →
         celula_de matriz_dados hotel data = Some VNone)
    ∧ n_celulas matriz_dados =
      (size (list_to_set hoteis_matriz : gset string) * length datas)%nat.
Proof.
  intros Hnd.
  destruct (construir_matriz_celulas hoteis_matriz datas [] Hnd)
    as (m & Hm & Hcel & _ & Hn).
  { intros hotel data _ _. by exists VNone. }
  exists m. split; [done|]. split; [|done].
  intros hotel data Hh Hd. destruct (Hcel hotel data Hh Hd) as (v & Hv & Hlk).
  by injection Hv as <-.
Qed.

Lemma isin_elem_of (hoteis_matriz : list string) (t : tarifa_row) :
  isin hoteis_matriz t = true ↔ t_hotel t ∈ hoteis_matriz.
Proof.
  unfold isin. rewrite existsb_exists, list_elem_of_In. split.
  - intros (h & Hh & Heq). apply String.eqb_eq in Heq. by subst.
  - intros Hin. exists (t_hotel t). split; [done|]. apply String.eqb_refl.
Qed.

Lemma no_periodo_entre (data_inicio data_fim : Z) (t : tarifa_row) :
  no_periodo data_inicio data_fim t = true ↔
  (data_inicio ≤ t_data t ≤ data_fim)%Z.
Proof. unfold no_periodo. rewrite andb_true_iff, !Z.leb_le. done. Qed.

Lemma elem_of_date_range (data_inicio data_fim data : Z) :
  data ∈ date_range data_inicio data_fim ↔ (data_inicio ≤ data ≤ data_fim)%Z.
Proof. unfold date_range. rewrite elem_of_seqZ. lia. Qed.

Lemma length_date_range (data_inicio data_fim : Z) :
  length (date_range data_inicio data_fim) =
  Z.to_nat (data_fim - data_inicio + 1).
Proof. apply length_seqZ. Qed.

(** Inside the period and among the hotels of the matrix, the two
    filters of the page keep every row of a hotel on a date. *)
Lemma tarifas_de_filtradas (hoteis_matriz : list string)
    (data_inicio data_fim : Z) (hotel : string) (data : Z)
    (l : list tarifa_row) :
  hotel ∈ hoteis_matriz → (data_inicio ≤ data ≤ data_fim)%Z →
  tarifas_de hotel data
    (List.filter (isin hoteis_matriz)
                 (List.filter (no_periodo data_inicio data_fim) l)) =
  tarifas_de hotel data l.
Proof.
  intros Hh Hd. unfold tarifas_de. rewrite !List_filter_filter.
  apply filter_ext. intros t.
  destruct (String.eqb_spec (t_hotel t) hotel) as [Hth|];
    [|simpl; by rewrite !andb_false_r].
  destruct (Z.eqb_spec (t_data t) data) as [Htd|];
    [|simpl; by rewrite !andb_false_r].
  simpl. rewrite andb_true_r.
  apply andb_true_iff. split.
  - apply no_periodo_entre. by rewrite Htd.
  - apply isin_elem_of. by rewrite Hth.
Qed.

Lemma elem_of_listar_tarifas (t : tarifa_row) (st : db) :
  t ∈ listar_tarifas st ↔ t ∈ tarifas st.
Proof. unfold listar_tarifas. by rewrite merge_sort_Permutation. Qed.

Lemma length_listar_hoteis (st : db) :
  length (listar_hoteis st) = length (hoteis st).
Proof. unfold listar_hoteis. by rewrite merge_sort_Permutation. Qed.

Lemma length_eqb_0 {A : Type} (l : list A) :
  Nat.eqb (length l) 0 = false ↔ ∃ x, x ∈ l.
Proof.
  destruct l as [|x l]; simpl; split; try done.
  - intros [x Hx]. by apply elem_of_nil in Hx.
  - intros _. exists x. by left.
Qed.

(** Past its guards the page builds the grid of the primary hotel and its
    competitors over the period, from the rates of these hotels inside it. *)
Lemma montar_matriz_construir (st : db) (hotel_principal : string)
    (data_inicio data_fim : Z) :
  hoteis st ≠ [] →
  (data_inicio ≤ data_fim)%Z →
  (∃ t, t ∈ tarifas st
        ∧ no_periodo data_inicio data_fim t = true
        ∧ isin (hotel_principal :: obter_concorrentes hotel_principal st) t = true) →
  montar_matriz st hotel_principal data_inicio data_fim =
  (matriz_dados ←
     construir_matriz
       (hotel_principal :: obter_concorrentes hotel_principal st)
       (date_range data_inicio data_fim)
       (List.filter
          (isin (hotel_principal :: obter_concorrentes hotel_principal st))
          (List.filter (no_periodo data_inicio data_fim) (listar_tarifas st)));
   Ok (Montou (hotel_principal :: obter_concorrentes hotel_principal st)
              (date_range data_inicio data_fim) matriz_dados)).
Proof.
  intros Hhoteis Hle (t & Ht & Hp & Hi).
  set (hm := hotel_principal :: obter_concorrentes hotel_principal st).
  fold hm in Hi.
  unfold montar_matriz. fold hm.
  assert (G1 : Nat.eqb (length (listar_hoteis st)) 0 = false).
  { rewrite length_listar_hoteis. by destruct (hoteis st). }
  assert (Ht' : t ∈ listar_tarifas st) by by apply elem_of_listar_tarifas.
  assert (G2 : Nat.eqb (length (listar_tarifas st)) 0 = false).
  { apply length_eqb_0. by exists t. }
  assert (G3 : Z.ltb data_fim data_inicio = false) by by apply Z.ltb_ge.
  assert (G4 : Nat.eqb (length (List.filter (no_periodo data_inicio data_fim)
                                  (listar_tarifas st))) 0 = false).
  { apply length_eqb_0. exists t. by apply elem_of_List_filter. }
  assert (G5 : Nat.eqb (length (List.filter (isin hm)
                (List.filter (no_periodo data_inicio data_fim)
                   (listar_tarifas st)))) 0 = false).
  { apply length_eqb_0. exists t. by rewrite !elem_of_List_filter. }
  by rewrite G1, G2, G3, G4, G5.
Qed.

(** No group of rows divides by zero when no rate of the matrix is zero. *)
Lemma celulas_sem_zero (st : db) (hoteis_matriz : list string)
    (data_inicio data_fim : Z) (hotel : string) (data : Z) :
  (∀ t, t ∈ tarifas st →
        no_periodo data_inicio data_fim t = true →
        isin hoteis_matriz t = true →
        ¬ (t_preco t == 0)%Q) →
  ∃ v, celula (tarifas_de hotel data
                 (List.filter (isin hoteis_matriz)
                    (List.filter (no_periodo data_inicio data_fim)
                       (listar_tarifas st)))) = Ok v.
Proof.
  intros Hnz. apply celula_ok, Forall_forall. intros x Hx.
  unfold tarifas_de in Hx.
  rewrite !elem_of_List_filter, elem_of_listar_tarifas in Hx.
  destruct Hx as (((Hx & Hxp) & Hxi) & _). by apply Hnz.
Qed.

(** A group on which the cell computation does not divide by zero gives a
    cell. *)
Lemma celula_sem_grupo_zero (tarifas_data : list tarifa_row) :
  grupo_zero tarifas_data = false → ∃ v, celula tarifas_data = Ok v.
Proof.
  destruct tarifas_data as [|t [|t' resto]];
    [by eexists | by eexists |].
  rewrite celula_varias. unfold grupo_zero. cbv zeta. intros ->.
  destruct (Qltb 0 _); by eexists.
Qed.

End Matriz.

Section Texto.

Lemma sem_seta_digitos (d : Decimal.uint) :
  sem_seta (NilEmpty.string_of_uint d) = true.
Proof. induction d; simpl; auto. Qed.

Lemma sem_seta_fmt_0f (x : Q) : sem_seta (fmt_0f x) = true.
Proof.
  unfold fmt_0f. set (d := N.to_uint _).
  assert (H : sem_seta (NilZero.string_of_uint d) = true).
  { destruct d; try apply sem_seta_digitos. reflexivity. }
  destruct (Qltb x 0); [simpl|]; by rewrite H.
Qed.

Lemma split_0_seta (x y : string) :
  sem_seta x = true →
  contem seta (x +:+ seta +:+ y) = true
  ∧ split_0 seta (x +:+ seta +:+ y) = x.
Proof.
  induction x as [|c x IH]; intros Hx.
  - destruct y; split; reflexivity.
  - simpl in Hx. apply andb_true_iff in Hx as [Hc Hx].
    apply negb_true_iff, Ascii.eqb_neq in Hc.
    destruct (IH Hx) as [IH1 IH2].
    change (String c x +:+ seta +:+ y) with (String c (x +:+ seta +:+ y)).
    assert (Hp : String.prefix seta (String c (x +:+ seta +:+ y)) = false).
    { destruct c as [[] [] [] [] [] [] [] []]; try reflexivity.
      by destruct Hc. }
    split.
    + change (contem seta (String c (x +:+ seta +:+ y)))
        with (String.prefix seta (String c (x +:+ seta +:+ y))
              || contem seta (x +:+ seta +:+ y)).
      by rewrite Hp, IH1.
    + change (split_0 seta (String c (x +:+ seta +:+ y)))
        with (if String.prefix seta (String c (x +:+ seta +:+ y))
              then EmptyString
              else String c (split_0 seta (x +:+ seta +:+ y))).
      by rewrite Hp, IH2.
Qed.

Lemma arredondar_nonneg (x : Q) : (0 <= x)%Q → (0 ≤ arredondar x)%Z.
Proof.
  intros Hx. unfold arredondar.
  assert (0 ≤ Qfloor x)%Z.
  { change 0 with (Qfloor 0). by apply Qfloor_resp_le. }
  destruct (_ ?= _)%Q; [destruct (Z.even _)| |]; lia.
Qed.

Lemma N_to_uint_nonnil (n : N) : N.to_uint n ≠ Decimal.Nil.
Proof.
  destruct n as [|p]; [done|]. apply DecimalPos.Unsigned.to_uint_nonnil.
Qed.

(** [float] reads back what [.0f] wrote. *)
Lemma float_de_texto_fmt_0f (x : Q) :
  float_de_texto (fmt_0f x) = Ok (inject_Z (arredondado x)).
Proof.
  unfold float_de_texto, fmt_0f, arredondado.
  pose proof (arredondar_nonneg (Qabs x) (Qabs_nonneg x)) as Hn.
  set (n := Z.to_N (arredondar (Qabs x))).
  assert (Hz : Z.of_uint (N.to_uint n) = arredondar (Qabs x)).
  { unfold Z.of_uint. change (Pos.of_uint ?d) with (N.of_uint d).
    rewrite DecimalN.Unsigned.of_to. unfold n. lia. }
  destruct (Qltb x 0).
  - change (String "-" (NilZero.string_of_uint (N.to_uint n)))
      with (NilZero.string_of_int (Decimal.Neg (N.to_uint n))).
    rewrite NilZero.isi; [simpl; by rewrite Hz|done|].
    intros [= E]. by apply N_to_uint_nonnil in E.
  - change (NilZero.string_of_uint (N.to_uint n))
      with (NilZero.string_of_int (Decimal.Pos (N.to_uint n))).
    rewrite NilZero.isi; [simpl; by rewrite Hz| |done].
    intros [= E]. by apply N_to_uint_nonnil in E.
Qed.

(** The number read from the text of a range is its lower end as
    printed: the smallest price rounded to an integer. *)
Lemma valor_num_faixa (preco_min preco_max : Q) :
  valor_num (VStr (fmt_0f preco_min +:+ seta +:+ fmt_0f preco_max)) =
  Ok (inject_Z (arredondado preco_min)).
Proof.
  unfold valor_num.
  destruct (split_0_seta (fmt_0f preco_min) (fmt_0f preco_max)
              (sem_seta_fmt_0f preco_min)) as [-> ->].
  apply float_de_texto_fmt_0f.
Qed.

(** For two or more rows with positive prices that are not all equal, the
    number the comparison reads from the cell is the smallest price rounded
    to an integer, not the smallest price. *)
Lemma valor_num_celula_faixa (t t' : tarifa_row) (resto : list tarifa_row) :
  Forall (fun x => (0 < t_preco x)%Q) (t :: t' :: resto) →
  (py_min (t_preco t) (map t_preco (t' :: resto))
   < py_max (t_preco t) (map t_preco (t' :: resto)))%Q →
  ∃ v, celula (t :: t' :: resto) = Ok v
       ∧ valor_num v =
         Ok (inject_Z
               (arredondado (py_min (t_preco t) (map t_preco (t' :: resto))))).
Proof.
  intros Hpos Hlt. rewrite celula_varias. cbv zeta.
  set (mn := py_min _ _) in *. set (mx := py_max _ _) in *.
  assert (Hmn : (0 < mn)%Q).
  { pose proof (py_min_In (t_preco t) (map t_preco (t' :: resto))) as Hin.
    change (In mn (map t_preco (t :: t' :: resto))) in Hin.
    apply in_map_iff in Hin as (x & <- & Hin).
    rewrite Forall_forall in Hpos. by apply Hpos, list_elem_of_In. }
  assert (Hz : Qeq_bool mn 0 = false).
  { apply not_true_iff_false. rewrite Qeq_bool_iff. lra. }
  rewrite Hz, (variacao_pct_pos mn mx Hmn (Qlt_le_weak _ _ Hlt)).
  apply Qltb_lt in Hlt. rewrite Hlt.
  eexists. split; [done|]. apply valor_num_faixa.
Qed.

(** No cell the builder writes makes the comparison raise. *)
Lemma valor_num_celula (tarifas_data : list tarifa_row) (v : conteudo) :
  celula tarifas_data = Ok v → v ≠ VNone → ∃ q, valor_num v = Ok q.
Proof.
  destruct tarifas_data as [|t [|t' resto]].
  - intros [= <-]. done.
  - intros [= <-] _. by eexists.
  - rewrite celula_varias. cbv zeta.
    destruct (Qeq_bool _ _); [done|].
    destruct (Qltb 0 _); intros [= <-] _; [|by eexists].
    rewrite valor_num_faixa. by eexists.
Qed.

End Texto.

Section Pagina.
#[local] Open Scope Q_scope.

(** C3, as stated, fails when the observation set is empty: with the hotels
    A and B registered and no rate stored, the page over the days 1 to 2
    stops on a message and builds no grid, let alone one of 2 x 2 cells; it
    stops as well when rates are stored but none is dated inside the
    period. *)
Lemma montar_matriz_sem_tarifas :
  montar_matriz st_hoteis "A" 1 2 = Ok (Parou CadastreTarifas)
  ∧ montar_matriz st_cenario "A" 5 6 = Ok (Parou NenhumaTarifaPeriodo)
  ∧ ¬ ∃ matriz_dados,
        montar_matriz st_hoteis "A" 1 2 =
          Ok (Montou ["A"; "B"] [1; 2]%Z matriz_dados)
        ∧ n_celulas matriz_dados = 4%nat.
Proof.
  assert (H : montar_matriz st_hoteis "A" 1 2 = Ok (Parou CadastreTarifas))
    by (vm_compute; reflexivity).
  split; [exact H|]. split; [vm_compute; reflexivity|].
  intros (m & Hm & _). rewrite H in Hm. discriminate.
Qed.

(** When no row of a listed hotel falls in the period the page stops on a
    message. *)
Lemma montar_matriz_sem_observacoes (st : db) (hotel_principal : string)
    (data_inicio data_fim : Z) :
  (∀ t, t ∈ tarifas st →
        no_periodo data_inicio data_fim t = true →
        isin (hotel_principal :: obter_concorrentes hotel_principal st) t = true →
        False) →
  ∃ a, montar_matriz st hotel_principal data_inicio data_fim = Ok (Parou a).
Proof.
  intros Hnone. unfold montar_matriz.
  destruct (Nat.eqb (length (listar_hoteis st)) 0); [by eexists|].
  destruct (Nat.eqb (length (listar_tarifas st)) 0); [by eexists|].
  destruct (Z.ltb data_fim data_inicio); [by eexists|].
  destruct (Nat.eqb (length (List.filter _ (listar_tarifas st))) 0);
    [by eexists|].
  destruct (Nat.eqb (length (List.filter (isin _) _)) 0) eqn:E; [by eexists|].
  exfalso. apply length_eqb_0 in E as [t Ht].
  rewrite !elem_of_List_filter, elem_of_listar_tarifas in Ht.
  destruct Ht as [[Ht Hp] Hi]. by apply (Hnone t).
Qed.

(** C3, amended: when no rate of the primary hotel or of one of its
    competitors falls inside the period, in particular when no rate is
    stored, the page stops on a message and builds no grid. When at least
    one hotel is registered, the period is not empty, at least one such
    rate falls inside the period, and no listed hotel has on a day of the
    period two or more rates of which the smallest is zero, the page builds
    a grid for the primary hotel followed by its competitors over the days
    of the period; the grid holds a cell exactly for every listed hotel and
    every day of the period, that is (number of distinct listed hotels) x
    (number of days) cells, and each cell is computed from the rates of its
    hotel on its day alone, so that rates dated outside the period reach no
    cell. *)
Theorem montar_matriz_forma (st : db) (hotel_principal : string)
    (data_inicio data_fim : Z) :
  ((∀ t, t ∈ tarifas st →
         no_periodo data_inicio data_fim t = true →
         isin (hotel_principal :: obter_concorrentes hotel_principal st) t
         = true →
         False) →
   ∃ a, montar_matriz st hotel_principal data_inicio data_fim = Ok (Parou a))
  ∧ (hoteis st ≠ [] →
     (data_inicio ≤ data_fim)%Z →
     (∃ t, t ∈ tarifas st
           ∧ no_periodo data_inicio data_fim t = true
           ∧ isin (hotel_principal :: obter_concorrentes hotel_principal st) t
             = true) →
     (∀ hotel data,
        hotel ∈ hotel_principal :: obter_concorrentes hotel_principal st →
        (data_inicio ≤ data ≤ data_fim)%Z →
        grupo_zero (tarifas_de hotel data (listar_tarifas st)) = false) →
     ∃ matriz_dados,
       montar_matriz st hotel_principal data_inicio data_fim =
         Ok (Montou (hotel_principal :: obter_concorrentes hotel_principal st)
                    (date_range data_inicio data_fim) matriz_dados)
       ∧ (∀ hotel data,
            is_Some (celula_de matriz_dados hotel data) ↔
            hotel ∈ hotel_principal :: obter_concorrentes hotel_principal st
            ∧ (data_inicio ≤ data ≤ data_fim)%Z)
       ∧ n_celulas matriz_dados =
         (size (list_to_set (hotel_principal
                              :: obter_concorrentes hotel_principal st)
                 : gset string)
          * Z.to_nat (data_fim - data_inicio + 1))%nat
       ∧ (∀ hotel data,
            hotel ∈ hotel_principal :: obter_concorrentes hotel_principal st →
            (data_inicio ≤ data ≤ data_fim)%Z →
            ∃ v, celula (tarifas_de hotel data (listar_tarifas st)) = Ok v
                 ∧ celula_de matriz_dados hotel data = Some v)).
Proof.
  split; [apply montar_matriz_sem_observacoes|].
  intros Hhoteis Hle Hex Hnz.
  rewrite (montar_matriz_construir st hotel_principal data_inicio data_fim
             Hhoteis Hle Hex).
  set (hm := hotel_principal :: obter_concorrentes hotel_principal st).
  fold hm in Hnz.
  destruct (construir_matriz_celulas hm (date_range data_inicio data_fim)
              (List.filter (isin hm)
                 (List.filter (no_periodo data_inicio data_fim)
                    (listar_tarifas st))))
    as (m & Hm & Hcel & Hdom & Hn).
  { apply NoDup_seqZ. }
  { intros hotel data Hh Hd. apply elem_of_date_range in Hd.
    rewrite tarifas_de_filtradas by done.
    by apply celula_sem_grupo_zero, Hnz. }
  rewrite Hm. simpl. exists m. split; [done|]. split; [|split].
  - intros hotel data. rewrite <- elem_of_date_range. split; [apply Hdom|].
    intros [Hh Hd]. destruct (Hcel _ _ Hh Hd) as (v & _ & Hv). by exists v.
  - by rewrite Hn, length_date_range.
  - intros hotel data Hh Hd.
    destruct (Hcel hotel data Hh) as (v & Hv & Hlk);
      [by apply elem_of_date_range|].
    exists v. split; [|done]. by rewrite tarifas_de_filtradas in Hv.
Qed.

(** The amended C3 on a store with a single rate of zero: A on day 1 at 0,
    B on day 1 at 120, over the days 1 to 2. No group of two or more rates
    exists, and the grid is built. *)
Lemma montar_matriz_forma_cenario :
  ∃ matriz_dados,
    montar_matriz st_um_zero "A" 1 2 =
      Ok (Montou ("A" :: obter_concorrentes "A" st_um_zero)
                 (date_range 1 2) matriz_dados)
    ∧ (∀ hotel data,
         is_Some (celula_de matriz_dados hotel data) ↔
         hotel ∈ "A" :: obter_concorrentes "A" st_um_zero
         ∧ (1 ≤ data ≤ 2)%Z)
    ∧ n_celulas matriz_dados =
      (size (list_to_set ("A" :: obter_concorrentes "A" st_um_zero)
              : gset string)
       * Z.to_nat (2 - 1 + 1))%nat
    ∧ (∀ hotel data,
         hotel ∈ "A" :: obter_concorrentes "A" st_um_zero →
         (1 ≤ data ≤ 2)%Z →
         ∃ v, celula (tarifas_de hotel data (listar_tarifas st_um_zero)) = Ok v
              ∧ celula_de matriz_dados hotel data = Some v).
Proof.
  apply (proj2 (montar_matriz_forma st_um_zero "A" 1 2)).
  - discriminate.
  - lia.
  - exists (mk_tarifa 1 "A" 1 0 1 None). split; [by left|].
    split; reflexivity.
  - intros hotel data Hh Hd.
    assert (Hdata : data = 1%Z ∨ data = 2%Z) by lia.
    apply list_elem_of_In in Hh. simpl in Hh.
    destruct Hh as [<-|[<-|[]]]; destruct Hdata as [-> | ->];
      vm_compute; reflexivity.
Defined.

(** C2 at a failing input: the prices 0 and 5 imported for hotel A on day 1.
    The group has two rows, for which the specification gives Range(0, 5);
    the cell computation divides by the smallest price and raises, and so
    does the page. *)
Theorem celula_preco_zero :
  map t_preco (tarifas_de "A" 1 (listar_tarifas st_preco_zero)) = [0; 5]
  ∧ celula (tarifas_de "A" 1 (listar_tarifas st_preco_zero)) =
    Raise ZeroDivisionError
  ∧ montar_matriz st_preco_zero "A" 1 1 = Raise ZeroDivisionError
  ∧ Spec.resolve [0; 5] = Spec.Range 0 5.
Proof. repeat split; vm_compute; reflexivity. Qed.

(** With positive prices the cell is the one the specification names,
    a range being held as the text of its two ends rounded. *)
Lemma celula_resolve (tarifas_data : list tarifa_row) :
  Forall (fun t => 0 < t_preco t) tarifas_data →
  celula tarifas_data =
  Ok match Spec.resolve (map t_preco tarifas_data) with
     | Spec.Empty => VNone
     | Spec.Single p => VFloat p
     | Spec.Range min_price max_price =>
         VStr (fmt_0f min_price +:+ seta +:+ fmt_0f max_price)
     end.
Proof.
  intros Hpos. destruct tarifas_data as [|t [|t' resto]]; [done|done|].
  rewrite celula_varias. cbv zeta.
  change (Spec.resolve (map t_preco (t :: t' :: resto))) with
    (let mn := py_min (t_preco t) (map t_preco (t' :: resto)) in
     let mx := py_max (t_preco t) (map t_preco (t' :: resto)) in
     if Qeq_bool mn mx then Spec.Single mn else Spec.Range mn mx).
  cbv zeta.
  set (mn := py_min _ _). set (mx := py_max _ _).
  assert (Hmn : 0 < mn).
  { pose proof (py_min_In (t_preco t) (map t_preco (t' :: resto))) as Hin.
    change (In mn (map t_preco (t :: t' :: resto))) in Hin.
    apply in_map_iff in Hin as (x & <- & Hin).
    rewrite Forall_forall in Hpos. by apply Hpos, list_elem_of_In. }
  assert (Hle : mn <= mx) by apply py_min_le_max.
  assert (Hz : Qeq_bool mn 0 = false).
  { apply not_true_iff_false. rewrite Qeq_bool_iff. lra. }
  rewrite Hz, (variacao_pct_pos mn mx Hmn Hle).
  destruct (Qltb mn mx) eqn:E.
  - apply Qltb_lt in E.
    assert (Hne : Qeq_bool mn mx = false).
    { apply not_true_iff_false. rewrite Qeq_bool_iff. lra. }
    by rewrite Hne.
  - apply Qltb_ge in E.
    assert (Heq : Qeq_bool mn mx = true).
    { apply Qeq_bool_iff. lra. }
    by rewrite Heq.
Qed.

(** The observations of the specification's testable properties. *)
Example celula_10_10_10 :
  celula [mk_tarifa 1 "A" 1 10 1 None; mk_tarifa 2 "A" 1 10 2 None;
          mk_tarifa 3 "A" 1 10 3 None] = Ok (VFloat 10).
Proof. reflexivity. Qed.

Example celula_8_12 :
  celula [mk_tarifa 1 "A" 1 8 1 None; mk_tarifa 2 "A" 1 12 2 None] =
  Ok (VStr "8→12").
Proof. reflexivity. Qed.

(** The text of a range keeps no decimals. *)
Example celula_8_4_12_3 :
  celula [mk_tarifa 1 "A" 1 8.4 1 None; mk_tarifa 2 "A" 1 12.3 2 None] =
  Ok (VStr "8→12").
Proof. reflexivity. Qed.

(** C1 at a failing input: A at 100 and B at 94.6 and 120 on day 1. The cell
    of B is the text of the range with its ends rounded, the number read back
    from it is 95, not 94.6, so B is coloured as neutral, while the ratio
    94.6 / 100 of the specification is below 0.95 and gives Threat. *)
Theorem comparar_faixa_arredondada :
  map t_preco (tarifas_de "B" 1 (listar_tarifas st_faixa)) = [94.6; 120]
  ∧ map t_preco (tarifas_de "A" 1 (listar_tarifas st_faixa)) = [100]
  ∧ celula (tarifas_de "B" 1 (listar_tarifas st_faixa)) = Ok (VStr "95→120")
  ∧ valor_num (VStr "95→120") = Ok 95
  ∧ matriz_comparativa st_faixa "A" 1 1 =
    Ok (Tabela [("A", [TdPrincipal]); ("B", [TdCor Cinza])])
  ∧ Spec.classify 0.05 (Spec.resolve [94.6; 120]) (Spec.resolve [100]) =
    Spec.Threat.
Proof. repeat split; vm_compute; reflexivity. Qed.

Lemma razao_menor (c p k : Q) : 0 < p → c / p < k ↔ c < p * k.
Proof.
  intros Hp. split; intros H.
  - assert (Hc : c == c / p * p) by (field; lra).
    rewrite Hc, (Qmult_comm p k). by apply Qmult_lt_r.
  - apply Qlt_shift_div_r; [done|]. by rewrite Qmult_comm.
Qed.

Lemma razao_maior (c p k : Q) : 0 < p → k < c / p ↔ p * k < c.
Proof.
  intros Hp. split; intros H.
  - assert (Hc : c == c / p * p) by (field; lra).
    rewrite Hc, (Qmult_comm p k). by apply Qmult_lt_r.
  - apply Qlt_shift_div_l; [done|]. by rewrite Qmult_comm.
Qed.

Lemma Qltb_iff (a b c d : Q) : (a < b ↔ c < d) → Qltb a b = Qltb c d.
Proof.
  intros H. destruct (Qltb c d) eqn:E.
  - apply Qltb_lt, H, Qltb_lt, E.
  - apply not_true_iff_false. rewrite Qltb_lt, H, <- Qltb_lt. congruence.
Qed.

(** Two prices are classified by their ratio, as the specification says,
    when the price of the primary hotel is positive; a statement about
    exact prices, as [comparar] is. *)
Lemma comparar_precos (valor_concorrente valor_principal : Q) :
  0 < valor_principal →
  ∃ t, comparar (VFloat valor_concorrente) (VFloat valor_principal) = Ok t
       ∧ classificacao t =
         Some (Spec.classify 0.05 (Spec.Single valor_concorrente)
                             (Spec.Single valor_principal)).
Proof.
  intros Hp. unfold comparar, Spec.classify. simpl.
  rewrite (Qltb_iff (valor_concorrente / valor_principal) (1 - 0.05)
             valor_concorrente (valor_principal * 0.95)).
  2:{ rewrite razao_menor by done.
      assert (E : 1 - 0.05 == 0.95) by reflexivity. by rewrite E. }
  rewrite (Qltb_iff (1 + 0.05) (valor_concorrente / valor_principal)
             (valor_principal * 1.05) valor_concorrente).
  2:{ rewrite razao_maior by done.
      assert (E : 1 + 0.05 == 1.05) by reflexivity. by rewrite E. }
  destruct (Qltb valor_concorrente _); [by eexists|].
  destruct (Qltb _ valor_concorrente); by eexists.
Qed.

(** The boundary of the band is neutral. *)
Example comparar_95 : comparar (VFloat 95) (VFloat 100) = Ok (TdCor Cinza).
Proof. reflexivity. Qed.

Example comparar_105 : comparar (VFloat 105) (VFloat 100) = Ok (TdCor Cinza).
Proof. reflexivity. Qed.

Example comparar_94_99 :
  comparar (VFloat 94.99) (VFloat 100) = Ok (TdCor Vermelho).
Proof. reflexivity. Qed.

Example comparar_105_01 :
  comparar (VFloat 105.01) (VFloat 100) = Ok (TdCor Verde).
Proof. reflexivity. Qed.

(** Once both cells are read: for a hotel other than the primary one, when
    its cell or the cell of the primary hotel on that date holds no value,
    the cell takes one of the two uncoloured shapes, which stand for
    Unknown, and nothing raises. *)
Lemma estilo_vazio (hotel hotel_principal : string)
    (valor valor_principal : conteudo) :
  hotel ≠ hotel_principal →
  valor = VNone ∨ valor_principal = VNone →
  ∃ t, estilo hotel hotel_principal valor (Ok valor_principal) = Ok t
       ∧ classificacao t = Some Spec.Unknown.
Proof.
  intros Hne%String.eqb_neq Hnone. unfold estilo.
  destruct valor as [ | preco | texto ]; [by exists TdTraco | | ];
    destruct Hnone as [Hv | ->]; try discriminate Hv;
    rewrite Hne; by exists TdSemCor.
Qed.

(** The end-to-end scenario of the specification. *)
Example matriz_comparativa_cenario :
  matriz_comparativa st_cenario "A" 1 2 =
  Ok (Tabela [("A", [TdPrincipal; TdTraco]);
              ("B", [TdCor Verde; TdSemCor])]).
Proof. vm_compute. reflexivity. Qed.

End Pagina.

Section Tabela.

Lemma mapear_Forall2 {A B : Type} (f : A → res B) (P : A → B → Prop)
    (xs : list A) :
  (∀ x, x ∈ xs → ∃ y, f x = Ok y ∧ P x y) →
  ∃ ys, mapear f xs = Ok ys ∧ Forall2 P xs ys.
Proof.
  induction xs as [|x xs IH]; intros Hok; simpl.
  - exists []. by split.
  - destruct (Hok x) as (y & Hy & HP); [by left|].
    destruct IH as (ys & Hys & HF).
    { intros z Hz. apply Hok. by right. }
    exists (y :: ys). rewrite Hy. simpl. rewrite Hys. simpl.
    split; [done|]. by constructor.
Qed.

Lemma comparar_ok (valor valor_principal : conteudo) :
  (∃ q, valor_num valor = Ok q) →
  (valor_principal ≠ VNone → ∃ q, valor_num valor_principal = Ok q) →
  ∃ t, comparar valor valor_principal = Ok t.
Proof.
  intros [c Hc] Hp. unfold comparar.
  destruct valor_principal as [ | preco | texto ]; [by eexists| |].
  all: destruct Hp as [p Hp]; [done|]; rewrite Hp, Hc; simpl.
  all: destruct (Qltb c _); [by eexists|].
  all: destruct (Qltb _ c); by eexists.
Qed.

Lemma estilo_ok (hotel hotel_principal : string)
    (valor valor_principal : conteudo) :
  (valor ≠ VNone → ∃ q, valor_num valor = Ok q) →
  (valor_principal ≠ VNone → ∃ q, valor_num valor_principal = Ok q) →
  ∃ t, estilo hotel hotel_principal valor (Ok valor_principal) = Ok t.
Proof.
  intros Hv Hp. unfold estilo.
  destruct valor as [ | preco | texto ]; [by eexists| |].
  all: destruct (String.eqb hotel hotel_principal); [by eexists|].
  all: simpl; apply comparar_ok; [by apply Hv|done].
Qed.

Lemma loc_celula_de (df_matriz : gmap string (gmap Z conteudo))
    (hoteis_matriz : list string) (hotel : string) (data : Z) (v : conteudo) :
  List.NoDup hoteis_matriz →
  celula_de df_matriz hotel data = Some v →
  loc df_matriz hoteis_matriz hotel data = Ok v.
Proof.
  intros Hnd Hv. unfold loc.
  rewrite (NoDup_count_occ String.string_dec) in Hnd.
  destruct (Nat.ltb_spec 1 (count_occ String.string_dec hoteis_matriz hotel))
    as [Hlt|_].
  - specialize (Hnd hotel). lia.
  - unfold celula_de in Hv. by rewrite Hv.
Qed.

(** The table of a grid whose cells were all written by the builder is
    rendered without an exception, each cell styled from its own value and
    the value of the primary hotel on that date. *)
Lemma html_matriz_ok (df_matriz : gmap string (gmap Z conteudo))
    (hoteis_matriz : list string) (hotel_principal : string)
    (datas_periodo : list Z) :
  List.NoDup hoteis_matriz →
  hotel_principal ∈ hoteis_matriz →
  (∀ hotel data, hotel ∈ hoteis_matriz → data ∈ datas_periodo →
     ∃ tarifas_data v, celula tarifas_data = Ok v
                       ∧ celula_de df_matriz hotel data = Some v) →
  ∃ linhas,
    html_matriz df_matriz hoteis_matriz hotel_principal datas_periodo =
      Ok linhas
    ∧ Forall2
        (fun hotel linha =>
           fst linha = hotel
           ∧ Forall2
               (fun data t =>
                  ∃ valor valor_principal,
                    celula_de df_matriz hotel data = Some valor
                    ∧ celula_de df_matriz hotel_principal data =
                      Some valor_principal
                    ∧ estilo hotel hotel_principal valor
                             (Ok valor_principal) = Ok t)
               datas_periodo (snd linha))
        hoteis_matriz linhas.
Proof.
  intros Hnd Hhp Hcel. unfold html_matriz.
  apply mapear_Forall2. intros hotel Hh.
  destruct (mapear_Forall2
    (fun data =>
       valor ← loc df_matriz hoteis_matriz hotel data;
       estilo hotel hotel_principal valor
              (loc df_matriz hoteis_matriz hotel_principal data))
    (fun data t =>
       ∃ valor valor_principal,
         celula_de df_matriz hotel data = Some valor
         ∧ celula_de df_matriz hotel_principal data = Some valor_principal
         ∧ estilo hotel hotel_principal valor (Ok valor_principal) = Ok t)
    datas_periodo) as (tds & Htds & HF).
  { intros data Hd.
    destruct (Hcel hotel data Hh Hd) as (l & v & Hl & Hv).
    destruct (Hcel hotel_principal data Hhp Hd) as (lp & vp & Hlp & Hvp).
    rewrite (loc_celula_de _ _ _ _ v Hnd Hv). simpl.
    rewrite (loc_celula_de _ _ _ _ vp Hnd Hvp).
    destruct (estilo_ok hotel hotel_principal v vp) as [t Ht].
    - by apply (valor_num_celula l).
    - by apply (valor_num_celula lp).
    - exists t. split; [done|]. by exists v, vp. }
  exists (hotel, tds). rewrite Htds. simpl. done.
Qed.

(** X17: The page renders a table whenever it builds a grid, provided no hotel
    is listed twice: one row per listed hotel, one cell per day. *)
Theorem matriz_comparativa_tabela (st : db) (hotel_principal : string)
    (data_inicio data_fim : Z) :
  List.NoDup (hotel_principal :: obter_concorrentes hotel_principal st) →
  hoteis st ≠ [] →
  (data_inicio ≤ data_fim)%Z →
  (∃ t, t ∈ tarifas st
        ∧ no_periodo data_inicio data_fim t = true
        ∧ isin (hotel_principal :: obter_concorrentes hotel_principal st) t = true) →
  (∀ t, t ∈ tarifas st →
        no_periodo data_inicio data_fim t = true →
        isin (hotel_principal :: obter_concorrentes hotel_principal st) t = true →
        ¬ (t_preco t == 0)%Q) →
  ∃ linhas,
    matriz_comparativa st hotel_principal data_inicio data_fim =
      Ok (Tabela linhas)
    ∧ map fst linhas = hotel_principal :: obter_concorrentes hotel_principal st
    ∧ Forall (fun linha =>
                length (snd linha) = Z.to_nat (data_fim - data_inicio + 1))
             linhas.
Proof.
  intros Hnd Hh Hle Hex Hnz.
  unfold matriz_comparativa.
  rewrite (montar_matriz_construir st hotel_principal data_inicio data_fim
             Hh Hle Hex).
  set (hm := hotel_principal :: obter_concorrentes hotel_principal st).
  fold hm in Hnd, Hnz.
  destruct (construir_matriz_celulas hm (date_range data_inicio data_fim)
              (List.filter (isin hm)
                 (List.filter (no_periodo data_inicio data_fim)
                    (listar_tarifas st))))
    as (m & Hm & Hcel & _ & _).
  { apply NoDup_seqZ. }
  { intros hotel data _ _. by apply celulas_sem_zero. }
  rewrite Hm. simpl.
  destruct (html_matriz_ok m hm hotel_principal
              (date_range data_inicio data_fim) Hnd)
    as (linhas & Hl & HF).
  { by left. }
  { intros hotel data Hhm Hd.
    destruct (Hcel hotel data Hhm Hd) as (v & Hv & Hlk). eauto. }
  exists linhas. rewrite Hl. simpl. split; [done|].
  rewrite <- length_date_range.
  clear -HF. induction HF as [|h l hs ls [Hf HF2] _ IH]; simpl; [done|].
  destruct IH as [IH1 IH2]. split; [by rewrite Hf, IH1|].
  constructor; [|done]. symmetry. by eapply Forall2_length.
Qed.

End Tabela.

(** * Keys of the tables *)

(** * Further properties of the store operations *)

Section Operacoes.
Implicit Types (st : db) (nome outro : string).

Lemma db_eta st :
  mk_db (hoteis st) (seq_hoteis st) (relacionamentos st)
        (seq_relacionamentos st) (importacoes st) (seq_importacoes st)
        (tarifas st) (seq_tarifas st) = st.
Proof. by destruct st. Qed.

Lemma filter_todos {A : Type} (f : A → bool) (l : list A) :
  Forall (fun x => f x = true) l → List.filter f l = l.
Proof. induction 1 as [|x l Hx _ IH]; simpl; [done|]. by rewrite Hx, IH. Qed.

Lemma NoDup_map_filter {A B : Type} (g : A → B) (f : A → bool) (l : list A) :
  List.NoDup (map g l) → List.NoDup (map g (List.filter f l)).
Proof.
  induction l as [|x l IH]; simpl; [done|].
  intros Hnd. apply NoDup_cons_iff in Hnd as [Hx Hnd].
  destruct (f x); simpl; [|by apply IH].
  apply NoDup_cons_iff. split; [|by apply IH].
  intros Hin. apply Hx. apply in_map_iff in Hin as (y & Hy & Hin).
  apply in_map_iff. exists y. split; [done|]. by apply filter_In in Hin as [? _].
Qed.

Lemma tabela_ok_nil {A : Type} (chave : A → Z) (seq : Z) :
  tabela_ok chave [] seq.
Proof. split; constructor. Qed.

Lemma tabela_ok_filter {A : Type} (chave : A → Z) (f : A → bool)
    (l : list A) (seq : Z) :
  tabela_ok chave l seq → tabela_ok chave (List.filter f l) seq.
Proof.
  intros [Hnd Hle]. split; [by apply NoDup_map_filter|].
  apply Forall_forall. intros x Hx%elem_of_List_filter.
  rewrite Forall_forall in Hle. apply Hle. tauto.
Qed.

Lemma tabela_ok_nova {A : Type} (chave : A → Z) (l : list A) (seq : Z) (x : A) :
  tabela_ok chave l seq → chave x = (seq + 1)%Z →
  tabela_ok chave (l ++ [x]) (seq + 1).
Proof.
  intros [Hnd Hle] Hx. split.
  - rewrite map_app. simpl. apply NoDup_ListNoDup, NoDup_app.
    split; [by apply NoDup_ListNoDup|]. split; [|apply NoDup_singleton].
    intros k Hk Hk'%list_elem_of_singleton.
    apply list_elem_of_In, in_map_iff in Hk as (y & Hy & Hin).
    rewrite Forall_forall in Hle.
    specialize (Hle y (proj2 (list_elem_of_In _ _) Hin)). lia.
  - apply Forall_app. split.
    + eapply Forall_impl; [exact Hle|]. simpl. intros; lia.
    + constructor; [lia|constructor].
Qed.

Lemma tabela_ok_mesmas_chaves {A : Type} (chave : A → Z) (g : A → A)
    (l : list A) (seq : Z) :
  (∀ x, chave (g x) = chave x) →
  tabela_ok chave l seq → tabela_ok chave (map g l) seq.
Proof.
  intros Hg [Hnd Hle]. split.
  - rewrite map_map. by rewrite (map_ext _ chave Hg).
  - apply Forall_forall. intros y Hy%list_elem_of_In.
    apply in_map_iff in Hy as (x & <- & Hin). rewrite Hg.
    rewrite Forall_forall in Hle. by apply Hle, list_elem_of_In.
Qed.

Lemma chaves_ok_criar_hotel nome (booking_url : string) st :
  chaves_ok st → chaves_ok (snd (criar_hotel nome booking_url st)).
Proof.
  intros (Hh & Hr & Hi & Ht). unfold criar_hotel.
  destruct (existsb _ _); simpl; [done|].
  split; [by apply tabela_ok_nova|done].
Qed.

Lemma chaves_ok_criar_relacionamento (p c : string) st :
  chaves_ok st → chaves_ok (criar_relacionamento p c st).
Proof.
  intros (Hh & Hr & Hi & Ht). unfold criar_relacionamento, chaves_ok. simpl.
  split; [done|]. split; [by apply tabela_ok_nova|done].
Qed.

Lemma chaves_ok_inserir_tarifa (hotel : string) (data : Z) (preco : Q)
    (sequencia : Z) st :
  chaves_ok st → chaves_ok (inserir_tarifa hotel data preco sequencia st).
Proof.
  intros (Hh & Hr & Hi & Ht). unfold inserir_tarifa, chaves_ok. simpl.
  do 3 (split; [done|]). by apply tabela_ok_nova.
Qed.

Lemma chaves_ok_fold {A : Type} (f : db → A → db) (xs : list A) st :
  (∀ s x, chaves_ok s → chaves_ok (f s x)) →
  chaves_ok st → chaves_ok (fold_left f xs st).
Proof.
  intros Hf. revert st. induction xs as [|x xs IH]; intros st Hst; simpl;
    [done|]. by apply IH, Hf.
Qed.

Lemma chaves_ok_excluir_relacionamentos (p : string) st :
  chaves_ok st → chaves_ok (excluir_relacionamentos p st).
Proof.
  intros (Hh & Hr & Hi & Ht). unfold excluir_relacionamentos, chaves_ok. simpl.
  split; [done|]. split; [by apply tabela_ok_filter|done].
Qed.

(** X1: Keys are never handed out twice: every operation on the store keeps the
    keys of each table distinct and at most the counter of the table, so a
    key read from a listing names one row at most, also after rows were
    deleted. *)
Theorem chaves_ok_preservado st :
  chaves_ok st →
  (∀ nome booking_url, chaves_ok (snd (criar_hotel nome booking_url st)))
  ∧ (∀ antigo novo booking_url,
       chaves_ok (persistido (atualizar_hotel antigo novo booking_url st) st))
  ∧ (∀ nome, chaves_ok (excluir_hotel nome st))
  ∧ (∀ p c, chaves_ok (criar_relacionamento p c st))
  ∧ (∀ p, chaves_ok (excluir_relacionamentos p st))
  ∧ (∀ p cs, chaves_ok (salvar_relacionamentos p cs st))
  ∧ (∀ titulo hotel n,
       chaves_ok (persistido (r ← criar_importacao titulo hotel n st;
                              Ok (snd r)) st))
  ∧ (∀ id, chaves_ok (excluir_importacao id st))
  ∧ (∀ hotel data preco sequencia,
       chaves_ok (criar_tarifa hotel data preco sequencia st))
  ∧ (∀ id, chaves_ok (excluir_tarifa id st))
  ∧ (∀ hotel df titulo,
       chaves_ok (snd (importar_tarifas_excel hotel df titulo st)))
  ∧ chaves_ok (limpar_tarifas st)
  ∧ chaves_ok (inserir_dados_iniciais st).
Proof.
  intros Hst. pose proof Hst as (Hh & Hr & Hi & Ht).
  split; [intros; by apply chaves_ok_criar_hotel|].
  split.
  { intros antigo novo url. unfold atualizar_hotel.
    destruct (_ && _); simpl; [done|].
    split; [|done]. simpl. apply tabela_ok_mesmas_chaves; [|done].
    intros h. by destruct (tem_nome antigo h). }
  split.
  { intros nome. unfold excluir_hotel, chaves_ok. simpl.
    do 3 (split; [by apply tabela_ok_filter|]). by apply tabela_ok_filter. }
  split; [intros; by apply chaves_ok_criar_relacionamento|].
  split; [intros; by apply chaves_ok_excluir_relacionamentos|].
  split.
  { intros p cs. unfold salvar_relacionamentos. apply chaves_ok_fold.
    - intros s c. apply chaves_ok_criar_relacionamento.
    - by apply chaves_ok_excluir_relacionamentos. }
  split.
  { intros titulo hotel n. unfold criar_importacao.
    destruct (existsb _ _); simpl; [done|].
    unfold chaves_ok. simpl. do 2 (split; [done|]).
    split; [by apply tabela_ok_nova|done]. }
  split.
  { intros id. unfold excluir_importacao.
    destruct (find _ _); [|done]. unfold chaves_ok. simpl.
    do 2 (split; [done|]). split; [by apply tabela_ok_filter|done]. }
  split; [intros; by apply chaves_ok_inserir_tarifa|].
  split.
  { intros id. unfold excluir_tarifa, chaves_ok. simpl.
    do 3 (split; [done|]). by apply tabela_ok_filter. }
  split.
  { intros hotel df titulo. unfold importar_tarifas_excel. simpl.
    apply chaves_ok_fold; [|done].
    intros s row. apply chaves_ok_inserir_tarifa. }
  split.
  { unfold limpar_tarifas, chaves_ok. simpl.
    do 3 (split; [done|]). apply tabela_ok_nil. }
  unfold inserir_dados_iniciais. destruct (Nat.eqb _ _); [|done].
  apply chaves_ok_fold; [intros s r; apply chaves_ok_criar_relacionamento|].
  apply chaves_ok_fold; [|done].
  intros s h. apply chaves_ok_criar_hotel.
Qed.

Lemma chaves_ok_init_database : chaves_ok init_database.
Proof. unfold chaves_ok. simpl. repeat split; constructor. Qed.

End Operacoes.

(** * Creating and deleting *)

Section IdaEVolta.
Implicit Types (st : db) (nome outro : string).

Lemma filter_chave_nova {A : Type} (chave : A → Z) (l : list A) (seq : Z)
    (x : A) :
  tabela_ok chave l seq → chave x = (seq + 1)%Z →
  List.filter (fun y => negb (Z.eqb (chave y) (seq + 1))) (l ++ [x]) = l.
Proof.
  intros [_ Hle] Hx. rewrite List.filter_app. simpl.
  rewrite Hx, Z.eqb_refl. simpl. rewrite app_nil_r.
  apply filter_todos. eapply Forall_impl; [exact Hle|]. simpl.
  intros y Hy. apply negb_true_iff, Z.eqb_neq. lia.
Qed.



Lemma filter_length_chave {A : Type} (chave : A → Z) (l : list A) (x : A) :
  List.NoDup (map chave l) → x ∈ l →
  S (length (List.filter (fun y => negb (Z.eqb (chave y) (chave x))) l)) =
  length l.
Proof.
  induction l as [|y l IH]; intros Hnd Hx; [by apply elem_of_nil in Hx|].
  simpl in Hnd. apply NoDup_cons_iff in Hnd as [Hy Hnd]. simpl.
  destruct (Z.eqb_spec (chave y) (chave x)) as [E|E]; simpl.
  - f_equal. f_equal. apply filter_todos, Forall_forall. intros z Hz.
    apply negb_true_iff, Z.eqb_neq. intros Ez. apply Hy. rewrite E, <- Ez.
    by apply in_map, list_elem_of_In.
  - f_equal. apply IH; [done|].
    apply elem_of_cons in Hx as [->|Hx]; [done|done].
Qed.

(** X8: [excluir_tarifa] removes the one row that holds the key and nothing
    else: a row is left exactly when it was there under another key, the
    table shrinks by exactly one row when the key is stored, and the store
    is unchanged when it is not. *)
Theorem excluir_tarifa_uma_linha (tarifa_id : Z) st :
  chaves_ok st →
  (∀ t, t ∈ tarifas (excluir_tarifa tarifa_id st) ↔
        t ∈ tarifas st ∧ t_id t ≠ tarifa_id)
  ∧ ((∃ t, t ∈ tarifas st ∧ t_id t = tarifa_id) →
     S (length (tarifas (excluir_tarifa tarifa_id st))) = length (tarifas st))
  ∧ ((∀ t, t ∈ tarifas st → t_id t ≠ tarifa_id) →
     excluir_tarifa tarifa_id st = st).
Proof.
  intros (_ & _ & _ & [Hnd _]). split; [|split].
  - intros t. simpl. by rewrite elem_of_List_filter, negb_true_iff, Z.eqb_neq.
  - intros (t & Ht & <-). simpl. by apply filter_length_chave.
  - intros Hnone. unfold excluir_tarifa. rewrite filter_todos; [apply db_eta|].
    apply Forall_forall. intros t Ht. apply negb_true_iff, Z.eqb_neq.
    by apply Hnone.
Qed.

Lemma excluir_tarifa_uma_linha_cenario :
  (∀ t, t ∈ tarifas (excluir_tarifa 2 st_cenario) ↔
        t ∈ tarifas st_cenario ∧ t_id t ≠ 2)
  ∧ ((∃ t, t ∈ tarifas st_cenario ∧ t_id t = 2) →
     S (length (tarifas (excluir_tarifa 2 st_cenario))) =
     length (tarifas st_cenario))
  ∧ ((∀ t, t ∈ tarifas st_cenario → t_id t ≠ 2) →
     excluir_tarifa 2 st_cenario = st_cenario).
Proof.
  apply (excluir_tarifa_uma_linha 2 st_cenario).
  unfold chaves_ok, tabela_ok. vm_compute.
  repeat split; repeat constructor; simpl; intuition discriminate.
Defined.

(** X6: [criar_importacao] raises [IntegrityError] when the title is taken.
    When the title is free it answers a key that no stored batch holds and
    appends the batch, and [excluir_importacao] on that key gives back the
    table of batches as it was, the rates being left alone throughout. *)
Theorem excluir_importacao_desfaz_criar (titulo hotel : string)
    (total_registros : Z) st :
  chaves_ok st →
  ((∃ i, i ∈ importacoes st ∧ i_titulo i = titulo) →
   criar_importacao titulo hotel total_registros st = Raise IntegrityError)
  ∧ ((∀ i, i ∈ importacoes st → i_titulo i ≠ titulo) →
     ∃ importacao_id st',
       criar_importacao titulo hotel total_registros st =
         Ok (importacao_id, st')
       ∧ (∀ i, i ∈ importacoes st → i_id i ≠ importacao_id)
       ∧ importacoes st' =
         importacoes st
         ++ [mk_importacao importacao_id titulo hotel total_registros]
       ∧ importacoes (excluir_importacao importacao_id st') = importacoes st
       ∧ tarifas (excluir_importacao importacao_id st') = tarifas st).
Proof.
  intros (_ & _ & Hi & _). unfold criar_importacao. split.
  - intros (i & Hin & Ht).
    assert (E : existsb (fun i => String.eqb (i_titulo i) titulo)
                        (importacoes st) = true).
    { apply existsb_exists. exists i. split; [by apply list_elem_of_In|].
      by apply String.eqb_eq. }
    by rewrite E.
  - intros Hfree.
    assert (E : existsb (fun i => String.eqb (i_titulo i) titulo)
                        (importacoes st) = false).
    { apply not_true_iff_false. intros (i & Hin & Ht)%existsb_exists.
      apply (Hfree i); [by apply list_elem_of_In|]. by apply String.eqb_eq. }
    rewrite E. eexists _, _. split; [done|]. split; [|split; [done|]].
    + intros i Hin. destruct Hi as [_ Hle]. rewrite Forall_forall in Hle.
      specialize (Hle i Hin). lia.
    + unfold excluir_importacao. simpl.
      destruct (find _ (importacoes st ++ _)) as [i|] eqn:F; simpl.
      * split; [|done]. by apply (filter_chave_nova i_id).
      * exfalso. eapply find_none in F;
          [|apply in_or_app; right; by left].
        simpl in F. by rewrite Z.eqb_refl in F.
Qed.

Lemma excluir_importacao_desfaz_criar_lote :
  ((∃ i, i ∈ importacoes st_lote ∧ i_titulo i = "outro") →
   criar_importacao "outro" "B" 3 st_lote = Raise IntegrityError)
  ∧ ((∀ i, i ∈ importacoes st_lote → i_titulo i ≠ "outro") →
     ∃ importacao_id st',
       criar_importacao "outro" "B" 3 st_lote = Ok (importacao_id, st')
       ∧ (∀ i, i ∈ importacoes st_lote → i_id i ≠ importacao_id)
       ∧ importacoes st' =
         importacoes st_lote ++ [mk_importacao importacao_id "outro" "B" 3]
       ∧ importacoes (excluir_importacao importacao_id st') =
         importacoes st_lote
       ∧ tarifas (excluir_importacao importacao_id st') = tarifas st_lote).
Proof.
  apply (excluir_importacao_desfaz_criar "outro" "B" 3 st_lote).
  unfold chaves_ok, tabela_ok. vm_compute.
  repeat split; repeat constructor; simpl; intuition discriminate.
Defined.

(** X3: [excluir_hotel] on a name that no row mentions changes nothing, and
    deleting a hotel right after it was created under such a name gives back
    the four tables as they were. *)
Theorem excluir_hotel_desfaz_criar nome (booking_url : string) st :
  sem_mencao nome st →
  excluir_hotel nome st = st
  ∧ fst (criar_hotel nome booking_url st) = true
  ∧ hoteis (excluir_hotel nome (snd (criar_hotel nome booking_url st))) =
    hoteis st
  ∧ relacionamentos
      (excluir_hotel nome (snd (criar_hotel nome booking_url st))) =
    relacionamentos st
  ∧ importacoes (excluir_hotel nome (snd (criar_hotel nome booking_url st))) =
    importacoes st
  ∧ tarifas (excluir_hotel nome (snd (criar_hotel nome booking_url st))) =
    tarifas st.
Proof.
  intros (Hh & Hr & Hi & Ht).
  assert (Fh : List.filter (fun h => negb (String.eqb (h_nome h) nome))
                 (hoteis st) = hoteis st).
  { apply filter_todos. eapply Forall_impl; [exact Hh|]. simpl.
    intros h Hn. by apply negb_eqb_string. }
  assert (Fr : List.filter
                 (fun r => negb (String.eqb (r_hotel_principal r) nome
                                 || String.eqb (r_concorrente r) nome))
                 (relacionamentos st) = relacionamentos st).
  { apply filter_todos. eapply Forall_impl; [exact Hr|]. simpl.
    intros r [H1 H2]. apply negb_true_iff, orb_false_iff.
    by rewrite !eqb_string_false. }
  assert (Fi : List.filter (fun i => negb (String.eqb (i_hotel i) nome))
                 (importacoes st) = importacoes st).
  { apply filter_todos. eapply Forall_impl; [exact Hi|]. simpl.
    intros i Hn. by apply negb_eqb_string. }
  assert (Ft : List.filter (fun t => negb (String.eqb (t_hotel t) nome))
                 (tarifas st) = tarifas st).
  { apply filter_todos. eapply Forall_impl; [exact Ht|]. simpl.
    intros t Hn. by apply negb_eqb_string. }
  assert (E : existsb (tem_nome nome) (hoteis st) = false).
  { apply not_true_iff_false. intros (h & Hin & Hn)%existsb_exists.
    rewrite Forall_forall in Hh. apply (Hh h); [by apply list_elem_of_In|].
    by apply String.eqb_eq. }
  split.
  { unfold excluir_hotel. rewrite Fh, Fr, Fi, Ft. apply db_eta. }
  unfold criar_hotel. rewrite E. simpl. split; [done|].
  rewrite List.filter_app, Fh, Fr, Fi, Ft. simpl.
  rewrite String.eqb_refl. simpl. by rewrite app_nil_r.
Qed.

Lemma excluir_hotel_desfaz_criar_cenario :
  excluir_hotel "C" st_cenario = st_cenario
  ∧ fst (criar_hotel "C" "" st_cenario) = true
  ∧ hoteis (excluir_hotel "C" (snd (criar_hotel "C" "" st_cenario))) =
    hoteis st_cenario
  ∧ relacionamentos (excluir_hotel "C" (snd (criar_hotel "C" "" st_cenario))) =
    relacionamentos st_cenario
  ∧ importacoes (excluir_hotel "C" (snd (criar_hotel "C" "" st_cenario))) =
    importacoes st_cenario
  ∧ tarifas (excluir_hotel "C" (snd (criar_hotel "C" "" st_cenario))) =
    tarifas st_cenario.
Proof.
  apply (excluir_hotel_desfaz_criar "C" "" st_cenario).
  unfold sem_mencao. vm_compute.
  repeat split; repeat constructor; simpl; intuition discriminate.
Defined.

(** X4: [criar_relacionamento] never refuses a pair: the competitor is added at
    the end of the competitors of the primary hotel, also when it is there
    already or is the primary hotel itself, and the competitors of every
    other hotel are the same as before. *)
Theorem criar_relacionamento_acrescenta (hotel_principal concorrente : string) st :
  obter_concorrentes hotel_principal
    (criar_relacionamento hotel_principal concorrente st) =
  obter_concorrentes hotel_principal st ++ [concorrente]
  ∧ (∀ outro, outro ≠ hotel_principal →
       obter_concorrentes outro
         (criar_relacionamento hotel_principal concorrente st) =
       obter_concorrentes outro st)
  ∧ hoteis (criar_relacionamento hotel_principal concorrente st) = hoteis st
  ∧ tarifas (criar_relacionamento hotel_principal concorrente st) = tarifas st.
Proof.
  unfold obter_concorrentes. simpl. split; [|split; [|done]].
  - rewrite List.filter_app, map_app. simpl.
    by rewrite String.eqb_refl.
  - intros outro Hne. rewrite List.filter_app, map_app. simpl.
    apply String.eqb_neq in Hne. rewrite String.eqb_sym in Hne.
    rewrite Hne. simpl. by rewrite app_nil_r.
Qed.

(** X5: [excluir_relacionamentos] leaves the primary hotel without competitors
    and every other hotel with the competitors it had, among them the hotel
    that was cleared; a second call changes nothing more. *)
Theorem excluir_relacionamentos_limpa (hotel_principal : string) st :
  obter_concorrentes hotel_principal
    (excluir_relacionamentos hotel_principal st) = []
  ∧ (∀ outro, outro ≠ hotel_principal →
       obter_concorrentes outro (excluir_relacionamentos hotel_principal st) =
       obter_concorrentes outro st)
  ∧ excluir_relacionamentos hotel_principal
      (excluir_relacionamentos hotel_principal st) =
    excluir_relacionamentos hotel_principal st
  ∧ hoteis (excluir_relacionamentos hotel_principal st) = hoteis st
  ∧ tarifas (excluir_relacionamentos hotel_principal st) = tarifas st.
Proof.
  split; [|split; [|split; [|done]]].
  - unfold obter_concorrentes. simpl.
    by rewrite (filter_alheios
                  (fun r => String.eqb (r_hotel_principal r) hotel_principal)).
  - intros outro Hne. unfold obter_concorrentes. simpl. f_equal.
    apply (filter_outro r_hotel_principal), Hne.
  - unfold excluir_relacionamentos. simpl. f_equal.
    rewrite List_filter_filter. apply filter_ext. intros r.
    by destruct (negb _).
Qed.

End IdaEVolta.

(** * Listings and the seed *)

Section Listagens.
Implicit Types (st : db).

Lemma ascii_compare_trans (a b c : ascii) :
  Ascii.compare a b = Lt → Ascii.compare b c = Lt → Ascii.compare a c = Lt.
Proof.
  unfold Ascii.compare. rewrite !N.compare_lt_iff. apply N.lt_trans.
Qed.

Lemma string_compare_refl (s : string) : String.compare s s = Eq.
Proof.
  induction s as [|c s IH]; simpl; [done|].
  unfold Ascii.compare. by rewrite N.compare_refl.
Qed.

Lemma string_compare_trans (s1 s2 s3 : string) :
  String.compare s1 s2 = Lt → String.compare s2 s3 = Lt →
  String.compare s1 s3 = Lt.
Proof.
  revert s2 s3. induction s1 as [|c1 s1 IH]; intros [|c2 s2] [|c3 s3];
    simpl; try done.
  destruct (Ascii.compare c1 c2) eqn:E12; [|clear IH|done];
    destruct (Ascii.compare c2 c3) eqn:E23; try done.
  - apply Ascii.compare_eq_iff in E12 as ->. rewrite E23. apply IH.
  - apply Ascii.compare_eq_iff in E12 as ->. by rewrite E23.
  - apply Ascii.compare_eq_iff in E23 as <-. by rewrite E12.
  - by rewrite (ascii_compare_trans _ _ _ E12 E23).
Qed.

Lemma string_leb_trans (s1 s2 s3 : string) :
  String.leb s1 s2 = true → String.leb s2 s3 = true → String.leb s1 s3 = true.
Proof.
  unfold String.leb.
  destruct (String.compare s1 s2) eqn:E12; [| |done].
  - apply String.compare_eq_iff in E12 as ->. done.
  - destruct (String.compare s2 s3) eqn:E23; [| |done]; intros _ _.
    + apply String.compare_eq_iff in E23 as <-. by rewrite E12.
    + by rewrite (string_compare_trans _ _ _ E12 E23).
Qed.

#[local] Instance ordem_hoteis_total : Total ordem_hoteis.
Proof.
  intros a b. unfold ordem_hoteis.
  destruct (String.leb_total (h_nome a) (h_nome b)) as [H|H];
    [left|right]; by rewrite H.
Qed.

#[local] Instance ordem_hoteis_trans : Transitive ordem_hoteis.
Proof.
  intros a b c. unfold ordem_hoteis. rewrite !Is_true_true.
  apply string_leb_trans.
Qed.

#[local] Instance ordem_tarifas_total : Total ordem_tarifas.
Proof.
  intros a b. unfold ordem_tarifas, tarifa_leb.
  rewrite (String.compare_antisym (t_hotel a) (t_hotel b)).
  destruct (String.compare (t_hotel b) (t_hotel a)); simpl; [|by right|by left].
  rewrite (Z.compare_antisym (t_data a) (t_data b)).
  destruct (Z.compare (t_data a) (t_data b)); simpl; [|by left|by right].
  destruct (Z.leb_spec (t_sequencia a) (t_sequencia b));
    destruct (Z.leb_spec (t_sequencia b) (t_sequencia a)); simpl; auto; lia.
Qed.

#[local] Instance ordem_tarifas_trans : Transitive ordem_tarifas.
Proof.
  intros a b c. unfold ordem_tarifas, tarifa_leb. rewrite !Is_true_true.
  destruct (String.compare (t_hotel a) (t_hotel b)) eqn:Hab; [| |done].
  - apply String.compare_eq_iff in Hab. rewrite Hab.
    destruct (String.compare (t_hotel b) (t_hotel c)) eqn:Hbc; [|done|done].
    destruct (Z.compare_spec (t_data a) (t_data b)) as [Dab|Dab|Dab];
      [| |done].
    + rewrite Dab.
      destruct (Z.compare_spec (t_data b) (t_data c)); [|done|done].
      rewrite !Z.leb_le. lia.
    + destruct (Z.compare_spec (t_data b) (t_data c)) as [Dbc|Dbc|Dbc];
        [| |done]; intros _ _;
        destruct (Z.compare_spec (t_data a) (t_data c)); try done; lia.
  - intros _.
    destruct (String.compare (t_hotel b) (t_hotel c)) eqn:Hbc; [| |done].
    + apply String.compare_eq_iff in Hbc. by rewrite <- Hbc, Hab.
    + by rewrite (string_compare_trans _ _ _ Hab Hbc).
Qed.

(** X9: [listar_hoteis] and [listar_tarifas] return every stored row exactly
    once, each row before every row that follows it in the order of the
    [ORDER BY] clause: by name for the hotels; by hotel, then date, then
    sequence number for the rates. *)
Theorem listagens_ordenadas st :
  listar_hoteis st ≡ₚ hoteis st
  ∧ StronglySorted ordem_hoteis (listar_hoteis st)
  ∧ listar_tarifas st ≡ₚ tarifas st
  ∧ StronglySorted ordem_tarifas (listar_tarifas st).
Proof.
  unfold listar_hoteis, listar_tarifas.
  split; [apply merge_sort_Permutation|].
  split; [apply StronglySorted_merge_sort; apply _|].
  split; [apply merge_sort_Permutation|].
  apply StronglySorted_merge_sort; apply _.
Qed.

(** X10: [listar_tarifas_por_hotel] returns the rates of the hotel asked for and
    no other, each exactly once, ordered by date and then by sequence
    number; for an unknown hotel the listing is empty. *)
Theorem listar_tarifas_por_hotel_filtra (hotel : string) st :
  listar_tarifas_por_hotel hotel st ≡ₚ
    List.filter (fun t => String.eqb (t_hotel t) hotel) (tarifas st)
  ∧ (∀ t, t ∈ listar_tarifas_por_hotel hotel st ↔
          t ∈ tarifas st ∧ t_hotel t = hotel)
  ∧ StronglySorted
      (fun a b => (t_data a < t_data b)%Z
                  ∨ (t_data a = t_data b ∧ (t_sequencia a ≤ t_sequencia b)%Z))
      (listar_tarifas_por_hotel hotel st)
  ∧ ((∀ t, t ∈ tarifas st → t_hotel t ≠ hotel) ↔
     listar_tarifas_por_hotel hotel st = []).
Proof.
  assert (Hp : listar_tarifas_por_hotel hotel st ≡ₚ
    List.filter (fun t => String.eqb (t_hotel t) hotel) (tarifas st))
    by apply merge_sort_Permutation.
  assert (Hel : ∀ t, t ∈ listar_tarifas_por_hotel hotel st ↔
                     t ∈ tarifas st ∧ t_hotel t = hotel).
  { intros t. by rewrite Hp, elem_of_List_filter, String.eqb_eq. }
  split; [done|]. split; [done|]. split.
  - assert (Hs : StronglySorted ordem_tarifas
                   (listar_tarifas_por_hotel hotel st))
      by (apply StronglySorted_merge_sort; apply _).
    assert (Hf : ∀ t, t ∈ listar_tarifas_por_hotel hotel st →
                      t_hotel t = hotel) by (intros t Ht; by apply Hel).
    revert Hf Hs. generalize (listar_tarifas_por_hotel hotel st).
    intros l Hf Hs. induction Hs as [|a l Hs IH Hall]; [constructor|].
    constructor.
    + apply IH. intros t Ht. apply Hf. by right.
    + apply Forall_forall. intros b Hb.
      rewrite Forall_forall in Hall. specialize (Hall b Hb).
      assert (Ha : t_hotel a = hotel) by (apply Hf; by left).
      assert (Hb' : t_hotel b = hotel) by (apply Hf; by right).
      unfold ordem_tarifas, tarifa_leb in Hall.
      rewrite Ha, Hb', string_compare_refl in Hall.
      destruct (Z.compare_spec (t_data a) (t_data b)); [right|left|done];
        [|done]. split; [done|]. by apply Z.leb_le, Is_true_true.
  - split.
    + intros Hnone. destruct (listar_tarifas_por_hotel hotel st) as [|t l];
        [done|]. exfalso.
      destruct (proj1 (Hel t)) as [Ht Hh]; [by left|]. by apply (Hnone t).
    + intros Hnil t Ht Hh. rewrite Hnil in Hel.
      apply (elem_of_nil t). apply Hel. done.
Qed.

Lemma fold_left_preserva {A B : Type} (g : db → B) (f : db → A → db)
    (xs : list A) st :
  (∀ s x, g (f s x) = g s) → g (fold_left f xs st) = g st.
Proof.
  intros Hf. revert st. induction xs as [|x xs IH]; intros st; simpl; [done|].
  by rewrite IH, Hf.
Qed.

Lemma criar_hotel_outras_tabelas (nome booking_url : string) st :
  relacionamentos (snd (criar_hotel nome booking_url st)) = relacionamentos st
  ∧ importacoes (snd (criar_hotel nome booking_url st)) = importacoes st
  ∧ tarifas (snd (criar_hotel nome booking_url st)) = tarifas st.
Proof. unfold criar_hotel. by destruct (existsb _ _). Qed.

(** X11: [inserir_dados_iniciais] only fills a store without hotels: it changes
    nothing as soon as one hotel is registered, running it twice is running
    it once, it never touches the rates or the import batches, and after it
    the table of hotels is never empty. *)
Theorem inserir_dados_iniciais_semeia st :
  (hoteis st ≠ [] → inserir_dados_iniciais st = st)
  ∧ inserir_dados_iniciais (inserir_dados_iniciais st) =
    inserir_dados_iniciais st
  ∧ hoteis (inserir_dados_iniciais st) ≠ []
  ∧ tarifas (inserir_dados_iniciais st) = tarifas st
  ∧ importacoes (inserir_dados_iniciais st) = importacoes st.
Proof.
  assert (Hkeep : hoteis st ≠ [] → inserir_dados_iniciais st = st).
  { intros Hne. unfold inserir_dados_iniciais.
    rewrite length_listar_hoteis. by destruct (hoteis st). }
  assert (Hne : hoteis (inserir_dados_iniciais st) ≠ []).
  { destruct (hoteis st) as [|h l] eqn:Eh.
    2:{ rewrite Hkeep; try done; by rewrite Eh. }
    unfold inserir_dados_iniciais. rewrite length_listar_hoteis, Eh.
    destruct st as [hs sh rs sr ims si ts stt]. simpl in Eh. subst hs.
    vm_compute. discriminate. }
  split; [done|]. split.
  { unfold inserir_dados_iniciais at 1.
    rewrite length_listar_hoteis.
    by destruct (hoteis (inserir_dados_iniciais st)). }
  split; [done|].
  unfold inserir_dados_iniciais. destruct (Nat.eqb _ _); [|done].
  split.
  - rewrite (fold_left_preserva tarifas) by done.
    apply (fold_left_preserva tarifas). intros s h.
    apply criar_hotel_outras_tabelas.
  - rewrite (fold_left_preserva importacoes) by done.
    apply (fold_left_preserva importacoes). intros s h.
    apply criar_hotel_outras_tabelas.
Qed.

End Listagens.

(** * Forms and guards of the matrix page *)

Section Formularios.
Implicit Types (st : db).

(** X12: The form of the hotels succeeds exactly when the name is not empty and
    not yet registered; it then registers the name after the others, and
    otherwise leaves the store as it was. *)
Theorem form_hotel_resposta (nome_hotel booking_url : string) st :
  (fst (form_hotel nome_hotel booking_url st) = Sucesso ↔
   nome_hotel ≠ "" ∧ ∀ h, h ∈ hoteis st → h_nome h ≠ nome_hotel)
  ∧ (fst (form_hotel nome_hotel booking_url st) = Sucesso →
     map h_nome (hoteis (snd (form_hotel nome_hotel booking_url st))) =
     map h_nome (hoteis st) ++ [nome_hotel])
  ∧ (fst (form_hotel nome_hotel booking_url st) ≠ Sucesso →
     snd (form_hotel nome_hotel booking_url st) = st)
  ∧ (nome_hotel = "" →
     fst (form_hotel nome_hotel booking_url st) = ErroNomeObrigatorio)
  ∧ ((∃ h, h ∈ hoteis st ∧ h_nome h = nome_hotel) → nome_hotel ≠ "" →
     fst (form_hotel nome_hotel booking_url st) = ErroJaExiste).
Proof.
  unfold form_hotel, criar_hotel.
  destruct (String.eqb_spec nome_hotel "") as [->|Hne]; simpl.
  { split; [split; [done|tauto]|]. repeat split; try done. }
  destruct (existsb (tem_nome nome_hotel) (hoteis st)) eqn:E; simpl.
  - apply existsb_exists in E as (h & Hin & Hn).
    apply String.eqb_eq in Hn. apply list_elem_of_In in Hin.
    split; [split; [done|]|by repeat split].
    intros [_ Hfree]. by destruct (Hfree h Hin).
  - assert (Hfree : ∀ h, h ∈ hoteis st → h_nome h ≠ nome_hotel).
    { intros h Hin Hn. apply not_true_iff_false in E. apply E.
      apply existsb_exists. exists h. split; [by apply list_elem_of_In|].
      by apply String.eqb_eq. }
    split; [done|]. split; [intros _; by rewrite map_app|].
    split; [done|]. split; [done|].
    intros (h & Hin & Hn) _. by destruct (Hfree h Hin).
Qed.

(** X13: The form of the rates never stores a price that is not positive: such a
    price is refused and the store stays as it was; a positive price is
    stored as the last rate, with the hotel, date and sequence number
    given. *)
Theorem form_tarifa_preco_positivo (hotel_tarifa : string) (data_tarifa : Z)
    (preco_tarifa : Q) (sequencia_tarifa : Z) st :
  Forall (fun t => (0 < t_preco t)%Q) (tarifas st) →
  Forall (fun t => (0 < t_preco t)%Q)
         (tarifas (snd (form_tarifa hotel_tarifa data_tarifa preco_tarifa
                                    sequencia_tarifa st)))
  ∧ ((preco_tarifa <= 0)%Q →
     form_tarifa hotel_tarifa data_tarifa preco_tarifa sequencia_tarifa st =
     (ErroPreco, st))
  ∧ ((0 < preco_tarifa)%Q →
     fst (form_tarifa hotel_tarifa data_tarifa preco_tarifa
                      sequencia_tarifa st) = Sucesso
     ∧ map colunas
           (tarifas (snd (form_tarifa hotel_tarifa data_tarifa preco_tarifa
                                      sequencia_tarifa st))) =
       map colunas (tarifas st)
       ++ [(hotel_tarifa, data_tarifa, preco_tarifa, sequencia_tarifa)]).
Proof.
  intros Hpos. unfold form_tarifa.
  destruct (Qltb 0 preco_tarifa) eqn:E; simpl.
  - apply Qltb_lt in E. split; [|split].
    + apply Forall_app. split; [done|]. by repeat constructor.
    + intros Hle. exfalso. apply (Qlt_irrefl 0).
      eapply Qlt_le_trans; eauto.
    + intros _. split; [done|]. by rewrite map_app.
  - apply Qltb_ge in E. split; [done|]. split; [done|].
    intros Hlt. exfalso. apply (Qlt_irrefl 0).
    eapply Qlt_le_trans; eauto.
Qed.

Lemma form_tarifa_preco_positivo_cenario :
  Forall (fun t => (0 < t_preco t)%Q)
         (tarifas (snd (form_tarifa "A" 2 0 1 st_cenario)))
  ∧ ((0 <= 0)%Q → form_tarifa "A" 2 0 1 st_cenario = (ErroPreco, st_cenario))
  ∧ ((0 < 0)%Q →
     fst (form_tarifa "A" 2 0 1 st_cenario) = Sucesso
     ∧ map colunas (tarifas (snd (form_tarifa "A" 2 0 1 st_cenario))) =
       map colunas (tarifas st_cenario) ++ [("A", 2%Z, 0%Q, 1%Z)]).
Proof.
  apply (form_tarifa_preco_positivo "A" 2 0 1 st_cenario).
  vm_compute. repeat constructor.
Defined.

End Formularios.

Section Guardas.
Implicit Types (st : db).

Lemma length_listar_tarifas st :
  length (listar_tarifas st) = length (tarifas st).
Proof. unfold listar_tarifas. by rewrite merge_sort_Permutation. Qed.

Lemma length_eqb_0_nil {A : Type} (l : list A) :
  Nat.eqb (length l) 0 = true ↔ l = [].
Proof. by destruct l. Qed.

(** X15: The messages of the page "Matriz Comparativa", in the order in which its
    guards are tried: no hotel; no rate; a period that ends before it
    starts; no rate dated inside the period; no rate of the primary hotel
    or of its competitors inside the period. In each case the page stops
    there, builds no grid and raises nothing. *)
Theorem montar_matriz_mensagens st (hotel_principal : string)
    (data_inicio data_fim : Z) :
  (hoteis st = [] →
   montar_matriz st hotel_principal data_inicio data_fim =
   Ok (Parou CadastreHoteis))
  ∧ (hoteis st ≠ [] → tarifas st = [] →
     montar_matriz st hotel_principal data_inicio data_fim =
     Ok (Parou CadastreTarifas))
  ∧ (hoteis st ≠ [] → tarifas st ≠ [] → (data_fim < data_inicio)%Z →
     montar_matriz st hotel_principal data_inicio data_fim =
     Ok (Parou DataInicioPosterior))
  ∧ (hoteis st ≠ [] → tarifas st ≠ [] → (data_inicio ≤ data_fim)%Z →
     (∀ t, t ∈ tarifas st → ¬ (data_inicio ≤ t_data t ≤ data_fim)%Z) →
     montar_matriz st hotel_principal data_inicio data_fim =
     Ok (Parou NenhumaTarifaPeriodo))
  ∧ (hoteis st ≠ [] → (data_inicio ≤ data_fim)%Z →
     (∃ t, t ∈ tarifas st ∧ (data_inicio ≤ t_data t ≤ data_fim)%Z) →
     (∀ t, t ∈ tarifas st → (data_inicio ≤ t_data t ≤ data_fim)%Z →
           t_hotel t ∉ hotel_principal
                       :: obter_concorrentes hotel_principal st) →
     montar_matriz st hotel_principal data_inicio data_fim =
     Ok (Parou NenhumaTarifaHoteis)).
Proof.
  unfold montar_matriz. rewrite length_listar_hoteis, length_listar_tarifas.
  split; [by intros ->|].
  split; [intros Hh ->; by destruct (hoteis st)|].
  assert (G : ∀ {A : Type} (l : list A), l ≠ [] → Nat.eqb (length l) 0 = false)
    by (intros A l Hl; by destruct l).
  split.
  { intros Hh Ht Hlt. rewrite (G _ _ Hh), (G _ _ Ht).
    by rewrite (proj2 (Z.ltb_lt _ _) Hlt). }
  split.
  { intros Hh Ht Hle Hnone. rewrite (G _ _ Hh), (G _ _ Ht).
    rewrite (proj2 (Z.ltb_ge _ _) Hle).
    assert (E : List.filter (no_periodo data_inicio data_fim)
                            (listar_tarifas st) = []).
    { destruct (List.filter _ _) as [|t l] eqn:F; [done|]. exfalso.
      assert (Hin : t ∈ List.filter (no_periodo data_inicio data_fim)
                                    (listar_tarifas st))
        by (rewrite F; by left).
      apply elem_of_List_filter in Hin as [Hin Hp].
      apply (Hnone t); [by apply elem_of_listar_tarifas|].
      by apply no_periodo_entre. }
    by rewrite E. }
  intros Hh Hle (t & Ht & Hp) Hnone. rewrite (G _ _ Hh).
  assert (Ht' : tarifas st ≠ []) by (intros E; rewrite E in Ht;
                                      by apply elem_of_nil in Ht).
  rewrite (G _ _ Ht'), (proj2 (Z.ltb_ge _ _) Hle).
  assert (E1 : Nat.eqb (length (List.filter (no_periodo data_inicio data_fim)
                                  (listar_tarifas st))) 0 = false).
  { apply length_eqb_0. exists t. apply elem_of_List_filter.
    split; [by apply elem_of_listar_tarifas|]. by apply no_periodo_entre. }
  rewrite E1.
  assert (E2 : List.filter
                 (isin (hotel_principal
                          :: obter_concorrentes hotel_principal st))
                 (List.filter (no_periodo data_inicio data_fim)
                    (listar_tarifas st)) = []).
  { destruct (List.filter (isin _) _) as [|x l] eqn:F; [done|]. exfalso.
    assert (Hin : x ∈ List.filter
                (isin (hotel_principal
                         :: obter_concorrentes hotel_principal st))
                (List.filter (no_periodo data_inicio data_fim)
                   (listar_tarifas st)))
      by (rewrite F; by left).
    rewrite !elem_of_List_filter, elem_of_listar_tarifas in Hin.
    destruct Hin as [[Hin Hper] Hi].
    apply (Hnone x Hin); [by apply no_periodo_entre|].
    by apply isin_elem_of. }
  by rewrite E2.
Qed.

(** X14: Clearing all rates leaves hotels, relationships and batches alone, keeps
    the key counter of the rates, and from then on the matrix page answers
    every request with the message that asks for rates (or for hotels when
    none is registered). *)
Theorem limpar_tarifas_esvazia st (hotel_principal : string)
    (data_inicio data_fim : Z) :
  tarifas (limpar_tarifas st) = []
  ∧ seq_tarifas (limpar_tarifas st) = seq_tarifas st
  ∧ hoteis (limpar_tarifas st) = hoteis st
  ∧ relacionamentos (limpar_tarifas st) = relacionamentos st
  ∧ importacoes (limpar_tarifas st) = importacoes st
  ∧ matriz_comparativa (limpar_tarifas st) hotel_principal data_inicio
                       data_fim =
    Ok (Mensagem (if Nat.eqb (length (hoteis st)) 0
                  then CadastreHoteis else CadastreTarifas)).
Proof.
  do 5 (split; [done|]).
  unfold matriz_comparativa, montar_matriz.
  rewrite length_listar_hoteis, length_listar_tarifas. simpl.
  by destruct (Nat.eqb (length (hoteis st)) 0).
Qed.

End Guardas.

(** * Exceptions of the matrix *)

Section Excecoes.
Implicit Types (st : db).

Lemma celula_Raise (tarifas_data : list tarifa_row) (e : exn) :
  celula tarifas_data = Raise e ↔
  e = ZeroDivisionError ∧ grupo_zero tarifas_data = true.
Proof.
  destruct tarifas_data as [|t [|t' resto]]; [by split; [|intros []]..|].
  rewrite celula_varias. unfold grupo_zero. cbv zeta.
  destruct (Qeq_bool _ 0).
  - split; [by intros [= <-]|by intros [-> _]].
  - destruct (Qltb 0 _); (split; [done|by intros []]).
Qed.

Lemma para_cada_insert_Raise `{Countable K} {V : Type} (f : K → res V)
    (xs : list K) (m0 : gmap K V) (e : exn) :
  para_cada xs (fun x m => v ← f x; Ok (<[x := v]> m)) m0 = Raise e →
  ∃ x, x ∈ xs ∧ f x = Raise e.
Proof.
  revert m0. induction xs as [|x xs IH]; intros m0; simpl; [done|].
  destruct (f x) as [v|e'] eqn:E; simpl.
  - intros Hr. destruct (IH _ Hr) as (y & Hy & Hfy).
    exists y. split; [by right|done].
  - intros [= <-]. exists x. split; [by left|done].
Qed.

Lemma para_cada_insert_falha `{Countable K} {V : Type} (f : K → res V)
    (xs : list K) (m0 : gmap K V) :
  (∃ x e, x ∈ xs ∧ f x = Raise e) →
  ∃ e, para_cada xs (fun x m => v ← f x; Ok (<[x := v]> m)) m0 = Raise e.
Proof.
  revert m0. induction xs as [|x xs IH]; intros m0 (y & e & Hy & Hfy); simpl.
  { by apply elem_of_nil in Hy. }
  destruct (f x) as [v|e'] eqn:E; simpl; [|by eexists].
  apply IH. apply elem_of_cons in Hy as [->|Hy]; [congruence|by eauto].
Qed.

Lemma linha_matriz_por_data (tarifas_matriz : list tarifa_row)
    (hotel : string) (datas : list Z) :
  linha_matriz tarifas_matriz hotel datas =
  para_cada datas
    (fun data linha =>
       v ← celula (tarifas_de hotel data tarifas_matriz);
       Ok (<[data := v]> linha))
    ∅.
Proof.
  unfold linha_matriz. generalize (∅ : gmap Z conteudo).
  induction datas as [|d ds IH]; intros m; simpl; [done|].
  rewrite List_filter_filter. fold (tarifas_de hotel d tarifas_matriz).
  destruct (celula _); simpl; [apply IH|done].
Qed.

Lemma linha_matriz_Raise (tarifas_matriz : list tarifa_row)
    (hotel : string) (datas : list Z) (e : exn) :
  linha_matriz tarifas_matriz hotel datas = Raise e ↔
  e = ZeroDivisionError
  ∧ ∃ data, data ∈ datas
            ∧ grupo_zero (tarifas_de hotel data tarifas_matriz) = true.
Proof.
  rewrite linha_matriz_por_data. split.
  - intros Hr.
    apply (para_cada_insert_Raise
             (fun data => celula (tarifas_de hotel data tarifas_matriz)))
      in Hr as (data & Hd & Hc).
    apply celula_Raise in Hc as [-> Hz]. eauto.
  - intros [-> (data & Hd & Hz)].
    destruct (para_cada_insert_falha
                (fun data => celula (tarifas_de hotel data tarifas_matriz))
                datas ∅) as [e He].
    { exists data, ZeroDivisionError. split; [done|].
      by apply celula_Raise. }
    rewrite He. f_equal.
    apply (para_cada_insert_Raise
             (fun data => celula (tarifas_de hotel data tarifas_matriz)))
      in He as (d & _ & Hc).
    by apply celula_Raise in Hc as [-> _].
Qed.

Lemma construir_matriz_Raise (hoteis_matriz : list string) (datas : list Z)
    (tarifas_matriz : list tarifa_row) (e : exn) :
  construir_matriz hoteis_matriz datas tarifas_matriz = Raise e ↔
  e = ZeroDivisionError
  ∧ ∃ hotel data, hotel ∈ hoteis_matriz ∧ data ∈ datas
                  ∧ grupo_zero (tarifas_de hotel data tarifas_matriz) = true.
Proof.
  unfold construir_matriz. split.
  - intros Hr.
    apply (para_cada_insert_Raise
             (fun hotel => linha_matriz tarifas_matriz hotel datas))
      in Hr as (hotel & Hh & Hl).
    apply linha_matriz_Raise in Hl as [-> (data & Hd & Hz)]. eauto 10.
  - intros [-> (hotel & data & Hh & Hd & Hz)].
    destruct (para_cada_insert_falha
                (fun hotel => linha_matriz tarifas_matriz hotel datas)
                hoteis_matriz ∅) as [e He].
    { exists hotel, ZeroDivisionError. split; [done|].
      apply linha_matriz_Raise. eauto. }
    rewrite He. f_equal.
    apply (para_cada_insert_Raise
             (fun hotel => linha_matriz tarifas_matriz hotel datas))
      in He as (h & _ & Hl).
    by apply linha_matriz_Raise in Hl as [-> _].
Qed.

Lemma grupo_zero_elem (l : list tarifa_row) :
  grupo_zero l = true → ∃ t, t ∈ l.
Proof. destruct l as [|t l]; [done|]. intros _. exists t. by left. Qed.

(** X16: The construction of the grid raises exactly one exception, the division
    by zero, and exactly when some listed hotel has, on some day of the
    period, two or more rates of which the smallest is zero. A single rate
    of zero, or a zero that is not the smallest price, raises nothing. *)
Theorem montar_matriz_excecao st (hotel_principal : string)
    (data_inicio data_fim : Z) (e : exn) :
  montar_matriz st hotel_principal data_inicio data_fim = Raise e ↔
  e = ZeroDivisionError
  ∧ hoteis st ≠ []
  ∧ ∃ hotel data,
      hotel ∈ hotel_principal :: obter_concorrentes hotel_principal st
      ∧ (data_inicio ≤ data ≤ data_fim)%Z
      ∧ grupo_zero (tarifas_de hotel data (listar_tarifas st)) = true.
Proof.
  set (hm := hotel_principal :: obter_concorrentes hotel_principal st).
  split.
  - unfold montar_matriz. fold hm.
    destruct (Nat.eqb (length (listar_hoteis st)) 0) eqn:G1; [done|].
    destruct (Nat.eqb (length (listar_tarifas st)) 0); [done|].
    destruct (Z.ltb data_fim data_inicio); [done|].
    destruct (Nat.eqb (length (List.filter _ (listar_tarifas st))) 0);
      [done|].
    destruct (Nat.eqb (length (List.filter (isin hm) _)) 0); [done|].
    destruct (construir_matriz _ _ _) as [m|e'] eqn:Hc; [done|].
    simpl. intros [= <-].
    apply construir_matriz_Raise in Hc as [-> (hotel & data & Hh & Hd & Hz)].
    apply elem_of_date_range in Hd.
    rewrite tarifas_de_filtradas in Hz by done.
    split; [done|]. split; [|by eauto 10].
    rewrite length_listar_hoteis in G1. by destruct (hoteis st).
  - intros [-> [Hh (hotel & data & Hhm & Hd & Hz)]].
    destruct (grupo_zero_elem _ Hz) as [t Ht].
    unfold tarifas_de in Ht.
    rewrite elem_of_List_filter, elem_of_listar_tarifas in Ht.
    destruct Ht as [Ht Hb]. apply andb_true_iff in Hb as [Hth Htd].
    apply String.eqb_eq in Hth. apply Z.eqb_eq in Htd.
    rewrite montar_matriz_construir; [|done|lia|].
    2:{ exists t. split; [done|]. split.
        - apply no_periodo_entre. by rewrite Htd.
        - apply isin_elem_of. by rewrite Hth. }
    fold hm.
    assert (Hc : construir_matriz hm (date_range data_inicio data_fim)
                   (List.filter (isin hm)
                      (List.filter (no_periodo data_inicio data_fim)
                         (listar_tarifas st))) = Raise ZeroDivisionError).
    { apply construir_matriz_Raise. split; [done|].
      exists hotel, data. split; [done|]. split.
      - by apply elem_of_date_range.
      - by rewrite tarifas_de_filtradas. }
    by rewrite Hc.
Qed.

(** With no hotel listed twice and no rate of zero in the store, the page
    raises nothing, whatever the hotel and the period asked for. *)
Lemma matriz_comparativa_ok st (hotel_principal : string)
    (data_inicio data_fim : Z) :
  List.NoDup (hotel_principal :: obter_concorrentes hotel_principal st) →
  precos_nao_zero st →
  ∃ pg, matriz_comparativa st hotel_principal data_inicio data_fim = Ok pg.
Proof.
  intros Hnd Hnz. unfold matriz_comparativa, montar_matriz.
  set (hm := hotel_principal :: obter_concorrentes hotel_principal st).
  fold hm in Hnd.
  destruct (Nat.eqb (length (listar_hoteis st)) 0); [by eexists|].
  destruct (Nat.eqb (length (listar_tarifas st)) 0); [by eexists|].
  destruct (Z.ltb data_fim data_inicio); [by eexists|].
  destruct (Nat.eqb (length (List.filter _ (listar_tarifas st))) 0);
    [by eexists|].
  destruct (Nat.eqb (length (List.filter (isin hm) _)) 0); [by eexists|].
  destruct (construir_matriz_celulas hm (date_range data_inicio data_fim)
              (List.filter (isin hm)
                 (List.filter (no_periodo data_inicio data_fim)
                    (listar_tarifas st))))
    as (m & Hm & Hcel & _ & _).
  { apply NoDup_seqZ. }
  { intros hotel data _ _. apply celulas_sem_zero.
    intros t Ht _ _. unfold precos_nao_zero in Hnz.
    rewrite Forall_forall in Hnz. by apply Hnz. }
  rewrite Hm. simpl.
  destruct (html_matriz_ok m hm hotel_principal
              (date_range data_inicio data_fim) Hnd)
    as (linhas & Hl & _).
  { by left. }
  { intros hotel data Hhm Hd.
    destruct (Hcel hotel data Hhm Hd) as (v & Hv & Hlk). eauto. }
  rewrite Hl. by eexists.
Qed.

End Excecoes.

(** * Invariants of the reachable stores *)

Section Alcancaveis.
Implicit Types (st : db).

Lemma elem_of_hoteis_lista (nome : string) st :
  nome ∈ hoteis_lista st ↔ nome ∈ map h_nome (hoteis st).
Proof.
  unfold hoteis_lista, listar_hoteis.
  rewrite !list_elem_of_In, !in_map_iff.
  split; intros (h & Hn & Hin); exists h; (split; [done|]);
    apply list_elem_of_In; apply list_elem_of_In in Hin.
  - by rewrite merge_sort_Permutation in Hin.
  - by rewrite merge_sort_Permutation.
Qed.

Lemma tem_nome_elem_of (nome : string) (hs : list hotel_row) :
  existsb (tem_nome nome) hs = true ↔ nome ∈ map h_nome hs.
Proof.
  rewrite existsb_exists, list_elem_of_In, in_map_iff. unfold tem_nome.
  split; intros (h & H1 & H2); exists h.
  - split; [by apply String.eqb_eq|done].
  - split; [done|by apply String.eqb_eq].
Qed.

Lemma elem_of_nomes_filter (x nome : string) (hs : list hotel_row) :
  x ∈ map h_nome hs → x ≠ nome →
  x ∈ map h_nome
        (List.filter (fun h => negb (String.eqb (h_nome h) nome)) hs).
Proof.
  rewrite !list_elem_of_In, !in_map_iff.
  intros (h & Hn & Hin) Hne. exists h. split; [done|].
  apply filter_In. split; [done|].
  apply negb_true_iff, String.eqb_neq. by rewrite Hn.
Qed.

Lemma bem_formado_mesmos st st' :
  hoteis st' = hoteis st →
  relacionamentos st' = relacionamentos st →
  importacoes st' = importacoes st →
  bem_formado st → bem_formado st'.
Proof. unfold bem_formado. by intros -> -> ->. Qed.

Lemma bem_formado_init_database : bem_formado init_database.
Proof.
  unfold bem_formado. simpl. split; [constructor|].
  split; [|split; [constructor|done]].
  intros r Hr. by apply elem_of_nil in Hr.
Qed.

Lemma inserir_dados_iniciais_nao_vazio st :
  hoteis st ≠ [] → inserir_dados_iniciais st = st.
Proof.
  intros Hne. unfold inserir_dados_iniciais.
  rewrite length_listar_hoteis. by destruct (hoteis st).
Qed.

Lemma inserir_dados_iniciais_tarifas st :
  tarifas (inserir_dados_iniciais st) = tarifas st.
Proof.
  unfold inserir_dados_iniciais. destruct (Nat.eqb _ _); [|done].
  rewrite (fold_left_preserva tarifas) by done.
  apply (fold_left_preserva tarifas). intros s h.
  apply criar_hotel_outras_tabelas.
Qed.

Lemma bem_formado_inserir_dados_iniciais st :
  bem_formado st → bem_formado (inserir_dados_iniciais st).
Proof.
  intros Hbf. destruct (hoteis st) as [|h0 hs0] eqn:Eh.
  2:{ rewrite inserir_dados_iniciais_nao_vazio; [done|by rewrite Eh]. }
  destruct Hbf as (_ & Hrel & _ & Himp). rewrite Eh in Hrel.
  assert (Er : relacionamentos st = []).
  { destruct (relacionamentos st) as [|r rs]; [done|].
    destruct (Hrel r) as [Hr _]; [by left|]. by apply elem_of_nil in Hr. }
  destruct st as [hs sh rs sr ims si ts stt]. simpl in *. subst.
  set (X := inserir_dados_iniciais _).
  assert (En : map h_nome (hoteis X) = map fst hoteis_iniciais)
    by (vm_compute; reflexivity).
  assert (Ep : map par (relacionamentos X) = relacionamentos_iniciais)
    by (vm_compute; reflexivity).
  assert (Ei : importacoes X = []) by (vm_compute; reflexivity).
  unfold bem_formado. rewrite En, Ep, Ei.
  split.
  { apply NoDup_ListNoDup. apply (bool_decide_unpack _). by vm_compute. }
  split.
  { intros r Hr.
    assert (Hp : par r ∈ relacionamentos_iniciais).
    { rewrite <- Ep. apply list_elem_of_In, in_map, list_elem_of_In, Hr. }
    change (r_hotel_principal r) with (fst (par r)).
    change (r_concorrente r) with (snd (par r)).
    revert Hp. generalize (par r). clear. intros pr Hp.
    unfold relacionamentos_iniciais in Hp.
    repeat (apply elem_of_cons in Hp as [-> | Hp]);
      [..|by apply elem_of_nil in Hp];
      simpl; (split; [|split; [|done]]);
      apply list_elem_of_In; simpl; tauto. }
  split; [|done].
  apply NoDup_ListNoDup. apply (bool_decide_unpack _). by vm_compute.
Qed.

Lemma elem_of_pares_salvar (hotel_principal : string)
    (concorrentes_selecionados : list string) st (pr : string * string) :
  pr ∈ map par (relacionamentos
                  (salvar_relacionamentos hotel_principal
                     concorrentes_selecionados st)) →
  (pr ∈ map par (relacionamentos st) ∧ fst pr ≠ hotel_principal)
  ∨ (fst pr = hotel_principal ∧ snd pr ∈ concorrentes_selecionados).
Proof.
  rewrite salvar_relacionamentos_pares. intros Hin.
  apply elem_of_app in Hin as [Hin | Hin].
  - left. apply elem_of_List_filter in Hin as [Hin Hne].
    split; [done|]. by apply negb_true_iff, String.eqb_neq in Hne.
  - right. apply list_elem_of_In, in_map_iff in Hin as (c & <- & Hc).
    split; [done|]. by apply list_elem_of_In.
Qed.

Lemma elem_of_map_par (r : relacionamento_row)
    (l : list relacionamento_row) :
  r ∈ l → par r ∈ map par l.
Proof. intros Hr. apply list_elem_of_In, in_map, list_elem_of_In, Hr. Qed.

Lemma bem_formado_pares st (pr : string * string) :
  bem_formado st → pr ∈ map par (relacionamentos st) →
  fst pr ∈ map h_nome (hoteis st) ∧ snd pr ∈ map h_nome (hoteis st)
  ∧ fst pr ≠ snd pr.
Proof.
  intros (_ & Hrel & _) Hin.
  apply list_elem_of_In, in_map_iff in Hin as (r & <- & Hr).
  apply list_elem_of_In in Hr. by apply Hrel.
Qed.

Lemma bem_formado_tratar (e : evento) st :
  bem_formado st → valido e st → bem_formado (tratar e st).
Proof.
  intros Hbf Hv. pose proof Hbf as (Hnomes & Hrel & Hpares & Himp).
  destruct e as [nome url | nome | hp sel | nome | h d p s | h ls tit
                 | iid | | tid]; simpl in *.
  - unfold form_hotel. destruct (negb (String.eqb nome "")); [|done].
    unfold criar_hotel.
    destruct (existsb (tem_nome nome) (hoteis st)) eqn:E; simpl; [done|].
    assert (Hfree : nome ∉ map h_nome (hoteis st)).
    { rewrite <- tem_nome_elem_of. by rewrite E. }
    unfold bem_formado. simpl. rewrite map_app. simpl.
    split.
    { apply NoDup_ListNoDup, NoDup_app. split; [by apply NoDup_ListNoDup|].
      split; [|apply NoDup_singleton].
      intros x Hx Hx'. apply list_elem_of_singleton in Hx'. by subst. }
    split; [|done].
    intros r Hr. destruct (Hrel r Hr) as (H1 & H2 & H3).
    split; [|split; [|done]]; apply elem_of_app; by left.
  - unfold excluir_hotel, bem_formado. simpl.
    split; [by apply NoDup_map_filter|].
    split.
    { intros r Hr. apply elem_of_List_filter in Hr as [Hr Hb].
      apply negb_true_iff, orb_false_iff in Hb as [Hb1 Hb2].
      apply String.eqb_neq in Hb1, Hb2.
      destruct (Hrel r Hr) as (H1 & H2 & H3).
      split; [|split; [|done]]; by apply elem_of_nomes_filter. }
    split; [by apply NoDup_map_filter|]. by rewrite Himp.
  - destruct Hv as (Hhp & Hnd & Hsel).
    assert (Eh : hoteis (salvar_relacionamentos hp sel st) = hoteis st).
    { unfold salvar_relacionamentos.
      by rewrite (fold_left_preserva hoteis). }
    assert (Ei : importacoes (salvar_relacionamentos hp sel st)
                 = importacoes st).
    { unfold salvar_relacionamentos.
      by rewrite (fold_left_preserva importacoes). }
    unfold bem_formado. rewrite Eh, Ei.
    split; [done|]. split; [|split; [|done]].
    + intros r Hr. apply elem_of_map_par, elem_of_pares_salvar in Hr.
      destruct Hr as [[Hr Hne] | [Hf Hs]].
      * by apply (bem_formado_pares st (par r)).
      * simpl in Hf, Hs. destruct (Hsel _ Hs) as [Hc Hcne].
        apply elem_of_hoteis_lista in Hc, Hhp.
        rewrite Hf. split; [done|]. split; [done|]. congruence.
    + rewrite salvar_relacionamentos_pares.
      apply NoDup_ListNoDup, NoDup_app. split.
      { apply NoDup_ListNoDup, List.NoDup_filter, Hpares. }
      split.
      { intros pr Hpr Hpr'. apply elem_of_List_filter in Hpr as [_ Hne].
        apply negb_true_iff, String.eqb_neq in Hne.
        apply list_elem_of_In, in_map_iff in Hpr' as (c & <- & _).
        by apply Hne. }
      apply NoDup_ListNoDup, Finite.Injective_map_NoDup; [|done].
      by intros x y [= ->].
  - unfold excluir_relacionamentos, bem_formado. simpl.
    split; [done|]. split; [|split; [by apply NoDup_map_filter|done]].
    intros r Hr. apply elem_of_List_filter in Hr as [Hr _]. by apply Hrel.
  - unfold form_tarifa. by destruct (Qltb 0 p).
  - unfold importar_planilha. destruct (negb _); [|done]. simpl.
    apply (bem_formado_mesmos st); [..|done].
    + by rewrite (fold_left_preserva hoteis).
    + by rewrite (fold_left_preserva relacionamentos).
    + by rewrite (fold_left_preserva importacoes).
  - unfold excluir_importacao. by rewrite Himp.
  - done.
  - done.
Qed.

Lemma bem_formado_alcancavel (P : evento → Prop) st :
  alcancavel P st → bem_formado st.
Proof.
  induction 1 as [|st _ IH|st e _ IH Hv _].
  - apply bem_formado_init_database.
  - by apply bem_formado_inserir_dados_iniciais.
  - by apply bem_formado_tratar.
Qed.

Lemma NoDup_segundos (hotel_principal : string)
    (l : list (string * string)) :
  List.NoDup l →
  List.NoDup
    (map snd (List.filter (fun p => String.eqb (fst p) hotel_principal) l)).
Proof.
  induction l as [|[a b] l IH]; simpl; [constructor|].
  intros Hnd. apply NoDup_cons_iff in Hnd as [Hab Hnd].
  destruct (String.eqb_spec a hotel_principal) as [->|Hne]; simpl;
    [|by apply IH].
  apply NoDup_cons_iff. split; [|by apply IH].
  intros Hin. apply Hab. apply in_map_iff in Hin as ([a' b'] & Hb & Hin).
  simpl in Hb. subst b'. apply filter_In in Hin as [Hin Ha].
  simpl in Ha. apply String.eqb_eq in Ha. by subst a'.
Qed.

Lemma bem_formado_hoteis_matriz st (hotel_principal : string) :
  bem_formado st →
  List.NoDup (hotel_principal :: obter_concorrentes hotel_principal st).
Proof.
  intros Hbf. pose proof Hbf as (_ & Hrel & Hpares & _).
  apply NoDup_cons_iff. split.
  - unfold obter_concorrentes. intros Hin.
    apply in_map_iff in Hin as (r & Hc & Hin).
    apply filter_In in Hin as [Hin Hp]. apply String.eqb_eq in Hp.
    apply list_elem_of_In in Hin. destruct (Hrel r Hin) as (_ & _ & Hne).
    congruence.
  - rewrite obter_concorrentes_pares. by apply NoDup_segundos.
Qed.

Lemma Forall_List_filter {A : Type} (Q : A → Prop) (f : A → bool)
    (l : list A) :
  Forall Q l → Forall Q (List.filter f l).
Proof.
  rewrite !Forall_forall. intros H x Hx.
  apply elem_of_List_filter in Hx as [Hx _]. by apply H.
Qed.

Lemma precos_nao_zero_tratar (e : evento) st :
  precos_nao_zero st → planilha_sem_zero e → precos_nao_zero (tratar e st).
Proof.
  unfold precos_nao_zero. intros Hnz Hp.
  destruct e as [nome url | nome | hp sel | nome | h d p s | h ls tit
                 | iid | | tid]; simpl in *.
  - unfold form_hotel. destruct (negb _); [|done].
    destruct (criar_hotel_outras_tabelas nome url st) as (_ & _ & Et).
    destruct (fst (criar_hotel nome url st)); simpl; by rewrite Et.
  - by apply Forall_List_filter.
  - unfold salvar_relacionamentos.
    by rewrite (fold_left_preserva tarifas).
  - done.
  - unfold form_tarifa. destruct (Qltb 0 p) eqn:E; [|done]. simpl.
    apply Qltb_lt in E. apply Forall_app. split; [done|].
    repeat constructor. simpl. intros Hz. rewrite Hz in E.
    by apply Qlt_irrefl in E.
  - unfold importar_planilha. destruct (negb _); [|done]. simpl.
    revert st Hnz. induction Hp as [|l ls Hl _ IH]; intros st Hnz; simpl;
      [done|].
    apply IH. simpl. apply Forall_app. split; [done|]. by repeat constructor.
  - unfold excluir_importacao. by destruct (find _ _).
  - constructor.
  - by apply Forall_List_filter.
Qed.

Lemma precos_nao_zero_alcancavel st :
  alcancavel planilha_sem_zero st → precos_nao_zero st.
Proof.
  induction 1 as [|st _ IH|st e _ IH _ Hp].
  - constructor.
  - unfold precos_nao_zero. by rewrite inserir_dados_iniciais_tarifas.
  - by apply precos_nao_zero_tratar.
Qed.

End Alcancaveis.

(** * The matrix page on reachable stores *)

Section PaginaAlcancavel.
Implicit Types (st : db).

Lemma construir_matriz_Ok_celulas (hoteis_matriz : list string)
    (datas : list Z) (tarifas_matriz : list tarifa_row)
    (matriz_dados : gmap string (gmap Z conteudo)) :
  NoDup datas →
  construir_matriz hoteis_matriz datas tarifas_matriz = Ok matriz_dados →
  ∀ hotel data, hotel ∈ hoteis_matriz → data ∈ datas →
    ∃ v, celula (tarifas_de hotel data tarifas_matriz) = Ok v
         ∧ celula_de matriz_dados hotel data = Some v.
Proof.
  intros Hnd Hm.
  destruct (construir_matriz_celulas hoteis_matriz datas tarifas_matriz Hnd)
    as (m & Hm' & Hcel & _).
  { intros hotel data Hh Hd.
    destruct (celula (tarifas_de hotel data tarifas_matriz)) as [v|e] eqn:E;
      [by eexists|].
    apply celula_Raise in E as [_ Hz].
    assert (Hr : construir_matriz hoteis_matriz datas tarifas_matriz
                 = Raise ZeroDivisionError).
    { apply construir_matriz_Raise. eauto 10. }
    congruence. }
  assert (m = matriz_dados) by congruence. by subst.
Qed.

(** With no hotel listed twice the page either answers, or raises the
    division by zero of the construction of the grid. *)
Lemma matriz_comparativa_casos st (hotel_principal : string)
    (data_inicio data_fim : Z) :
  List.NoDup (hotel_principal :: obter_concorrentes hotel_principal st) →
  (∃ pg, matriz_comparativa st hotel_principal data_inicio data_fim = Ok pg)
  ∨ (matriz_comparativa st hotel_principal data_inicio data_fim =
       Raise ZeroDivisionError
     ∧ montar_matriz st hotel_principal data_inicio data_fim =
       Raise ZeroDivisionError).
Proof.
  intros Hnd. unfold matriz_comparativa, montar_matriz.
  set (hm := hotel_principal :: obter_concorrentes hotel_principal st).
  fold hm in Hnd.
  destruct (Nat.eqb (length (listar_hoteis st)) 0); [left; by eexists|].
  destruct (Nat.eqb (length (listar_tarifas st)) 0); [left; by eexists|].
  destruct (Z.ltb data_fim data_inicio); [left; by eexists|].
  destruct (Nat.eqb (length (List.filter _ (listar_tarifas st))) 0);
    [left; by eexists|].
  destruct (Nat.eqb (length (List.filter (isin hm) _)) 0);
    [left; by eexists|].
  destruct (construir_matriz _ _ _) as [m|e] eqn:Hm; simpl.
  - left.
    destruct (html_matriz_ok m hm hotel_principal
                (date_range data_inicio data_fim) Hnd)
      as (linhas & Hl & _).
    { by left. }
    { intros hotel data Hhm Hd.
      destruct (construir_matriz_Ok_celulas _ _ _ _ (NoDup_seqZ _ _) Hm
                  hotel data Hhm Hd) as (v & Hv & Hlk). eauto. }
    rewrite Hl. by eexists.
  - right. apply construir_matriz_Raise in Hm as [-> _]. done.
Qed.

(** X18: In every store the application can reach: no import batch exists; the
    competitors of a hotel are registered hotels, none is listed twice and
    none is the hotel itself; and a hotel that has competitors is
    registered. *)
Theorem alcancavel_concorrentes (P : evento → Prop) st
    (hotel_principal : string) :
  alcancavel P st →
  importacoes st = []
  ∧ List.NoDup (hotel_principal :: obter_concorrentes hotel_principal st)
  ∧ ∀ c, c ∈ obter_concorrentes hotel_principal st →
         c ∈ hoteis_lista st ∧ hotel_principal ∈ hoteis_lista st.
Proof.
  intros Ha. apply bem_formado_alcancavel in Ha.
  split; [apply Ha|]. split; [by apply bem_formado_hoteis_matriz|].
  intros c Hc. unfold obter_concorrentes in Hc.
  apply list_elem_of_In, in_map_iff in Hc as (r & <- & Hr).
  apply filter_In in Hr as [Hr Hp]. apply String.eqb_eq in Hp. subst.
  apply list_elem_of_In in Hr.
  destruct Ha as (_ & Hrel & _). destruct (Hrel r Hr) as (H1 & H2 & _).
  by rewrite !elem_of_hoteis_lista.
Qed.

Lemma alcancavel_concorrentes_cliques :
  alcancavel (fun _ => True) st_cliques
  ∧ importacoes st_cliques = []
  ∧ List.NoDup ("ECOENCANTO" :: obter_concorrentes "ECOENCANTO" st_cliques)
  ∧ ∀ c, c ∈ obter_concorrentes "ECOENCANTO" st_cliques →
         c ∈ hoteis_lista st_cliques ∧ "ECOENCANTO" ∈ hoteis_lista st_cliques.
Proof.
  assert (Ha : alcancavel (fun _ => True) st_cliques).
  { unfold st_cliques.
    apply alcancavel_clique; [apply alcancavel_clique|..];
      [apply alcancavel_semente, alcancavel_inicio|..];
      simpl; try exact I; apply list_elem_of_In; vm_compute; tauto. }
  split; [exact Ha|].
  exact (alcancavel_concorrentes (fun _ => True) st_cliques "ECOENCANTO" Ha).
Defined.

(** X19: In every store the application can reach, the only exception of the
    matrix page is the division by zero, and it is raised while the grid is
    built: once the grid exists the table is always rendered. *)
Theorem alcancavel_so_divisao_por_zero (P : evento → Prop) st
    (hotel_principal : string) (data_inicio data_fim : Z) (e : exn) :
  alcancavel P st →
  matriz_comparativa st hotel_principal data_inicio data_fim = Raise e →
  e = ZeroDivisionError
  ∧ montar_matriz st hotel_principal data_inicio data_fim = Raise e.
Proof.
  intros Ha Hr. apply bem_formado_alcancavel in Ha.
  destruct (matriz_comparativa_casos st hotel_principal data_inicio data_fim)
    as [[pg Hpg] | [H1 H2]].
  - by apply bem_formado_hoteis_matriz.
  - congruence.
  - assert (e = ZeroDivisionError) by congruence. by subst.
Qed.

Lemma alcancavel_so_divisao_por_zero_planilha :
  alcancavel (fun _ => True) st_planilha_zero
  ∧ matriz_comparativa st_planilha_zero "ECOENCANTO" 1 1 =
    Raise ZeroDivisionError
  ∧ ZeroDivisionError = ZeroDivisionError
  ∧ montar_matriz st_planilha_zero "ECOENCANTO" 1 1 = Raise ZeroDivisionError.
Proof.
  assert (Ha : alcancavel (fun _ => True) st_planilha_zero).
  { unfold st_planilha_zero.
    apply alcancavel_clique;
      [apply alcancavel_semente, alcancavel_inicio|..];
      simpl; try exact I; apply list_elem_of_In; vm_compute; tauto. }
  assert (Hr : matriz_comparativa st_planilha_zero "ECOENCANTO" 1 1 =
               Raise ZeroDivisionError) by (vm_compute; reflexivity).
  split; [exact Ha|]. split; [exact Hr|].
  exact (alcancavel_so_divisao_por_zero (fun _ => True) st_planilha_zero
           "ECOENCANTO" 1 1 ZeroDivisionError Ha Hr).
Defined.

(** X20: While no imported sheet holds a price of zero, the matrix page never
    raises: in every store the application can reach, for every hotel and
    every period it shows a message or a table. *)
Theorem alcancavel_nunca_levanta st (hotel_principal : string)
    (data_inicio data_fim : Z) :
  alcancavel planilha_sem_zero st →
  ∃ pg, matriz_comparativa st hotel_principal data_inicio data_fim = Ok pg.
Proof.
  intros Ha. apply matriz_comparativa_ok.
  - by eapply bem_formado_hoteis_matriz, bem_formado_alcancavel.
  - by apply precos_nao_zero_alcancavel.
Qed.

Lemma alcancavel_nunca_levanta_cliques :
  alcancavel planilha_sem_zero st_cliques
  ∧ ∃ pg, matriz_comparativa st_cliques "ECOENCANTO" 1 2 = Ok pg.
Proof.
  assert (Ha : alcancavel planilha_sem_zero st_cliques).
  { unfold st_cliques.
    apply alcancavel_clique; [apply alcancavel_clique|..];
      [apply alcancavel_semente, alcancavel_inicio|..];
      simpl; try exact I; apply list_elem_of_In; vm_compute; tauto. }
  split; [exact Ha|].
  exact (alcancavel_nunca_levanta st_cliques "ECOENCANTO" 1 2 Ha).
Defined.

End PaginaAlcancavel.

(** * The chart and the comparison *)

Section Grafico.
Implicit Types (st : db).

Lemma montar_matriz_casos st (hotel_principal : string)
    (data_inicio data_fim : Z) :
  (∃ a, montar_matriz st hotel_principal data_inicio data_fim = Ok (Parou a))
  ∨ montar_matriz st hotel_principal data_inicio data_fim =
    (matriz_dados ←
       construir_matriz
         (hotel_principal :: obter_concorrentes hotel_principal st)
         (date_range data_inicio data_fim)
         (List.filter
            (isin (hotel_principal :: obter_concorrentes hotel_principal st))
            (List.filter (no_periodo data_inicio data_fim)
               (listar_tarifas st)));
     Ok (Montou (hotel_principal :: obter_concorrentes hotel_principal st)
                (date_range data_inicio data_fim) matriz_dados)).
Proof.
  unfold montar_matriz.
  destruct (Nat.eqb (length (listar_hoteis st)) 0); [left; by eexists|].
  destruct (Nat.eqb (length (listar_tarifas st)) 0); [left; by eexists|].
  destruct (Z.ltb data_fim data_inicio); [left; by eexists|].
  destruct (Nat.eqb (length (List.filter _ (listar_tarifas st))) 0);
    [left; by eexists|].
  destruct (Nat.eqb (length (List.filter (isin _) _)) 0);
    [left; by eexists|].
  by right.
Qed.

Lemma celula_VNone (tarifas_data : list tarifa_row) :
  celula tarifas_data = Ok VNone ↔ tarifas_data = [].
Proof.
  destruct tarifas_data as [|t [|t' resto]]; [done|done|].
  rewrite celula_varias. cbv zeta.
  destruct (Qeq_bool _ 0); [done|]. by destruct (Qltb 0 _).
Qed.

(** X21: The chart of a store without a rate of zero and without a hotel listed
    twice: the page draws it whenever it shows the table, with one line per
    hotel of the matrix, in the order of the matrix, and on each line one
    point per day of the period; the point is a gap exactly on the days
    for which the hotel has no rate, and otherwise the number read from
    the cell of that day. Only the line of the primary hotel has width 4
    and markers of size 6. *)
Theorem grafico_series st (hotel_principal : string)
    (data_inicio data_fim : Z) :
  List.NoDup (hotel_principal :: obter_concorrentes hotel_principal st) →
  precos_nao_zero st →
  ∃ r, pagina_grafico st hotel_principal data_inicio data_fim = Ok r
       ∧ match r with
         | None =>
             ∃ a, matriz_comparativa st hotel_principal data_inicio data_fim
                  = Ok (Mensagem a)
         | Some tracos =>
             (∃ linhas,
                matriz_comparativa st hotel_principal data_inicio data_fim
                = Ok (Tabela linhas))
             ∧ Forall2
                 (fun hotel tr =>
                    tr_name tr = hotel
                    ∧ tr_x tr = date_range data_inicio data_fim
                    ∧ (tr_width tr = 4%Z ↔ hotel = hotel_principal)
                    ∧ (tr_marker_size tr = 6%Z ↔ hotel = hotel_principal)
                    ∧ Forall2
                        (fun data y =>
                           (y = None ↔
                            tarifas_de hotel data (listar_tarifas st) = [])
                           ∧ ∀ q, y = Some q →
                               ∃ v, celula (tarifas_de hotel data
                                              (listar_tarifas st)) = Ok v
                                    ∧ valor_num v = Ok q)
                        (date_range data_inicio data_fim) (tr_y tr))
                 (hotel_principal :: obter_concorrentes hotel_principal st)
                 tracos
         end.
Proof.
  intros Hnd Hnz. unfold pagina_grafico, matriz_comparativa.
  destruct (montar_matriz_casos st hotel_principal data_inicio data_fim)
    as [[a Ha] | Hm]; rewrite ?Ha, ?Hm; try clear Hm.
  { exists None. simpl. eauto. }
  set (hm := hotel_principal :: obter_concorrentes hotel_principal st).
  fold hm in Hnd.
  set (datas := date_range data_inicio data_fim).
  destruct (construir_matriz_celulas hm datas
              (List.filter (isin hm)
                 (List.filter (no_periodo data_inicio data_fim)
                    (listar_tarifas st))))
    as (m & Hm & Hcel & _ & _).
  { apply NoDup_seqZ. }
  { intros hotel data _ _. apply celulas_sem_zero.
    intros t Ht _ _. unfold precos_nao_zero in Hnz.
    rewrite Forall_forall in Hnz. by apply Hnz. }
  rewrite Hm. simpl.
  destruct (html_matriz_ok m hm hotel_principal datas Hnd)
    as (linhas & Hl & _).
  { by left. }
  { intros hotel data Hhm Hd.
    destruct (Hcel hotel data Hhm Hd) as (v & Hv & Hlk). eauto. }
  rewrite Hl. simpl.
  destruct (mapear_Forall2
    (fun hotel =>
       precos_hotel ← mapear (ponto m hm hotel) datas;
       Ok (mk_traco hotel datas precos_hotel
             (default "#95A5A6" (cores_hoteis hotel_principal !! hotel))
             (if String.eqb hotel hotel_principal then 4 else 2)
             (if String.eqb hotel hotel_principal then 6 else 4)))
    (fun hotel tr =>
       tr_name tr = hotel
       ∧ tr_x tr = datas
       ∧ (tr_width tr = 4%Z ↔ hotel = hotel_principal)
       ∧ (tr_marker_size tr = 6%Z ↔ hotel = hotel_principal)
       ∧ Forall2
           (fun data y =>
              (y = None ↔ tarifas_de hotel data (listar_tarifas st) = [])
              ∧ ∀ q, y = Some q →
                  ∃ v, celula (tarifas_de hotel data (listar_tarifas st))
                       = Ok v
                       ∧ valor_num v = Ok q)
           datas (tr_y tr))
    hm) as (tracos & Ht & HF).
  2:{ exists (Some tracos). unfold grafico. rewrite Ht. simpl.
      split; [done|]. split; [by eexists|done]. }
  intros hotel Hh.
  destruct (mapear_Forall2 (ponto m hm hotel)
    (fun data y =>
       (y = None ↔ tarifas_de hotel data (listar_tarifas st) = [])
       ∧ ∀ q, y = Some q →
           ∃ v, celula (tarifas_de hotel data (listar_tarifas st)) = Ok v
                ∧ valor_num v = Ok q)
    datas) as (ys & Hys & HFy).
  { intros data Hd.
    destruct (Hcel hotel data Hh Hd) as (v & Hv & Hlk).
    rewrite tarifas_de_filtradas in Hv;
      [|done|by apply elem_of_date_range].
    unfold ponto. rewrite (loc_celula_de _ _ _ _ v Hnd Hlk). simpl.
    destruct v as [|p|s].
    - exists None. split; [done|]. split; [|done].
      split; [intros _; by apply celula_VNone|done].
    - exists (Some p). simpl. split; [done|]. split.
      + split; [done|]. intros E. rewrite E in Hv. done.
      + intros q [= <-]. by exists (VFloat p).
    - destruct (valor_num_celula _ _ Hv) as [q Hq]; [done|].
      rewrite Hq. simpl. exists (Some q). split; [done|]. split.
      + split; [done|]. intros E. rewrite E in Hv. done.
      + intros q' [= <-]. by exists (VStr s). }
  rewrite Hys. simpl. eexists. split; [done|]. simpl.
  split; [done|]. split; [done|].
  destruct (String.eqb_spec hotel hotel_principal); by repeat split.
Qed.

Lemma grafico_series_cenario :
  ∃ r, pagina_grafico st_cenario "A" 1 2 = Ok r
       ∧ match r with
         | None =>
             ∃ a, matriz_comparativa st_cenario "A" 1 2 = Ok (Mensagem a)
         | Some tracos =>
             (∃ linhas,
                matriz_comparativa st_cenario "A" 1 2 = Ok (Tabela linhas))
             ∧ Forall2
                 (fun hotel tr =>
                    tr_name tr = hotel
                    ∧ tr_x tr = date_range 1 2
                    ∧ (tr_width tr = 4%Z ↔ hotel = "A")
                    ∧ (tr_marker_size tr = 6%Z ↔ hotel = "A")
                    ∧ Forall2
                        (fun data y =>
                           (y = None ↔
                            tarifas_de hotel data (listar_tarifas st_cenario)
                            = [])
                           ∧ ∀ q, y = Some q →
                               ∃ v, celula (tarifas_de hotel data
                                              (listar_tarifas st_cenario))
                                    = Ok v
                                    ∧ valor_num v = Ok q)
                        (date_range 1 2) (tr_y tr))
                 ("A" :: obter_concorrentes "A" st_cenario)
                 tracos
         end.
Proof.
  apply (grafico_series st_cenario "A" 1 2).
  - apply NoDup_ListNoDup. apply (bool_decide_unpack _). by vm_compute.
  - unfold precos_nao_zero. vm_compute tarifas.
    repeat constructor; discriminate.
Defined.

(** X22: The colour of a line: a hotel named in the dict literal keeps the colour
    written there also when it is the primary hotel, because a key written
    twice keeps the value written last; the primary hotel is orange only when
    it is none of these five; every other hotel takes the fallback grey. *)
Theorem cores_hoteis_cor (hotel_principal hotel : string) :
  (∀ c, (hotel, c) ∈ cores_fixas →
        cores_hoteis hotel_principal !! hotel = Some c)
  ∧ (hotel ∉ map fst cores_fixas →
     default "#95A5A6" (cores_hoteis hotel_principal !! hotel) =
     if String.eqb hotel hotel_principal then "#FFA500" else "#95A5A6")
  ∧ default "#95A5A6" (cores_hoteis "VENICE HOTEL" !! "VENICE HOTEL")
    = "#FF6B6B".
Proof.
  split; [|split; [|done]].
  - intros c Hc. unfold cores_fixas in Hc. unfold cores_hoteis.
    repeat (apply elem_of_cons in Hc as [[= -> ->] | Hc]);
      [..|by apply elem_of_nil in Hc].
    all: repeat (rewrite lookup_insert_ne by done).
    all: by rewrite lookup_insert_eq.
  - intros Hn. unfold cores_fixas in Hn. simpl in Hn.
    repeat (apply not_elem_of_cons in Hn as [? Hn]).
    unfold cores_hoteis.
    repeat (rewrite lookup_insert_ne by done).
    destruct (String.eqb_spec hotel hotel_principal) as [->|Hne].
    + by rewrite lookup_insert_eq.
    + rewrite lookup_insert_ne by done. by rewrite lookup_empty.
Qed.

End Grafico.

Section Comparacao.
#[local] Open Scope Q_scope.

(** X23: The comparison is monotone in the price of the competitor: raising it
    never moves the cell from safe towards threat. And a competitor at the
    price of the primary hotel is neutral when that price is not
    negative. *)
Theorem comparar_monotona (c1 c2 p : Q) :
  c1 <= c2 →
  ∃ t1 t2, comparar (VFloat c1) (VFloat p) = Ok t1
           ∧ comparar (VFloat c2) (VFloat p) = Ok t2
           ∧ (nivel t1 ≤ nivel t2)%Z
           ∧ (0 <= p → c1 == p → t1 = TdCor Cinza).
Proof.
  intros Hle. unfold comparar. simpl.
  destruct (Qltb c1 (p * 0.95)) eqn:E1;
    [apply Qltb_lt in E1|apply Qltb_ge in E1];
    (destruct (Qltb c2 (p * 0.95)) eqn:E2;
     [apply Qltb_lt in E2|apply Qltb_ge in E2]);
    (destruct (Qltb (p * 1.05) c1) eqn:E3;
     [apply Qltb_lt in E3|apply Qltb_ge in E3]);
    (destruct (Qltb (p * 1.05) c2) eqn:E4;
     [apply Qltb_lt in E4|apply Qltb_ge in E4]);
    do 2 eexists; (split; [reflexivity|]); (split; [reflexivity|]);
    (split;
     [first [by simpl | exfalso; lra]
     |intros Hp Hc; first [reflexivity | exfalso; lra]]).
Qed.

Lemma comparar_monotona_95_105 :
  ∃ t1 t2, comparar (VFloat 94) (VFloat 100) = Ok t1
           ∧ comparar (VFloat 106) (VFloat 100) = Ok t2
           ∧ (nivel t1 ≤ nivel t2)%Z
           ∧ (0 <= 100 → 94 == 100 → t1 = TdCor Cinza).
Proof. apply (comparar_monotona 94 106 100). discriminate. Defined.

Lemma arredondar_perto (y : Q) :
  Qabs (inject_Z (arredondar y) - y) <= 1 # 2.
Proof.
  unfold arredondar.
  pose proof (Qfloor_le y) as H1. pose proof (Qlt_floor y) as H2.
  rewrite inject_Z_plus in H2. change (inject_Z 1) with 1 in H2.
  apply Qabs_Qle_condition.
  destruct (Qcompare_spec (y - inject_Z (Qfloor y)) (1 # 2)) as [E|E|E].
  - destruct (Z.even (Qfloor y)); rewrite ?inject_Z_plus;
      change (inject_Z 1) with 1; split; lra.
  - split; lra.
  - rewrite inject_Z_plus. change (inject_Z 1) with 1. split; lra.
Qed.

(** X24: What the comparison and the chart read from the text of a range is a
    whole number within one half of the smallest price, whatever the two
    prices are. *)
Theorem valor_num_faixa_perto (preco_min preco_max : Q) :
  ∃ n : Z,
    valor_num (VStr (fmt_0f preco_min +:+ seta +:+ fmt_0f preco_max))
    = Ok (inject_Z n)
    ∧ Qabs (inject_Z n - preco_min) <= 1 # 2.
Proof.
  exists (arredondado preco_min). split; [apply valor_num_faixa|].
  unfold arredondado.
  pose proof (arredondar_perto (Qabs preco_min)) as H.
  apply Qabs_Qle_condition in H. apply Qabs_Qle_condition.
  destruct (Qltb preco_min 0) eqn:E.
  - apply Qltb_lt in E.
    assert (Ha : Qabs preco_min == - preco_min) by (apply Qabs_neg; lra).
    rewrite inject_Z_opp. split; lra.
  - apply Qltb_ge in E.
    assert (Ha : Qabs preco_min == preco_min) by (by apply Qabs_pos).
    split; lra.
Qed.

End Comparacao.

(** * Unique names *)

Section Unicidade.
Implicit Types (st : db).

Lemma nomes_atualizar_hotel (nome_antigo nome_novo booking_url : string)
    (hs : list hotel_row) :
  map h_nome
      (map (fun h => if tem_nome nome_antigo h
                     then mk_hotel (h_id h) nome_novo booking_url
                     else h) hs) =
  map (fun n => if String.eqb n nome_antigo then nome_novo else n)
      (map h_nome hs).
Proof.
  rewrite !map_map. apply map_ext. intros h. unfold tem_nome.
  by destruct (String.eqb (h_nome h) nome_antigo).
Qed.

Lemma existsb_titulo_elem_of (titulo : string) (l : list importacao_row) :
  existsb (fun i => String.eqb (i_titulo i) titulo) l = true ↔
  titulo ∈ map i_titulo l.
Proof.
  rewrite existsb_exists, list_elem_of_In, in_map_iff.
  split; intros (i & H1 & H2); exists i.
  - split; [by apply String.eqb_eq|done].
  - split; [done|by apply String.eqb_eq].
Qed.

(** X2: The two [UNIQUE] columns stay unique: no hotel name and no batch title
    is ever stored twice, whatever is created, renamed or deleted. A rename
    that would give two hotels one name raises and changes nothing; a
    rename of a hotel to its own name, or of a name no hotel has, is
    accepted. *)
Theorem nomes_unicos_preservado st :
  nomes_unicos st →
  (∀ nome booking_url, nomes_unicos (snd (criar_hotel nome booking_url st)))
  ∧ (∀ antigo novo booking_url,
       nomes_unicos (persistido (atualizar_hotel antigo novo booking_url st)
                                st)
       ∧ (atualizar_hotel antigo novo booking_url st = Raise IntegrityError ↔
          antigo ∈ map h_nome (hoteis st) ∧ antigo ≠ novo
          ∧ novo ∈ map h_nome (hoteis st)))
  ∧ (∀ nome, nomes_unicos (excluir_hotel nome st))
  ∧ (∀ titulo hotel n,
       nomes_unicos (persistido (r ← criar_importacao titulo hotel n st;
                                 Ok (snd r)) st))
  ∧ (∀ id, nomes_unicos (excluir_importacao id st)).
Proof.
  intros [Hh Hi].
  split.
  { intros nome url. unfold criar_hotel.
    destruct (existsb (tem_nome nome) (hoteis st)) eqn:E; simpl; [done|].
    split; [|done]. simpl. rewrite map_app. simpl.
    apply NoDup_ListNoDup, NoDup_app. split; [by apply NoDup_ListNoDup|].
    split; [|apply NoDup_singleton].
    intros x Hx Hx'. apply list_elem_of_singleton in Hx'. subst.
    apply tem_nome_elem_of in Hx. congruence. }
  split.
  { intros antigo novo url. unfold atualizar_hotel.
    set (cond := existsb (tem_nome antigo) (hoteis st)
                 && negb (String.eqb antigo novo)
                 && existsb (tem_nome novo) (hoteis st)).
    assert (Hcond : cond = true ↔
                    antigo ∈ map h_nome (hoteis st) ∧ antigo ≠ novo
                    ∧ novo ∈ map h_nome (hoteis st)).
    { unfold cond.
      rewrite !andb_true_iff, negb_true_iff, String.eqb_neq,
        !tem_nome_elem_of. tauto. }
    destruct cond eqn:E; simpl.
    { split; [done|]. split; [intros _; by apply Hcond|done]. }
    split; [|split; [done|intros H; apply Hcond in H; congruence]].
    assert (Hn : ¬ (antigo ∈ map h_nome (hoteis st) ∧ antigo ≠ novo
                    ∧ novo ∈ map h_nome (hoteis st))).
    { rewrite <- Hcond. congruence. }
    split; [|done]. simpl. rewrite nomes_atualizar_hotel.
    destruct (decide (antigo ∈ map h_nome (hoteis st))) as [Ha|Ha].
    - destruct (decide (antigo = novo)) as [->|Hne].
      + erewrite map_ext; [by rewrite map_id|].
        intros n. simpl. by destruct (String.eqb_spec n novo) as [->|].
      + apply Finite.Injective_map_NoDup_in; [|done].
        intros x y Hx Hy. apply list_elem_of_In in Hx, Hy.
        destruct (String.eqb_spec x antigo), (String.eqb_spec y antigo);
          try congruence; intros; subst; exfalso; apply Hn; done.
    - erewrite map_ext_in; [by rewrite map_id|].
      intros n Hin. simpl. apply list_elem_of_In in Hin.
      destruct (String.eqb_spec n antigo) as [->|]; done. }
  split.
  { intros nome. split; simpl; by apply NoDup_map_filter. }
  split.
  { intros titulo hotel n. unfold criar_importacao.
    destruct (existsb _ (importacoes st)) eqn:E; simpl; [done|].
    split; [done|]. simpl. rewrite map_app. simpl.
    apply NoDup_ListNoDup, NoDup_app. split; [by apply NoDup_ListNoDup|].
    split; [|apply NoDup_singleton].
    intros x Hx Hx'. apply list_elem_of_singleton in Hx'. subst.
    apply existsb_titulo_elem_of in Hx. congruence. }
  intros id. unfold excluir_importacao.
  destruct (find _ _); [|done]. split; [done|]. simpl.
  by apply NoDup_map_filter.
Qed.

Lemma nomes_unicos_preservado_cenario :
  (∀ nome booking_url,
     nomes_unicos (snd (criar_hotel nome booking_url st_cenario)))
  ∧ (∀ antigo novo booking_url,
       nomes_unicos (persistido (atualizar_hotel antigo novo booking_url
                                   st_cenario) st_cenario)
       ∧ (atualizar_hotel antigo novo booking_url st_cenario
          = Raise IntegrityError ↔
          antigo ∈ map h_nome (hoteis st_cenario) ∧ antigo ≠ novo
          ∧ novo ∈ map h_nome (hoteis st_cenario)))
  ∧ (∀ nome, nomes_unicos (excluir_hotel nome st_cenario))
  ∧ (∀ titulo hotel n,
       nomes_unicos (persistido (r ← criar_importacao titulo hotel n
                                       st_cenario;
                                 Ok (snd r)) st_cenario))
  ∧ (∀ id, nomes_unicos (excluir_importacao id st_cenario)).
Proof.
  apply (nomes_unicos_preservado st_cenario).
  unfold nomes_unicos. vm_compute.
  split; repeat constructor; simpl; intuition discriminate.
Defined.

End Unicidade.

(** * Scenarios *)

Section Cenarios.
Implicit Types (st : db).

Lemma chaves_ok_preservado_cenario :
  (∀ nome booking_url,
     chaves_ok (snd (criar_hotel nome booking_url st_cenario)))
  ∧ (∀ antigo novo booking_url,
       chaves_ok (persistido (atualizar_hotel antigo novo booking_url
                                st_cenario) st_cenario))
  ∧ (∀ nome, chaves_ok (excluir_hotel nome st_cenario))
  ∧ (∀ p c, chaves_ok (criar_relacionamento p c st_cenario))
  ∧ (∀ p, chaves_ok (excluir_relacionamentos p st_cenario))
  ∧ (∀ p cs, chaves_ok (salvar_relacionamentos p cs st_cenario))
  ∧ (∀ titulo hotel n,
       chaves_ok (persistido (r ← criar_importacao titulo hotel n st_cenario;
                              Ok (snd r)) st_cenario))
  ∧ (∀ id, chaves_ok (excluir_importacao id st_cenario))
  ∧ (∀ hotel data preco sequencia,
       chaves_ok (criar_tarifa hotel data preco sequencia st_cenario))
  ∧ (∀ id, chaves_ok (excluir_tarifa id st_cenario))
  ∧ (∀ hotel df titulo,
       chaves_ok (snd (importar_tarifas_excel hotel df titulo st_cenario)))
  ∧ chaves_ok (limpar_tarifas st_cenario)
  ∧ chaves_ok (inserir_dados_iniciais st_cenario).
Proof.
  apply (chaves_ok_preservado st_cenario).
  unfold chaves_ok, tabela_ok. vm_compute.
  repeat split; repeat constructor; simpl; intuition discriminate.
Defined.

Lemma matriz_comparativa_tabela_cenario :
  ∃ linhas,
    matriz_comparativa st_cenario "A" 1 2 = Ok (Tabela linhas)
    ∧ map fst linhas = "A" :: obter_concorrentes "A" st_cenario
    ∧ Forall (fun linha => length (snd linha) = Z.to_nat (2 - 1 + 1)) linhas.
Proof.
  apply (matriz_comparativa_tabela st_cenario "A" 1 2).
  - apply NoDup_ListNoDup. apply (bool_decide_unpack _). by vm_compute.
  - discriminate.
  - lia.
  - exists (mk_tarifa 1 "A" 1 100 1 None). split; [by left|].
    split; reflexivity.
  - intros t Ht _ _ Hz. apply list_elem_of_In in Ht. simpl in Ht.
    destruct Ht as [<-|[<-|[<-|[]]]]; discriminate Hz.
Defined.

End Cenarios.

(** * Cells without a value *)

Section CelulasVazias.
Implicit Types (st : db).

(** C4, amended: when no hotel is listed twice among the primary hotel and
    its competitors, the table of a grid the page has built is rendered
    without raising; every cell is read by [loc] without an exception, a
    cell that holds no value is rendered as "-", and for a hotel other than
    the primary one a cell is in one of the two uncoloured shapes, which
    stand for Unknown (never Threat, Safe or Neutral), whenever it or the
    cell of the primary hotel on that date holds no value. *)
Theorem estilo_sem_valor st (hotel_principal : string)
    (data_inicio data_fim : Z) (hoteis_matriz : list string)
    (datas_periodo : list Z) (df_matriz : gmap string (gmap Z conteudo)) :
  List.NoDup (hotel_principal :: obter_concorrentes hotel_principal st) →
  montar_matriz st hotel_principal data_inicio data_fim =
    Ok (Montou hoteis_matriz datas_periodo df_matriz) →
  ∃ linhas,
    html_matriz df_matriz hoteis_matriz hotel_principal datas_periodo =
      Ok linhas
    ∧ matriz_comparativa st hotel_principal data_inicio data_fim =
      Ok (Tabela linhas)
    ∧ Forall2
        (fun hotel linha =>
           fst linha = hotel
           ∧ Forall2
               (fun data t =>
                  ∃ valor valor_principal,
                    loc df_matriz hoteis_matriz hotel data = Ok valor
                    ∧ loc df_matriz hoteis_matriz hotel_principal data =
                      Ok valor_principal
                    ∧ estilo hotel hotel_principal valor
                        (loc df_matriz hoteis_matriz hotel_principal data)
                      = Ok t
                    ∧ (valor = VNone → t = TdTraco)
                    ∧ (hotel ≠ hotel_principal →
                       valor = VNone ∨ valor_principal = VNone →
                       classificacao t = Some Spec.Unknown))
               datas_periodo (snd linha))
        hoteis_matriz linhas.
Proof.
  intros Hnd Hm.
  destruct (montar_matriz_casos st hotel_principal data_inicio data_fim)
    as [[a Ha] | Hc]; [congruence|].
  unfold matriz_comparativa. rewrite Hm. rewrite Hc in Hm.
  destruct (construir_matriz _ _ _) as [m|e] eqn:Hcm; [|done].
  simpl in Hm. injection Hm as <- <- <-.
  pose proof (construir_matriz_Ok_celulas _ _ _ _ (NoDup_seqZ _ _) Hcm)
    as Hcel.
  destruct (html_matriz_ok m
              (hotel_principal :: obter_concorrentes hotel_principal st)
              hotel_principal (date_range data_inicio data_fim) Hnd)
    as (linhas & Hl & HF).
  { by left. }
  { intros hotel data Hh Hd.
    destruct (Hcel hotel data Hh Hd) as (v & Hv & Hlk). eauto. }
  exists linhas. split; [done|]. split; [simpl; by rewrite Hl|].
  eapply Forall2_impl; [exact HF|]. intros hotel linha [Hf HF2].
  split; [done|].
  eapply Forall2_impl; [exact HF2|].
  intros data t (valor & vp & Hv & Hvp & He).
  exists valor, vp.
  rewrite (loc_celula_de _ _ _ _ valor Hnd Hv),
    (loc_celula_de _ _ _ _ vp Hnd Hvp).
  split; [done|]. split; [done|]. split; [done|]. split.
  - intros ->. simpl in He. congruence.
  - intros Hne Hnone.
    destruct (estilo_vazio hotel hotel_principal valor vp Hne Hnone)
      as (t' & Ht' & Hu). congruence.
Qed.

(** The amended C4 on the scenario: on day 2 the primary hotel A holds no
    value and B holds 90. *)
Lemma estilo_sem_valor_cenario :
  ∃ df_matriz,
    montar_matriz st_cenario "A" 1 2 =
      Ok (Montou ["A"; "B"] [1; 2]%Z df_matriz)
    ∧ ∃ linhas,
        html_matriz df_matriz ["A"; "B"] "A" [1; 2]%Z = Ok linhas
        ∧ matriz_comparativa st_cenario "A" 1 2 = Ok (Tabela linhas)
        ∧ Forall2
            (fun hotel linha =>
               fst linha = hotel
               ∧ Forall2
                   (fun data t =>
                      ∃ valor valor_principal,
                        loc df_matriz ["A"; "B"] hotel data = Ok valor
                        ∧ loc df_matriz ["A"; "B"] "A" data =
                          Ok valor_principal
                        ∧ estilo hotel "A" valor
                            (loc df_matriz ["A"; "B"] "A" data) = Ok t
                        ∧ (valor = VNone → t = TdTraco)
                        ∧ (hotel ≠ "A" →
                           valor = VNone ∨ valor_principal = VNone →
                           classificacao t = Some Spec.Unknown))
                   [1; 2]%Z (snd linha))
            ["A"; "B"] linhas.
Proof.
  assert (E : ∃ df_matriz,
            montar_matriz st_cenario "A" 1 2 =
            Ok (Montou ["A"; "B"] [1; 2]%Z df_matriz)).
  { exists (match montar_matriz st_cenario "A" 1 2 with
            | Ok (Montou _ _ m) => m
            | _ => ∅
            end).
    vm_compute. reflexivity. }
  destruct E as [m E]. exists m. split; [exact E|].
  apply (estilo_sem_valor st_cenario "A" 1 2 ["A"; "B"] [1; 2]%Z m);
    [|exact E].
  apply NoDup_ListNoDup. apply (bool_decide_unpack _). by vm_compute.
Defined.

(** C4, as stated, fails when a competitor is listed twice: with B registered
    twice for A and no rate of B on day 1, the cell of B holds no value,
    yet reading it raises [ValueError] and the page renders nothing. *)
Lemma estilo_sem_valor_repetido :
  obter_concorrentes "A" st_concorrente_repetido = ["B"; "B"]
  ∧ (∃ df_matriz,
       montar_matriz st_concorrente_repetido "A" 1 1 =
         Ok (Montou ["A"; "B"; "B"] [1]%Z df_matriz)
       ∧ celula_de df_matriz "B" 1 = Some VNone
       ∧ loc df_matriz ["A"; "B"; "B"] "B" 1 = Raise ValueError)
  ∧ matriz_comparativa st_concorrente_repetido "A" 1 1 = Raise ValueError.
Proof.
  split; [reflexivity|]. split; [|vm_compute; reflexivity].
  exists (match montar_matriz st_concorrente_repetido "A" 1 1 with
          | Ok (Montou _ _ m) => m
          | _ => ∅
          end).
  repeat split; vm_compute; reflexivity.
Qed.

End CelulasVazias.
